(** * Acehome booking server: a shallow embedding of [server/index.js]

    The Express handlers of the booking core are embedded as functions over
    an explicit document store.  Every handler is written in a small
    state-and-early-return monad: a [return res.status(..).json(..)] in the
    source ends the handler with the writes made so far still in the store,
    exactly as awaited Mongoose writes stay committed.

    Conventions of the embedding
    - a Mongoose collection is a [list] of documents in natural order;
      [findOne] is the first match, [save] replaces the document of the same
      [_id];
    - a JavaScript [Number] is an integer of [Z] (money in whole units), a
      [Date] is its millisecond time stamp, an [ObjectId] is a [nat]; the
      amount test of payment verification, which divides and compares with
      [0.01], is computed on binary64 doubles;
    - [new Date()] and the freshly generated one-time code are arguments of
      the handlers; SHA-256, HMAC, [isEmail] and [JSON.parse] are section
      variables;
    - [Model.create] and [doc.save()] validate the document; the failures
      that the paths kept here can cause in verify-otp and in the wallet
      route end, as in the [catch] block, with status 500;
    - notifications, logging and [populate] do not touch the store and are
      left out. *)

From Stdlib Require Import ZArith List String Ascii Bool Lia QArith.
From Stdlib Require Import Qround Permutation Sorted.
From Stdlib Require Import Floats.SpecFloat DecimalString.
Import ListNotations.
Local Open Scope string_scope.
Local Open Scope Z_scope.

Set Implicit Arguments.

(** ** JavaScript helpers *)

Definition Id := nat.
Definition Date := Z.
Definition Number := Z.
Bind Scope nat_scope with Id.
Bind Scope Z_scope with Date Number.

(** [Number(x) || 0]: an absent or non-numeric field counts as 0. *)
Definition number_or_0 (x : option Number) : Number :=
  match x with Some v => v | None => 0 end.

(** [a || b] on optional strings: [undefined] and [''] are falsy. *)
Definition truthy (a : option string) : bool :=
  match a with
  | Some s => negb (String.eqb s "")
  | None => false
  end.

Definition js_or (a b : option string) : option string :=
  if truthy a then a else b.

Definition opt_id_eqb (a : option Id) (i : Id) : bool :=
  match a with Some j => Nat.eqb j i | None => false end.

Definition is_some {A : Type} (a : option A) : bool :=
  match a with Some _ => true | None => false end.

(** White space removed by [String.prototype.trim] (code units below 128). *)
Definition is_space (c : ascii) : bool :=
  let n := nat_of_ascii c in
  orb (Nat.eqb n 32) (andb (Nat.leb 9 n) (Nat.leb n 13)).

Fixpoint trim_start (s : string) : string :=
  match s with
  | String c r => if is_space c then trim_start r else s
  | EmptyString => EmptyString
  end.

Fixpoint rev_string (acc s : string) : string :=
  match s with
  | String c r => rev_string (String c acc) r
  | EmptyString => acc
  end.

Definition trim (s : string) : string :=
  rev_string "" (trim_start (rev_string "" (trim_start s))).

Definition upper_char (c : ascii) : ascii :=
  let n := nat_of_ascii c in
  if andb (Nat.leb 97 n) (Nat.leb n 122) then ascii_of_nat (n - 32) else c.

Fixpoint toUpperCase (s : string) : string :=
  match s with
  | String c r => String (upper_char c) (toUpperCase r)
  | EmptyString => EmptyString
  end.

Fixpoint remove_angle (s : string) : string :=
  match s with
  | String c r =>
      if orb (Ascii.eqb c "<") (Ascii.eqb c ">") then remove_angle r
      else String c (remove_angle r)
  | EmptyString => EmptyString
  end.

(** [sanitizeInput]: trim, drop [<] and [>], keep the first 1000 units. *)
Definition sanitizeInput (str : string) : string :=
  substring 0 1000 (remove_angle (trim str)).

(** [timeSlotMap[t] || t]: the three named windows map to their ranges. *)
Definition timeSlotMap (t : string) : option string :=
  if String.eqb t "morning" then Some "09:00-12:00"
  else if String.eqb t "afternoon" then Some "12:00-15:00"
  else if String.eqb t "evening" then Some "15:00-18:00"
  else None.

Definition actualTimeSlot (t : string) : string :=
  match timeSlotMap t with Some r => r | None => t end.

(** [setHours(0,0,0,0)] and [setHours(23,59,59,999)] on a time stamp, with
    the server clock in UTC. *)
Definition ms_per_day : Z := 86400000.
Definition day_start (d : Date) : Date := d - d mod ms_per_day.
Definition day_end (d : Date) : Date := day_start d + (ms_per_day - 1).

(** ** Collections *)

Section Collection.
Context {A : Type} (id_of : A -> Id).

Definition findOne (f : A -> bool) (l : list A) : option A := find f l.

Definition findById (i : Id) (l : list A) : option A :=
  find (fun d => Nat.eqb (id_of d) i) l.

(** The first document matching [f] is replaced by [u] of it. *)
Fixpoint updateOne (f : A -> bool) (u : A -> A) (l : list A) : list A :=
  match l with
  | [] => []
  | d :: r => if f d then u d :: r else d :: updateOne f u r
  end.

(** [doc.save()] of a loaded document. *)
Definition save (d : A) (l : list A) : list A :=
  updateOne (fun x => Nat.eqb (id_of x) (id_of d)) (fun _ => d) l.

Definition findByIdAndUpdate (i : Id) (u : A -> A) (l : list A) : list A :=
  updateOne (fun x => Nat.eqb (id_of x) i) u l.

Fixpoint deleteOne (i : Id) (l : list A) : list A :=
  match l with
  | [] => []
  | d :: r => if Nat.eqb (id_of d) i then r else d :: deleteOne i r
  end.

Definition countDocuments (f : A -> bool) (l : list A) : Number :=
  Z.of_nat (List.length (filter f l)).
End Collection.

(** ** Data model: the Mongoose schemas

    Only the paths read or written by the handlers below are kept; free-text
    and display paths (addresses, names of services, photos, notes) are not. *)

Module Profile.
Record t : Type := mk {
  _id : Id;
  phone : string;
  full_name : string;
  email : option string;
  email_verified : bool;
  role : string;
  wallet_balance : Number;
  phone_verified : bool;
  id_verified : bool;
  background_check_status : string;
  skills_verified : bool;
  skills : list Id;
  location : option string;
  is_available : bool;
  max_capacity : Number;
  current_jobs : Number;
  rating : Number;
  experience_years : Number;
  approval_status : string }.

Definition set_wallet_balance (v : Number) (p : t) : t :=
  mk (_id p) (phone p) (full_name p) (email p) (email_verified p) (role p) v
     (phone_verified p) (id_verified p) (background_check_status p)
     (skills_verified p) (skills p) (location p) (is_available p)
     (max_capacity p) (current_jobs p) (rating p) (experience_years p)
     (approval_status p).

Definition set_current_jobs (v : Number) (p : t) : t :=
  mk (_id p) (phone p) (full_name p) (email p) (email_verified p) (role p)
     (wallet_balance p) (phone_verified p) (id_verified p)
     (background_check_status p) (skills_verified p) (skills p) (location p)
     (is_available p) (max_capacity p) v (rating p) (experience_years p)
     (approval_status p).

(** The writes of verify-otp on an existing profile. *)
Definition set_verified (name : string) (mail : option string) (verified : bool)
    (p : t) : t :=
  mk (_id p) (phone p) name mail verified (role p) (wallet_balance p) true
     (id_verified p) (background_check_status p) (skills_verified p)
     (skills p) (location p) (is_available p) (max_capacity p)
     (current_jobs p) (rating p) (experience_years p) (approval_status p).

(** [Profile.create] of verify-otp: the other paths take schema defaults. *)
Definition create (i : Id) (ph name : string) (mail : option string)
    (r : string) : t :=
  mk i ph name mail (truthy mail) r 0 true false "pending" false [] None
     true 5 0 0 0 "pending".
End Profile.

Inductive PaymentMethod : Type := online | cod | wallet.
Inductive Actor : Type := customer | admin | worker.

Definition PaymentMethod_eqb (a b : PaymentMethod) : bool :=
  match a, b with
  | online, online | cod, cod | wallet, wallet => true
  | _, _ => false
  end.

Module Booking.
Record t : Type := mk {
  _id : Id;
  customer_id : Id;
  service_id : Id;
  employee_id : option Id;
  status : string;
  booking_date : option Date;
  booking_time : option string;
  total_price : Number;
  base_price : Number;
  addon_price : Number;
  discount_amount : Number;
  platform_fee : Number;
  wallet_amount : Number;
  payment_status : string;
  payment_method : PaymentMethod;
  customer_pincode : option string;
  customer_address_pincode : option string;
  assigned_at : option Date;
  accepted_at : option Date;
  reached_at : option Date;
  started_at : option Date;
  completed_at : option Date;
  cancelled_at : option Date;
  cancellation_reason : option string;
  cancelled_by : option Actor }.

Definition set_status (v : string) (b : t) : t :=
  mk (_id b) (customer_id b) (service_id b) (employee_id b) v
     (booking_date b) (booking_time b) (total_price b) (base_price b)
     (addon_price b) (discount_amount b) (platform_fee b) (wallet_amount b)
     (payment_status b) (payment_method b) (customer_pincode b)
     (customer_address_pincode b) (assigned_at b) (accepted_at b)
     (reached_at b) (started_at b) (completed_at b) (cancelled_at b)
     (cancellation_reason b) (cancelled_by b).

Definition set_employee_id (v : option Id) (b : t) : t :=
  mk (_id b) (customer_id b) (service_id b) v (status b)
     (booking_date b) (booking_time b) (total_price b) (base_price b)
     (addon_price b) (discount_amount b) (platform_fee b) (wallet_amount b)
     (payment_status b) (payment_method b) (customer_pincode b)
     (customer_address_pincode b) (assigned_at b) (accepted_at b)
     (reached_at b) (started_at b) (completed_at b) (cancelled_at b)
     (cancellation_reason b) (cancelled_by b).

Definition set_schedule (d : option Date) (tm : option string) (b : t) : t :=
  mk (_id b) (customer_id b) (service_id b) (employee_id b) (status b)
     d tm (total_price b) (base_price b)
     (addon_price b) (discount_amount b) (platform_fee b) (wallet_amount b)
     (payment_status b) (payment_method b) (customer_pincode b)
     (customer_address_pincode b) (assigned_at b) (accepted_at b)
     (reached_at b) (started_at b) (completed_at b) (cancelled_at b)
     (cancellation_reason b) (cancelled_by b).

Definition set_payment (ps : string) (pm : PaymentMethod) (b : t) : t :=
  mk (_id b) (customer_id b) (service_id b) (employee_id b) (status b)
     (booking_date b) (booking_time b) (total_price b) (base_price b)
     (addon_price b) (discount_amount b) (platform_fee b) (wallet_amount b)
     ps pm (customer_pincode b)
     (customer_address_pincode b) (assigned_at b) (accepted_at b)
     (reached_at b) (started_at b) (completed_at b) (cancelled_at b)
     (cancellation_reason b) (cancelled_by b).

Definition set_payment_status (ps : string) (b : t) : t :=
  set_payment ps (payment_method b) b.

(** The six time stamps, set one at a time. *)
Definition set_assigned_at (v : option Date) (b : t) : t :=
  mk (_id b) (customer_id b) (service_id b) (employee_id b) (status b)
     (booking_date b) (booking_time b) (total_price b) (base_price b)
     (addon_price b) (discount_amount b) (platform_fee b) (wallet_amount b)
     (payment_status b) (payment_method b) (customer_pincode b)
     (customer_address_pincode b) v (accepted_at b)
     (reached_at b) (started_at b) (completed_at b) (cancelled_at b)
     (cancellation_reason b) (cancelled_by b).

Definition set_accepted_at (v : option Date) (b : t) : t :=
  mk (_id b) (customer_id b) (service_id b) (employee_id b) (status b)
     (booking_date b) (booking_time b) (total_price b) (base_price b)
     (addon_price b) (discount_amount b) (platform_fee b) (wallet_amount b)
     (payment_status b) (payment_method b) (customer_pincode b)
     (customer_address_pincode b) (assigned_at b) v
     (reached_at b) (started_at b) (completed_at b) (cancelled_at b)
     (cancellation_reason b) (cancelled_by b).

Definition set_reached_at (v : option Date) (b : t) : t :=
  mk (_id b) (customer_id b) (service_id b) (employee_id b) (status b)
     (booking_date b) (booking_time b) (total_price b) (base_price b)
     (addon_price b) (discount_amount b) (platform_fee b) (wallet_amount b)
     (payment_status b) (payment_method b) (customer_pincode b)
     (customer_address_pincode b) (assigned_at b) (accepted_at b)
     v (started_at b) (completed_at b) (cancelled_at b)
     (cancellation_reason b) (cancelled_by b).

Definition set_started_at (v : option Date) (b : t) : t :=
  mk (_id b) (customer_id b) (service_id b) (employee_id b) (status b)
     (booking_date b) (booking_time b) (total_price b) (base_price b)
     (addon_price b) (discount_amount b) (platform_fee b) (wallet_amount b)
     (payment_status b) (payment_method b) (customer_pincode b)
     (customer_address_pincode b) (assigned_at b) (accepted_at b)
     (reached_at b) v (completed_at b) (cancelled_at b)
     (cancellation_reason b) (cancelled_by b).

Definition set_completed_at (v : option Date) (b : t) : t :=
  mk (_id b) (customer_id b) (service_id b) (employee_id b) (status b)
     (booking_date b) (booking_time b) (total_price b) (base_price b)
     (addon_price b) (discount_amount b) (platform_fee b) (wallet_amount b)
     (payment_status b) (payment_method b) (customer_pincode b)
     (customer_address_pincode b) (assigned_at b) (accepted_at b)
     (reached_at b) (started_at b) v (cancelled_at b)
     (cancellation_reason b) (cancelled_by b).

Definition set_cancellation (at_ : option Date) (reason : option string)
    (by_ : option Actor) (b : t) : t :=
  mk (_id b) (customer_id b) (service_id b) (employee_id b) (status b)
     (booking_date b) (booking_time b) (total_price b) (base_price b)
     (addon_price b) (discount_amount b) (platform_fee b) (wallet_amount b)
     (payment_status b) (payment_method b) (customer_pincode b)
     (customer_address_pincode b) (assigned_at b) (accepted_at b)
     (reached_at b) (started_at b) (completed_at b) at_ reason by_.
End Booking.

Module Slot.
Record t : Type := mk {
  _id : Id;
  service_id : Id;
  date : Date;
  time_slot : string;
  total_capacity : Number;
  booked_count : Number;
  is_available : bool }.

Definition set_booked (n : Number) (avail : bool) (s : t) : t :=
  mk (_id s) (service_id s) (date s) (time_slot s) (total_capacity s) n avail.
End Slot.

Module PromoCode.
Record t : Type := mk {
  _id : Id;
  code : string;
  min_order_value : Number;
  valid_from : option Date;
  valid_until : option Date;
  is_active : bool;
  usage_count : Number;
  max_usage : option Number }.

Definition set_usage_count (n : Number) (p : t) : t :=
  mk (_id p) (code p) (min_order_value p) (valid_from p) (valid_until p)
     (is_active p) n (max_usage p).
End PromoCode.

Module OTP.
Record t : Type := mk {
  _id : Id;
  phone : string;
  code_hash : string;
  purpose : string;
  expires_at : Date;
  attempts : Number;
  last_sent_at : option Date;
  created_at : Date }.

Definition set_attempts (n : Number) (o : t) : t :=
  mk (_id o) (phone o) (code_hash o) (purpose o) (expires_at o) n
     (last_sent_at o) (created_at o).
End OTP.

Inductive TransactionType : Type := credit | debit | refund.

Module WalletTransaction.
Record t : Type := mk {
  _id : Id;
  user_id : Id;
  amount : Number;
  transaction_type : TransactionType;
  description : string;
  booking_id : option Id }.
End WalletTransaction.

Module ServiceabilityArea.
Record t : Type := mk {
  city : string;
  pincodes : list string;
  is_active : bool }.
End ServiceabilityArea.

(** ** The document store *)

Record Store : Type := mkStore {
  profiles : list Profile.t;
  bookings : list Booking.t;
  slots : list Slot.t;
  promos : list PromoCode.t;
  otps : list OTP.t;
  transactions : list WalletTransaction.t;
  areas : list ServiceabilityArea.t;
  services : list Id;
  next_id : Id }.

Definition with_profiles (v : list Profile.t) (s : Store) : Store :=
  mkStore v (bookings s) (slots s) (promos s) (otps s) (transactions s)
          (areas s) (services s) (next_id s).

Definition with_bookings (v : list Booking.t) (s : Store) : Store :=
  mkStore (profiles s) v (slots s) (promos s) (otps s) (transactions s)
          (areas s) (services s) (next_id s).

Definition with_slots (v : list Slot.t) (s : Store) : Store :=
  mkStore (profiles s) (bookings s) v (promos s) (otps s) (transactions s)
          (areas s) (services s) (next_id s).

Definition with_promos (v : list PromoCode.t) (s : Store) : Store :=
  mkStore (profiles s) (bookings s) (slots s) v (otps s) (transactions s)
          (areas s) (services s) (next_id s).

Definition with_otps (v : list OTP.t) (s : Store) : Store :=
  mkStore (profiles s) (bookings s) (slots s) (promos s) v (transactions s)
          (areas s) (services s) (next_id s).

Definition with_transactions (v : list WalletTransaction.t) (s : Store)
    : Store :=
  mkStore (profiles s) (bookings s) (slots s) (promos s) (otps s) v
          (areas s) (services s) (next_id s).

Definition with_next_id (v : Id) (s : Store) : Store :=
  mkStore (profiles s) (bookings s) (slots s) (promos s) (otps s)
          (transactions s) (areas s) (services s) v.

(** ** Responses and the handler monad *)

Inductive Payload : Type :=
| PBooking (b : Booking.t)
| PProfile (p : Profile.t) (needsProfileCompletion : bool)
| PPromo (p : PromoCode.t)
| PTransaction (t : WalletTransaction.t)
| PPaid (booking_id : Id) (payment_id : string)
| PSuccess.

Inductive Response : Type :=
| Json (body : Payload)
| Fail (http : nat) (error : string).

(** A step of a handler either goes on with a value or has already sent
    the response; the store is threaded through both. *)
Inductive Outcome (A : Type) : Type :=
| Next (a : A)
| Sent (r : Response).
Arguments Sent {A} r.

Definition Handler (A : Type) : Type := Store -> Outcome A * Store.

Definition ret {A : Type} (a : A) : Handler A := fun s => (Next a, s).

Definition bind {A B : Type} (m : Handler A) (k : A -> Handler B)
    : Handler B :=
  fun s =>
    match m s with
    | (Next a, s') => k a s'
    | (Sent r, s') => (Sent r, s')
    end.

(** [return res.status(http).json({ error })] *)
Definition reject {A : Type} (http : nat) (error : string) : Handler A :=
  fun s => (Sent (Fail http error), s).

Definition get : Handler Store := fun s => (Next s, s).
Definition modify (f : Store -> Store) : Handler unit :=
  fun s => (Next tt, f s).

Definition when (c : bool) (h : Handler unit) : Handler unit :=
  if c then h else ret tt.

Declare Scope handler_scope.
Delimit Scope handler_scope with handler.
Notation "x <- m ;; k" := (bind m (fun x => k))
  (at level 100, m at next level, right associativity) : handler_scope.
Notation "m ;; k" := (bind m (fun _ => k))
  (at level 100, right associativity) : handler_scope.
Local Open Scope handler_scope.

(** Running a handler on a store: the response and the store it leaves. *)
Definition run (h : Handler Response) (s : Store) : Response * Store :=
  match h s with
  | (Next r, s') => (r, s')
  | (Sent r, s') => (r, s')
  end.

(** [ObjectId] generation on [create]. *)
Definition fresh : Handler Id :=
  fun s => (Next (next_id s), with_next_id (S (next_id s)) s).

(** The [Slot.findOne] query shared by create, cancel and reschedule. *)
Definition slot_query (svc : option Id) (d : Date) (window : string)
    (sl : Slot.t) : bool :=
  opt_id_eqb svc (Slot.service_id sl)
  && (day_start d <=? Slot.date sl) && (Slot.date sl <? day_end d)
  && String.eqb (Slot.time_slot sl) window.

(** ** POST /bookings *)

Module CreateReq.
(** The request body.  [total_price] is the total the client submits; the
    last three paths are schema paths that [...req.body] copies into the
    new document when the client sends them. *)
Record t : Type := mk {
  service_id : Id;
  booking_date : Date;
  booking_time : string;
  customer_id : Id;
  customer_pincode : option string;
  customer_address_pincode : option string;
  base_price : option Number;
  addon_price : option Number;
  discount_amount : option Number;
  wallet_amount : option Number;
  total_price : option Number;
  promo_code : option string;
  employee_id : option Id;
  payment_status : option string;
  payment_method : option PaymentMethod }.

Definition set_total_price (v : option Number) (r : t) : t :=
  mk (service_id r) (booking_date r) (booking_time r) (customer_id r)
     (customer_pincode r) (customer_address_pincode r) (base_price r)
     (addon_price r) (discount_amount r) (wallet_amount r) v (promo_code r)
     (employee_id r) (payment_status r) (payment_method r).
End CreateReq.

(** The express-validator chain, on the typed body: [booking_time] is not
    empty and [total_price] is a float that is at least 0.  The tests on
    the shape of the other fields are implied by their types, and so is the
    later [missing_required_fields] test. *)
Definition validate_create (body : CreateReq.t) : bool :=
  negb (String.eqb (CreateReq.booking_time body) "")
  && match CreateReq.total_price body with
     | Some v => 0 <=? v
     | None => false
     end.

Definition subtotalAfterDiscount (body : CreateReq.t) : Number :=
  Z.max 0 (number_or_0 (CreateReq.base_price body)
           + number_or_0 (CreateReq.addon_price body)
           - number_or_0 (CreateReq.discount_amount body)).

Definition computedTotal (body : CreateReq.t) : Number :=
  Z.max 0 (subtotalAfterDiscount body
           - number_or_0 (CreateReq.wallet_amount body)).

Definition slot_full (slot : option Slot.t) : bool :=
  match slot with
  | Some sl => Slot.total_capacity sl <=? Slot.booked_count sl
  | None => false
  end.

(** [slot.booked_count += 1], [is_available = false] once full, [save]. *)
Definition reserve (sl : Slot.t) : Slot.t :=
  let n := Slot.booked_count sl + 1 in
  Slot.set_booked n
    (if Slot.total_capacity sl <=? n then false else Slot.is_available sl) sl.

(** [slot.booked_count -= 1], [is_available = true], [save]. *)
Definition release (sl : Slot.t) : Slot.t :=
  Slot.set_booked (Slot.booked_count sl - 1) true sl.

Definition promo_key (c : string) : string := trim (toUpperCase c).

Definition new_booking (i : Id) (body : CreateReq.t) : Booking.t :=
  Booking.mk i (CreateReq.customer_id body) (CreateReq.service_id body)
    (CreateReq.employee_id body) "pending"
    (Some (CreateReq.booking_date body)) (Some (CreateReq.booking_time body))
    (computedTotal body)
    (number_or_0 (CreateReq.base_price body))
    (number_or_0 (CreateReq.addon_price body))
    (number_or_0 (CreateReq.discount_amount body))
    0
    (number_or_0 (CreateReq.wallet_amount body))
    (match CreateReq.payment_status body with Some p => p | None => "unpaid" end)
    (match CreateReq.payment_method body with Some m => m | None => online end)
    (js_or (CreateReq.customer_pincode body)
           (CreateReq.customer_address_pincode body))
    (CreateReq.customer_address_pincode body)
    None None None None None None None None.

(** The handler.  The answer 500 stands for the [catch] block, reached when
    the customer profile has gone between the two reads; the description of
    the wallet transaction is kept without the booking id. *)
Definition post_bookings (body : CreateReq.t) : Handler Response :=
  when (negb (validate_create body)) (reject 400 "validation_failed") ;;
  s0 <- get ;;
  customerProfile <-
    match findById Profile._id (CreateReq.customer_id body) (profiles s0) with
    | Some p => ret p
    | None => reject 404 "customer_not_found"
    end ;;
  when (negb (Profile.phone_verified customerProfile))
       (reject 403 "phone_not_verified") ;;
  let slot :=
    findOne (slot_query (Some (CreateReq.service_id body))
               (CreateReq.booking_date body)
               (actualTimeSlot (CreateReq.booking_time body))) (slots s0) in
  when (slot_full slot) (reject 400 "slot_unavailable") ;;
  let walletAmount := number_or_0 (CreateReq.wallet_amount body) in
  when (0 <? walletAmount)
    (match findById Profile._id (CreateReq.customer_id body) (profiles s0) with
     | None => reject 404 "customer_not_found"
     | Some p =>
         when (Profile.wallet_balance p <? walletAmount)
              (reject 400 "insufficient_wallet_balance") ;;
         when (subtotalAfterDiscount body <? walletAmount)
              (reject 400 "invalid_wallet_amount")
     end) ;;
  i <- fresh ;;
  let booking := new_booking i body in
  modify (fun s => with_bookings (bookings s ++ [booking]) s) ;;
  booking' <-
    (if 0 <? walletAmount then
       s1 <- get ;;
       match findById Profile._id (CreateReq.customer_id body) (profiles s1) with
       | None => reject 500 "create_booking_error"
       | Some p =>
           modify (fun s => with_profiles
             (findByIdAndUpdate Profile._id (CreateReq.customer_id body)
                (Profile.set_wallet_balance
                   (Profile.wallet_balance p - walletAmount)) (profiles s)) s) ;;
           j <- fresh ;;
           modify (fun s => with_transactions
             (transactions s ++
                [WalletTransaction.mk j (CreateReq.customer_id body)
                   walletAmount debit "Payment for booking" (Some i)]) s) ;;
           if computedTotal body =? 0 then
             let paid := Booking.set_payment "paid" wallet booking in
             modify (fun s =>
               with_bookings (save Booking._id paid (bookings s)) s) ;;
             ret paid
           else ret booking
       end
     else ret booking) ;;
  match slot with
  | Some sl =>
      modify (fun s => with_slots (save Slot._id (reserve sl) (slots s)) s)
  | None => ret tt
  end ;;
  when (truthy (CreateReq.promo_code body))
    (s2 <- get ;;
     match CreateReq.promo_code body with
     | Some c =>
         match findOne (fun p => String.eqb (PromoCode.code p) (promo_key c))
                 (promos s2) with
         | Some promo =>
             modify (fun s => with_promos
               (save PromoCode._id
                  (PromoCode.set_usage_count (PromoCode.usage_count promo + 1)
                     promo) (promos s)) s)
         | None => ret tt
         end
     | None => ret tt
     end) ;;
  ret (Json (PBooking booking')).

(** ** POST /auth/request-otp and POST /auth/verify-otp *)

(** [OTP.findOne({ phone }).sort({ created_at: -1 })] *)
Fixpoint latest (l : list OTP.t) : option OTP.t :=
  match l with
  | [] => None
  | o :: r =>
      match latest r with
      | Some m => if OTP.created_at o <? OTP.created_at m then Some m else Some o
      | None => Some o
      end
  end.

Definition latest_otp (phone : string) (l : list OTP.t) : option OTP.t :=
  latest (filter (fun o => String.eqb (OTP.phone o) phone) l).

Module VerifyReq.
Record t : Type := mk {
  phone : string;
  code : string;
  full_name : option string;
  email : option string;
  role : option string }.
End VerifyReq.

Definition sanitize_opt (a : option string) : option string :=
  if truthy a then option_map sanitizeInput a else None.

Definition or_default (a : option string) (d : string) : string :=
  match js_or a (Some d) with Some s => s | None => d end.

(** Mongoose validates a document on [create] and on [save]: a [required]
    string path must not be empty and an [enum] path must hold one of its
    values.  Updates through [findOneAndUpdate] are not validated.  Only
    the paths of the records above are tested. *)
Definition required (v : string) : bool := negb (String.eqb v "").

Definition otp_valid (o : OTP.t) : bool :=
  required (OTP.phone o) && required (OTP.code_hash o).

Definition profile_valid (p : Profile.t) : bool :=
  required (Profile.phone p)
  && required (Profile.full_name p)
  && existsb (String.eqb (Profile.background_check_status p))
       ["pending"; "approved"; "rejected"]
  && existsb (String.eqb (Profile.approval_status p))
       ["pending"; "approved"; "rejected"].

Section Otp.
(** [crypto.createHash('sha256').update(code).digest('hex')] *)
Variable hashCode : string -> string.
(** [isEmail] of validator.js, as express-validator applies it. *)
Variable isEmail : string -> bool.

(** The express-validator chain of verify-otp: the trimmed phone is not
    empty, the trimmed code has 4 to 6 characters, a [full_name] that is
    sent has 2 to 100 characters after trimming and an [email] that is sent
    is an e-mail address.  The [trim] sanitizers of the chain rewrite
    [req.body]: the handler below reads the trimmed phone, code and name. *)
Definition validate_verify (body : VerifyReq.t) : bool :=
  negb (String.eqb (trim (VerifyReq.phone body)) "")
  && (4 <=? String.length (trim (VerifyReq.code body)))%nat
  && (String.length (trim (VerifyReq.code body)) <=? 6)%nat
  && match VerifyReq.full_name body with
     | Some n =>
         (2 <=? String.length (trim n))%nat
         && (String.length (trim n) <=? 100)%nat
     | None => true
     end
  && match VerifyReq.email body with
     | Some e => isEmail e
     | None => true
     end.

Definition request_otp (now : Date) (generated : string) (body_phone : string)
    : Handler Response :=
  when (String.eqb (trim body_phone) "") (reject 400 "validation_failed") ;;
  let phone := sanitizeInput body_phone in
  s0 <- get ;;
  when (match latest_otp phone (otps s0) with
        | Some existing =>
            match OTP.last_sent_at existing with
            | Some sent => now - sent <? 45000
            | None => false
            end
        | None => false
        end) (reject 429 "otp_rate_limited") ;;
  let code_hash := hashCode generated in
  let expires_at := now + 5 * 60 * 1000 in
  let by_phone := fun o => String.eqb (OTP.phone o) phone in
  match findOne by_phone (otps s0) with
  | Some _ =>
      modify (fun s => with_otps
        (updateOne by_phone
           (fun o => OTP.mk (OTP._id o) phone code_hash "login" expires_at 0
                       (Some now) (OTP.created_at o)) (otps s)) s)
  | None =>
      i <- fresh ;;
      modify (fun s => with_otps
        (otps s ++ [OTP.mk i phone code_hash "login" expires_at 0
                      (Some now) now]) s)
  end ;;
  ret (Json PSuccess).

Definition verify_otp (now : Date) (body : VerifyReq.t) : Handler Response :=
  when (negb (validate_verify body)) (reject 400 "validation_failed") ;;
  let phone := sanitizeInput (trim (VerifyReq.phone body)) in
  let code := trim (trim (VerifyReq.code body)) in
  let full_name := sanitize_opt (option_map trim (VerifyReq.full_name body)) in
  let email := sanitize_opt (VerifyReq.email body) in
  let requestedRole := or_default (VerifyReq.role body) "customer" in
  s0 <- get ;;
  otp <-
    match latest_otp phone (otps s0) with
    | Some o => ret o
    | None => reject 400 "otp_not_found"
    end ;;
  when (OTP.expires_at otp <? now) (reject 400 "otp_expired") ;;
  when (5 <=? OTP.attempts otp) (reject 429 "otp_attempts_exceeded") ;;
  when (negb (String.eqb (hashCode code) (OTP.code_hash otp)))
    (let counted := OTP.set_attempts (OTP.attempts otp + 1) otp in
     when (negb (otp_valid counted)) (reject 500 "otp_verify_failed") ;;
     modify (fun s => with_otps (save OTP._id counted (otps s)) s) ;;
     reject 400 "otp_invalid") ;;
  modify (fun s => with_otps (deleteOne OTP._id (OTP._id otp) (otps s)) s) ;;
  match findOne (fun p => String.eqb (Profile.phone p) phone) (profiles s0) with
  | None =>
      i <- fresh ;;
      let profile :=
        Profile.create i phone (or_default full_name "Customer") email
          requestedRole in
      when (negb (profile_valid profile)) (reject 500 "otp_verify_failed") ;;
      modify (fun s => with_profiles (profiles s ++ [profile]) s) ;;
      ret (Json (PProfile profile
             (String.eqb (Profile.full_name profile) ""
              || String.eqb (Profile.full_name profile) "Customer"
              || negb (truthy (Profile.email profile)))))
  | Some p =>
      let profile :=
        Profile.set_verified
          (match full_name with
           | Some n =>
               if truthy full_name && negb (String.eqb n "Customer") then n
               else Profile.full_name p
           | None => Profile.full_name p
           end)
          (if truthy email then email else Profile.email p)
          (if truthy email then true else Profile.email_verified p) p in
      when (negb (profile_valid profile)) (reject 500 "otp_verify_failed") ;;
      modify (fun s => with_profiles (save Profile._id profile (profiles s)) s) ;;
      ret (Json (PProfile profile false))
  end.

End Otp.

(** ** POST /payments/verify and POST /payments/webhook *)

(** The process environment read by the payment routes. *)
Record Env : Type := mkEnv {
  razorpay : bool;
  RAZORPAY_KEY_SECRET : string;
  RAZORPAY_WEBHOOK_SECRET : string }.

(** What [razorpay.payments.fetch] returns: status and amount in paise. *)
Record GatewayPayment : Type := mkGatewayPayment {
  gw_status : string;
  gw_amount : Number }.

Module PayReq.
Record t : Type := mk {
  razorpay_order_id : string;
  razorpay_payment_id : string;
  razorpay_signature : string;
  booking_id : Id }.
End PayReq.

(** The test on the amount is made on IEEE 754 doubles: binary64 as the
    Standard Library specifies it, 53 bits of precision, exponents below
    1024, rounding to nearest even. *)
Definition double_of (z : Z) : spec_float := binary_normalize 53 1024 z 0 false.

(** [Math.abs(payment.amount / 100 - booking.total_price) > 0.01]; the
    literal [0.01] is the double nearest to 1/100. *)
Definition amount_mismatch (paise total : Number) : bool :=
  let paidAmount := SFdiv 53 1024 (double_of paise) (double_of 100) in
  SFltb (SFdiv 53 1024 (double_of 1) (double_of 100))
        (SFabs (SFsub 53 1024 paidAmount (double_of total))).

Definition mark_paid (b : Booking.t) : Booking.t :=
  Booking.set_status "confirmed" (Booking.set_payment_status "paid" b).

(** The parsed webhook event as the handler reads it:
    [event.event] and [event.payload.payment.entity.payment], of which it
    uses [id] and [notes?.booking_id]. *)
Record EventPayment : Type := mkEventPayment {
  ev_id : string;
  ev_notes_booking_id : option Id }.

Record WebhookEvent : Type := mkWebhookEvent {
  eventType : string;
  entity_payment : option EventPayment }.

(** A JSON value, as far as [toString] looks into it: the members of an
    object play no part.  Numbers are whole and below [1e21] in size, where
    their text is the decimal numeral. *)
#[local] Unset Elimination Schemes.
Inductive JsValue : Type :=
| JNull
| JBool (b : bool)
| JNumber (n : Number)
| JString (s : string)
| JArray (items : list JsValue)
| JObject.
#[local] Set Elimination Schemes.

(** The text of an array element under [Array.prototype.join]: [null] gives
    the empty string, an array is joined in turn. *)
Fixpoint element_text (v : JsValue) : string :=
  match v with
  | JNull => ""
  | JBool b => if b then "true" else "false"
  | JNumber n => NilZero.string_of_int (Z.to_int n)
  | JString s => s
  | JArray items =>
      (fix join (l : list JsValue) : string :=
         match l with
         | [] => ""
         | x :: r =>
             match r with
             | [] => element_text x
             | _ :: _ => element_text x ++ "," ++ join r
             end
         end) items
  | JObject => "[object Object]"
  end.

(** [req.body] of the webhook route.  [app.use(express.json())] comes
    before every route, so the body has been read and parsed when the
    route's own [express.raw()] runs, and [express.raw()] leaves a parsed
    body alone: [req.body] is the parsed value, an object or an array in
    the strict mode of [express.json()], and the empty object when the
    content type is not JSON. *)
Inductive RequestBody : Type :=
| ObjectBody
| ArrayBody (items : list JsValue).

(** [req.body.toString()] *)
Definition body_text (body : RequestBody) : string :=
  match body with
  | ObjectBody => "[object Object]"
  | ArrayBody items => element_text (JArray items)
  end.

Section Gateway.
(** [crypto.createHmac('sha256', key).update(text).digest('hex')] *)
Variable hmacSha256 : string -> string -> string.
(** [JSON.parse(text)] as the handler reads the result; [None] when it
    throws. *)
Variable JSON_parse : string -> option WebhookEvent.

Definition payments_verify (env : Env) (fetched : GatewayPayment)
    (body : PayReq.t) : Handler Response :=
  when (negb (razorpay env)) (reject 503 "payment_service_unavailable") ;;
  s0 <- get ;;
  booking <-
    match findById Booking._id (PayReq.booking_id body) (bookings s0) with
    | Some b => ret b
    | None => reject 404 "booking_not_found"
    end ;;
  let text :=
    PayReq.razorpay_order_id body ++ "|" ++ PayReq.razorpay_payment_id body in
  when (negb (String.eqb (hmacSha256 (RAZORPAY_KEY_SECRET env) text)
                         (PayReq.razorpay_signature body)))
       (reject 400 "invalid_signature") ;;
  when (negb (String.eqb (gw_status fetched) "captured")
        && negb (String.eqb (gw_status fetched) "authorized"))
       (reject 400 "payment_not_captured") ;;
  when (amount_mismatch (gw_amount fetched) (Booking.total_price booking))
       (reject 400 "amount_mismatch") ;;
  modify (fun s =>
    with_bookings (save Booking._id (mark_paid booking) (bookings s)) s) ;;
  ret (Json (PPaid (Booking._id booking) (PayReq.razorpay_payment_id body))).

Definition payments_webhook (env : Env) (signature : option string)
    (body : RequestBody) : Handler Response :=
  when (negb (razorpay env)) (reject 503 "payment_service_unavailable") ;;
  when (String.eqb (RAZORPAY_WEBHOOK_SECRET env) "")
       (reject 400 "webhook_not_configured") ;;
  let text := body_text body in
  when (negb match signature with
             | Some sg =>
                 String.eqb (hmacSha256 (RAZORPAY_WEBHOOK_SECRET env) text) sg
             | None => false
             end) (reject 400 "invalid_signature") ;;
  event <-
    match JSON_parse text with
    | Some e => ret e
    | None => reject 500 "webhook_error"
    end ;;
  let on_booking (u : Booking.t -> Booking.t) : Handler unit :=
    match entity_payment event with
    | None => reject 500 "webhook_error"
    | Some payment =>
        match ev_notes_booking_id payment with
        | Some bookingId =>
            s0 <- get ;;
            match findById Booking._id bookingId (bookings s0) with
            | Some booking =>
                modify (fun s =>
                  with_bookings (save Booking._id (u booking) (bookings s)) s)
            | None => ret tt
            end
        | None => ret tt
        end
    end in
  (if String.eqb (eventType event) "payment.captured" then on_booking mark_paid
   else if String.eqb (eventType event) "payment.failed" then
     on_booking (Booking.set_payment_status "pending")
   else ret tt) ;;
  ret (Json PSuccess).

End Gateway.

(** ** Worker load and the status routes *)

Definition in_statuses (l : list string) (st : string) : bool :=
  existsb (String.eqb st) l.

(** [Booking.countDocuments({ employee_id, status: { $in } })] *)
Definition count_jobs (statuses : list string) (w : Id) (l : list Booking.t)
    : Number :=
  countDocuments
    (fun b => opt_id_eqb (Booking.employee_id b) w
              && in_statuses statuses (Booking.status b)) l.

Definition active_four : list string :=
  ["assigned"; "accepted"; "reached"; "in_progress"].
Definition active_two : list string := ["assigned"; "in_progress"].

(** Recount the jobs of [w] over [statuses] and write [current_jobs]. *)
Definition recount (statuses : list string) (w : Id) : Handler unit :=
  modify (fun s => with_profiles
    (findByIdAndUpdate Profile._id w
       (Profile.set_current_jobs (count_jobs statuses w (bookings s)))
       (profiles s)) s).

Definition cod_settles (b : Booking.t) : bool :=
  PaymentMethod_eqb (Booking.payment_method b) cod
  && String.eqb (Booking.payment_status b) "pending".

(** PATCH /bookings/:id/status: [updateData] applied to the document. *)
Definition status_update (now : Date) (st : string) (settle : bool)
    (b : Booking.t) : Booking.t :=
  let b1 := Booking.set_status st b in
  let b2 :=
    if String.eqb st "accepted" then Booking.set_accepted_at (Some now) b1
    else if String.eqb st "reached" then Booking.set_reached_at (Some now) b1
    else if String.eqb st "in_progress" then Booking.set_started_at (Some now) b1
    else if String.eqb st "completed" then Booking.set_completed_at (Some now) b1
    else b1 in
  if settle then Booking.set_payment_status "paid" b2 else b2.

Definition patch_status (now : Date) (id : Id) (st : string)
    : Handler Response :=
  s0 <- get ;;
  booking <-
    match findById Booking._id id (bookings s0) with
    | Some b => ret b
    | None => reject 404 "not_found"
    end ;;
  let settle := String.eqb st "completed" && cod_settles booking in
  let updatedBooking := status_update now st settle booking in
  modify (fun s => with_bookings
    (findByIdAndUpdate Booking._id id (status_update now st settle)
       (bookings s)) s) ;;
  match Booking.employee_id updatedBooking with
  | Some w => recount active_four w
  | None => ret tt
  end ;;
  ret (Json (PBooking updatedBooking)).

(** The guarded employee routes: accept, mark-reached, start-work. *)
Definition employee_step (st : string)
    (stamp : option Date -> Booking.t -> Booking.t) (now : Date) (id : Id)
    : Handler Response :=
  s0 <- get ;;
  booking <-
    match findById Booking._id id (bookings s0) with
    | Some b => ret b
    | None => reject 404 "not_found"
    end ;;
  when (in_statuses ["cancelled"; "completed"] (Booking.status booking))
       (reject 400 "invalid_status") ;;
  let updated := stamp (Some now) (Booking.set_status st booking) in
  modify (fun s => with_bookings (save Booking._id updated (bookings s)) s) ;;
  ret (Json (PBooking updated)).

Definition accept : Date -> Id -> Handler Response :=
  employee_step "accepted" Booking.set_accepted_at.
Definition mark_reached : Date -> Id -> Handler Response :=
  employee_step "reached" Booking.set_reached_at.
Definition start_work : Date -> Id -> Handler Response :=
  employee_step "in_progress" Booking.set_started_at.

Definition complete (now : Date) (id : Id) : Handler Response :=
  s0 <- get ;;
  booking <-
    match findById Booking._id id (bookings s0) with
    | Some b => ret b
    | None => reject 404 "not_found"
    end ;;
  when (in_statuses ["cancelled"] (Booking.status booking))
       (reject 400 "invalid_status") ;;
  let done :=
    Booking.set_completed_at (Some now) (Booking.set_status "completed" booking) in
  let updated :=
    if cod_settles booking then Booking.set_payment_status "paid" done
    else done in
  modify (fun s => with_bookings (save Booking._id updated (bookings s)) s) ;;
  match Booking.employee_id updated with
  | Some w => recount active_four w
  | None => ret tt
  end ;;
  ret (Json (PBooking updated)).

(** ** Worker matching: auto-assign and assign *)

Definition eligible (serviceId : option Id) (w : Profile.t) : bool :=
  in_statuses ["employee"; "manager"; "lead"] (Profile.role w)
  && Profile.is_available w
  && Profile.id_verified w
  && Profile.skills_verified w
  && String.eqb (Profile.background_check_status w) "approved"
  && String.eqb (Profile.approval_status w) "approved"
  && (existsb (opt_id_eqb serviceId) (Profile.skills w)
      || match Profile.skills w with [] => true | _ => false end)
  && (Profile.current_jobs w <? Profile.max_capacity w).

Definition priority (customerLocation : string) (w : Profile.t) : Number :=
  let locationMatch :=
    match Profile.location w with
    | Some l => if String.eqb l customerLocation then 100 else 0
    | None => 0
    end in
  let ratingScore := Profile.rating w * 10 in
  let experienceScore := Profile.experience_years w * 5 in
  let workloadScore := (Profile.max_capacity w - Profile.current_jobs w) * 2 in
  locationMatch + ratingScore + experienceScore + workloadScore.

(** [Array.prototype.sort] with a comparator: stable, [a] stays before [b]
    unless [cmp a b > 0]. *)
Section Sort.
Context {A : Type} (cmp : A -> A -> Number).

Fixpoint insert_sorted (x : A) (l : list A) : list A :=
  match l with
  | [] => [x]
  | y :: r => if 0 <? cmp x y then y :: insert_sorted x r else x :: l
  end.

Definition sort (l : list A) : list A := fold_right insert_sorted [] l.
End Sort.

Definition by_priority (a b : Profile.t * Number) : Number := snd b - snd a.

Definition populate_service (svc : Id) (s : Store) : option Id :=
  if existsb (Nat.eqb svc) (services s) then Some svc else None.

Definition customerLocation (b : Booking.t) : string :=
  or_default (js_or (Booking.customer_pincode b)
                    (Booking.customer_address_pincode b)) "".

Definition assign_update (w : Id) (now : Date) (b : Booking.t) : Booking.t :=
  Booking.set_assigned_at (Some now)
    (Booking.set_status "assigned" (Booking.set_employee_id (Some w) b)).

Definition auto_assign (now : Date) (id : Id) : Handler Response :=
  s0 <- get ;;
  booking <-
    match findById Booking._id id (bookings s0) with
    | Some b => ret b
    | None => reject 404 "not_found"
    end ;;
  when (is_some (Booking.employee_id booking)) (reject 400 "already_assigned") ;;
  let serviceId := populate_service (Booking.service_id booking) s0 in
  let workers := filter (eligible serviceId) (profiles s0) in
  let workersWithPriority :=
    map (fun w => (w, priority (customerLocation booking) w)) workers in
  when (Nat.eqb (List.length workers) 0) (reject 404 "no_eligible_workers") ;;
  match sort by_priority workersWithPriority with
  | [] => reject 500 "auto_assign_error"
  | (bestWorker, _) :: _ =>
      modify (fun s => with_bookings
        (findByIdAndUpdate Booking._id id
           (assign_update (Profile._id bestWorker) now) (bookings s)) s) ;;
      recount active_two (Profile._id bestWorker) ;;
      ret (Json (PBooking (assign_update (Profile._id bestWorker) now booking)))
  end.

Definition worker_verified (w : Profile.t) : bool :=
  Profile.id_verified w
  && Profile.skills_verified w
  && String.eqb (Profile.background_check_status w) "approved"
  && String.eqb (Profile.approval_status w) "approved".

Definition assign (now : Date) (id : Id) (employee_id : option Id)
    : Handler Response :=
  match employee_id with
  | None => reject 400 "employee_id_required"
  | Some e =>
      s0 <- get ;;
      worker <-
        match findById Profile._id e (profiles s0) with
        | Some w => ret w
        | None => reject 404 "worker_not_found"
        end ;;
      when (negb (worker_verified worker)) (reject 400 "worker_not_verified") ;;
      match findById Booking._id id (bookings s0) with
      | None => reject 404 "not_found"
      | Some b =>
          modify (fun s => with_bookings
            (findByIdAndUpdate Booking._id id (assign_update e now)
               (bookings s)) s) ;;
          recount active_two e ;;
          ret (Json (PBooking (assign_update e now b)))
      end
  end.

(** ** PATCH /bookings/:id/cancel and PATCH /bookings/:id/reschedule *)

(** Free the slot of a booking: the slot found for its date and window is
    decremented when its [booked_count] is positive. *)
Definition free_slot (svc : option Id) (b : Booking.t) : Handler unit :=
  match Booking.booking_date b with
  | Some d =>
      if truthy (Booking.booking_time b) then
        s0 <- get ;;
        match findOne (slot_query svc d
                         (actualTimeSlot (or_default (Booking.booking_time b) "")))
                (slots s0) with
        | Some sl =>
            when (0 <? Slot.booked_count sl)
              (modify (fun s =>
                 with_slots (save Slot._id (release sl) (slots s)) s))
        | None => ret tt
        end
      else ret tt
  | None => ret tt
  end.

Definition cancel (now : Date) (id : Id) (reason : option string)
    (cancelled_by : option Actor) : Handler Response :=
  s0 <- get ;;
  booking <-
    match findById Booking._id id (bookings s0) with
    | Some b => ret b
    | None => reject 404 "not_found"
    end ;;
  when (String.eqb (Booking.status booking) "completed")
       (reject 400 "cannot_cancel_completed") ;;
  when (String.eqb (Booking.status booking) "cancelled")
       (reject 400 "already_cancelled") ;;
  let cancelled :=
    Booking.set_cancellation (Some now)
      (Some (or_default reason "No reason provided"))
      (Some match cancelled_by with Some a => a | None => customer end)
      (Booking.set_status "cancelled" booking) in
  free_slot (Some (Booking.service_id booking)) booking ;;
  match Booking.employee_id booking with
  | Some w => recount active_two w
  | None => ret tt
  end ;;
  modify (fun s => with_bookings (save Booking._id cancelled (bookings s)) s) ;;
  ret (Json (PBooking cancelled)).

Definition DEFAULT_SERVICEABLE_PINCODES : list string :=
  ["273001"; "273002"; "273003"; "273004"; "273005"].

Definition isServiceable (pincode : option string) (s : Store) : bool :=
  match pincode with
  | Some p =>
      if truthy pincode then
        let trimmedPincode := trim p in
        let active := filter ServiceabilityArea.is_active (areas s) in
        if existsb (fun a => existsb (String.eqb trimmedPincode)
                               (ServiceabilityArea.pincodes a)) active
        then true
        else if Nat.eqb (List.length active) 0 then
          existsb (String.eqb trimmedPincode) DEFAULT_SERVICEABLE_PINCODES
        else false
      else false
  | None => false
  end.

(** The stored [booking_date] is the [newBookingDate] object after the slot
    query has moved it to 23:59:59.999 of its day. *)
Definition reschedule (id : Id) (booking_date : Date) (booking_time : string)
    : Handler Response :=
  when (String.eqb booking_time "") (reject 400 "validation_failed") ;;
  s0 <- get ;;
  booking <-
    match findById Booking._id id (bookings s0) with
    | Some b => ret b
    | None => reject 404 "not_found"
    end ;;
  when (String.eqb (Booking.status booking) "completed")
       (reject 400 "cannot_reschedule_completed") ;;
  when (String.eqb (Booking.status booking) "cancelled")
       (reject 400 "cannot_reschedule_cancelled") ;;
  let pincode :=
    js_or (Booking.customer_pincode booking)
          (Booking.customer_address_pincode booking) in
  when (negb (isServiceable pincode s0)) (reject 400 "service_not_available") ;;
  let svc := populate_service (Booking.service_id booking) s0 in
  free_slot svc booking ;;
  s1 <- get ;;
  let newSlot :=
    findOne (slot_query svc booking_date (actualTimeSlot booking_time))
      (slots s1) in
  when (slot_full newSlot) (reject 400 "slot_unavailable") ;;
  let moved :=
    Booking.set_status
      (if String.eqb (Booking.status booking) "assigned" then "pending"
       else Booking.status booking)
      (Booking.set_schedule (Some (day_end booking_date)) (Some booking_time)
         booking) in
  match newSlot with
  | Some sl =>
      modify (fun s => with_slots (save Slot._id (reserve sl) (slots s)) s)
  | None => ret tt
  end ;;
  modify (fun s => with_bookings (save Booking._id moved (bookings s)) s) ;;
  ret (Json (PBooking moved)).

(** ** GET /promo/validate *)

(** [req.query.subtotal]: missing or empty, a text that [Number] reads as
    a number, or a text that [Number] reads as [NaN]. *)
Inductive QueryNumber : Type :=
| QMissing
| QNumber (n : Number)
| QNaN.

(** [orderValue < (promo.min_order_value || 0)] with
    [orderValue = subtotal ? Number(subtotal) : 0]: no comparison with
    [NaN] holds. *)
Definition below_minimum (subtotal : QueryNumber) (min : Number) : bool :=
  match subtotal with
  | QMissing => 0 <? min
  | QNumber n => n <? min
  | QNaN => false
  end.

Definition promo_validate (now : Date) (code : option string)
    (subtotal : QueryNumber) : Handler Response :=
  match code with
  | None => reject 400 "code_required"
  | Some c =>
      when (negb (truthy code) || String.eqb (trim c) "")
           (reject 400 "code_required") ;;
      s0 <- get ;;
      promo <-
        match findOne (fun p => String.eqb (PromoCode.code p) (promo_key c)
                                && PromoCode.is_active p) (promos s0) with
        | Some p => ret p
        | None => reject 404 "invalid_code"
        end ;;
      when (match PromoCode.valid_until promo with
            | Some u => u <? now
            | None => false
            end) (reject 400 "expired") ;;
      when (match PromoCode.valid_from promo with
            | Some f => now <? f
            | None => false
            end) (reject 400 "not_yet_valid") ;;
      when (below_minimum subtotal (PromoCode.min_order_value promo))
           (reject 400 "min_order_value") ;;
      when (match PromoCode.max_usage promo with
            | Some m => negb (m =? 0) && (m <=? PromoCode.usage_count promo)
            | None => false
            end) (reject 400 "usage_limit_exceeded") ;;
      ret (Json (PPromo promo))
  end.

(** ** POST /wallet/transactions *)

Module WalletReq.
Record t : Type := mk {
  user_id : option Id;
  amount : option Number;
  transaction_type : option string;
  description : option string;
  booking_id : option Id }.
End WalletReq.

Definition parse_transaction_type (t : string) : option TransactionType :=
  if String.eqb t "credit" then Some credit
  else if String.eqb t "debit" then Some debit
  else if String.eqb t "refund" then Some refund
  else None.

Definition wallet_transaction (body : WalletReq.t) : Handler Response :=
  match WalletReq.user_id body, WalletReq.amount body,
        WalletReq.transaction_type body, WalletReq.description body with
  | Some user_id, Some amountNum, Some ty, Some description =>
      when (amountNum =? 0) (reject 400 "validation_failed") ;;
      when (String.eqb ty "" || String.eqb description "")
           (reject 400 "validation_failed") ;;
      transaction_type <-
        match parse_transaction_type ty with
        | Some k => ret k
        | None => reject 400 "validation_failed"
        end ;;
      when (amountNum <=? 0) (reject 400 "validation_failed") ;;
      s0 <- get ;;
      profile <-
        match findById Profile._id user_id (profiles s0) with
        | Some p => ret p
        | None => reject 404 "user_not_found"
        end ;;
      newBalance <-
        match transaction_type with
        | credit => ret (Profile.wallet_balance profile + amountNum)
        | debit | refund =>
            let nb := Profile.wallet_balance profile - amountNum in
            when (nb <? 0) (reject 400 "insufficient_balance") ;;
            ret nb
        end ;;
      when (negb (required (sanitizeInput description)))
           (reject 500 "server_error") ;;
      i <- fresh ;;
      let transaction :=
        WalletTransaction.mk i user_id amountNum transaction_type
          (sanitizeInput description) (WalletReq.booking_id body) in
      modify (fun s => with_transactions (transactions s ++ [transaction]) s) ;;
      modify (fun s => with_profiles
        (findByIdAndUpdate Profile._id user_id
           (Profile.set_wallet_balance newBalance) (profiles s)) s) ;;
      ret (Json (PTransaction transaction))
  | _, _, _, _ => reject 400 "validation_failed"
  end.

(** * Vocabulary of the properties *)

(** ** Slot capacity *)

Definition slot_ok (sl : Slot.t) : Prop :=
  0 <= Slot.booked_count sl <= Slot.total_capacity sl.

Definition slots_ok (s : Store) : Prop := Forall slot_ok (slots s).




(** ** One-time codes *)

Definition attempts_capped (s : Store) : Prop :=
  Forall (fun o => OTP.attempts o <= 5) (otps s).

(** Serving a list of requests one after the other. *)
Fixpoint serve (hs : list (Handler Response)) (s : Store)
    : list Response * Store :=
  match hs with
  | [] => ([], s)
  | h :: r =>
      let (x, s1) := run h s in
      let (xs, s2) := serve r s1 in
      (x :: xs, s2)
  end.

Inductive OtpOp : Type :=
| RequestOtp (now : Date) (generated : string) (phone : string)
| VerifyOtp (now : Date) (body : VerifyReq.t).

Definition otp_op (hashCode : string -> string) (isEmail : string -> bool)
    (op : OtpOp) : Handler Response :=
  match op with
  | RequestOtp now generated phone => request_otp hashCode now generated phone
  | VerifyOtp now body => verify_otp hashCode isEmail now body
  end.

(** ** Worker ranking *)

(** The first element of maximal score, in list order. *)
Fixpoint first_max {A : Type} (score : A -> Number) (l : list A) : option A :=
  match l with
  | [] => None
  | x :: r =>
      match first_max score r with
      | Some y => if score x <? score y then Some y else Some x
      | None => Some x
      end
  end.

(** ** Lifecycle states *)

(** The seven states named by the schema comment of [Booking.status]. *)
Definition lifecycle_states : list string :=
  ["pending"; "assigned"; "accepted"; "reached"; "in_progress"; "completed";
   "cancelled"].

Definition terminal (st : string) : bool :=
  in_statuses ["cancelled"; "completed"] st.

(** A handler keeps terminal states when no stored booking whose status is
    [cancelled] or [completed] has another status after it ran. *)
Definition keeps_terminal (h : Handler Response) : Prop :=
  forall s id b b',
    findById Booking._id id (bookings s) = Some b ->
    terminal (Booking.status b) = true ->
    findById Booking._id id (bookings (snd (run h s))) = Some b' ->
    Booking.status b' = Booking.status b.

(** The routes that test the status of the booking before they write. *)
Inductive guarded_route : Handler Response -> Prop :=
| guarded_accept now id : guarded_route (accept now id)
| guarded_mark_reached now id : guarded_route (mark_reached now id)
| guarded_start_work now id : guarded_route (start_work now id)
| guarded_complete now id : guarded_route (complete now id)
| guarded_cancel now id reason cancelled_by :
    guarded_route (cancel now id reason cancelled_by)
| guarded_reschedule id booking_date booking_time :
    guarded_route (reschedule id booking_date booking_time).

(** ** Wallet balances *)

Definition balances_ok (s : Store) : Prop :=
  Forall (fun p => 0 <= Profile.wallet_balance p) (profiles s).

Definition balance_of (u : Id) (s : Store) : option Number :=
  option_map Profile.wallet_balance (findById Profile._id u (profiles s)).

(** The two routes that write [wallet_balance]. *)
Inductive WalletOp : Type :=
| AdminTransaction (body : WalletReq.t)
| PayBooking (body : CreateReq.t).

Definition wallet_op (op : WalletOp) : Handler Response :=
  match op with
  | AdminTransaction body => wallet_transaction body
  | PayBooking body => post_bookings body
  end.

(** ** Promo codes *)

(** [ObjectId]s are unique and [code] carries a unique index. *)
Definition promos_keyed (s : Store) : Prop :=
  NoDup (map PromoCode._id (promos s))
  /\ NoDup (map PromoCode.code (promos s)).

(** No promo with a [max_usage] has been used more often than that. *)
Definition within_max_usage (s : Store) : Prop :=
  Forall (fun p => match PromoCode.max_usage p with
                   | Some m => PromoCode.usage_count p <= m
                   | None => True
                   end) (promos s).

(** ** A small store for the examples

    One verified customer with 100 in the wallet, two approved workers,
    five bookings of service 7, two full slots, one used-up promo and one
    exhausted one-time code. *)

Definition demo_customer : Profile.t :=
  Profile.mk 1%nat "9999999999" "Asha" None false "customer" 100 true false
    "pending" false [] None true 5 0 0 0 "pending".

Definition demo_worker_a : Profile.t :=
  Profile.mk 2%nat "9000000002" "Ravi" None false "employee" 0 true true
    "approved" true [] (Some "273001") true 5 2 4 2 "approved".

Definition demo_worker_b : Profile.t :=
  Profile.mk 3%nat "9000000003" "Mohan" None false "employee" 0 true true
    "approved" true [] (Some "273002") true 5 1 5 1 "approved".

Definition demo_booking (i : Id) (worker : option Id) (st : string)
    (d : Date) (window : string) : Booking.t :=
  Booking.mk i 1%nat 7%nat worker st (Some d) (Some window) 500 500 0 0 0 0 "unpaid"
    online (Some "273001") (Some "273001") None None None None None None
    None None.

Definition demo_day (n : Z) : Date := n * ms_per_day.

Definition demo_store : Store :=
  mkStore
    [demo_customer; demo_worker_a; demo_worker_b]
    [demo_booking 10%nat (Some 2%nat) "accepted" (demo_day 0 + 36000000) "morning";
     demo_booking 11%nat None "pending" (demo_day 0 + 36000000) "morning";
     demo_booking 12%nat (Some 2%nat) "assigned" (demo_day 2) "evening";
     demo_booking 13%nat None "cancelled" (demo_day 3) "evening";
     demo_booking 14%nat (Some 3%nat) "assigned" (demo_day 4) "evening"]
    [Slot.mk 20%nat 7%nat (demo_day 0) "09:00-12:00" 1 1 false;
     Slot.mk 21%nat 7%nat (demo_day 1) "12:00-15:00" 1 1 false]
    [PromoCode.mk 30%nat "SAVE10" 0 None None true 1 (Some 1)]
    [OTP.mk 40%nat "9999999999" "123456" "login" 1000 5 (Some 0) 0]
    [] [] [7%nat] 100%nat.

(** The same store with the promo still below its cap of 5. *)
Definition demo_store_open_promo : Store :=
  with_promos [PromoCode.mk 30%nat "SAVE10" 0 None None true 1 (Some 5)]
    demo_store.

Definition demo_create : CreateReq.t :=
  CreateReq.mk 7%nat (demo_day 5) "evening" 1%nat (Some "273001") None
    (Some 500) (Some 100) (Some 50) (Some 100) (Some 1) (Some " save10 ")
    None None None.

Definition demo_verify : VerifyReq.t :=
  VerifyReq.mk "9999999999" "123456" None None None.

Definition demo_refund : WalletReq.t :=
  WalletReq.mk (Some 1%nat) (Some 30) (Some "refund") (Some "goodwill") None.

Definition demo_env : Env := mkEnv true "key" "hook".

Definition demo_pay : PayReq.t := PayReq.mk "order_1" "pay_1" "sig" 11%nat.

(** ** Rejections *)

(** The routes of the booking core other than reschedule. *)
Inductive core_route : Handler Response -> Prop :=
| route_create body : core_route (post_bookings body)
| route_status now id st : core_route (patch_status now id st)
| route_accept now id : core_route (accept now id)
| route_mark_reached now id : core_route (mark_reached now id)
| route_start_work now id : core_route (start_work now id)
| route_complete now id : core_route (complete now id)
| route_auto_assign now id : core_route (auto_assign now id)
| route_assign now id employee_id : core_route (assign now id employee_id)
| route_cancel now id reason cancelled_by :
    core_route (cancel now id reason cancelled_by)
| route_promo_validate now code subtotal :
    core_route (promo_validate now code subtotal)
| route_wallet body : core_route (wallet_transaction body).

(** * Further routes and helpers *)

(** ** OTP generation and phone formatting *)

(** [generateOtp]: [Math.floor(100000 + Math.random() * 900000)], with the
    random draw [r] of [Math.random()] as a rational. *)
Definition generateOtp (r : Q) : Z :=
  Qfloor (inject_Z 100000 + r * inject_Z 900000)%Q.

(** [phone.replace(/[\s\+]/g, '')] *)
Fixpoint strip_space_plus (s : string) : string :=
  match s with
  | String c r =>
      if orb (is_space c) (Ascii.eqb c "+") then strip_space_plus r
      else String c (strip_space_plus r)
  | EmptyString => EmptyString
  end.

(** The [formattedPhone] of the MSG91 senders: spaces and [+] removed, and
    [91] put in front of a 10-character number that does not start with
    [91]. *)
Definition formattedPhone (phone : string) : string :=
  let stripped := strip_space_plus phone in
  if negb (String.prefix "91" stripped)
     && Nat.eqb (String.length stripped) 10
  then "91" ++ stripped
  else stripped.

(** ** GET /bookings/:id/eligible-workers

    The listing for the admin: the eligible workers with their priority, in
    the order of the sort.  [None] stands for the answer 404; the route
    reads the customer location from [customer_address.pincode] or
    [customer_address.location], the latter passed as [address_location]
    since the booking record does not keep it. *)
Definition eligible_workers (address_location : option string) (id : Id)
    (s : Store) : option (list (Profile.t * Number)) :=
  match findById Booking._id id (bookings s) with
  | None => None
  | Some booking =>
      let serviceId := populate_service (Booking.service_id booking) s in
      let customerLocation :=
        or_default (js_or (Booking.customer_address_pincode booking)
                          address_location) "" in
      Some (sort by_priority
              (map (fun w => (w, priority customerLocation w))
                 (filter (eligible serviceId) (profiles s))))
  end.

(** The order of the listing: the later entry has no higher priority. *)
Definition priority_desc (a b : Profile.t * Number) : Prop := snd b <= snd a.

(** ** Further example data *)

(** A pending booking that carries no pincode, alone in the example store. *)
Definition demo_booking_no_pincode : Booking.t :=
  Booking.mk 15%nat 1%nat 7%nat None "pending" (Some (demo_day 0))
    (Some "evening") 500 500 0 0 0 0 "unpaid" online None None None None None
    None None None None None.

Definition demo_store_no_pincode : Store :=
  with_bookings [demo_booking_no_pincode] demo_store.

(** ** One challenge per phone *)

(** request-otp upserts by phone and verify-otp deletes by [_id]: with
    unique [_id]s below the id counter, a phone has at most one challenge. *)
Definition keyed (l : list OTP.t) (n : Id) : Prop :=
  NoDup (map OTP.phone l)
  /\ NoDup (map OTP._id l)
  /\ Forall (fun o => (OTP._id o < n)%nat) l.

Definition otps_keyed (s : Store) : Prop := keyed (otps s) (next_id s).

(** ** POST /admin/technicians/:id/approve and .../reject *)

(** The [requireAdmin] middleware: [adminKey] is [process.env.ADMIN_KEY ||
    ''], [provided] the [x-admin-key] header.  [None] stands for [next()]. *)
Definition requireAdmin (adminKey : string) (provided : option string)
    : option (nat * string) :=
  if String.eqb adminKey "" then Some (500%nat, "admin_key_not_configured")
  else match provided with
       | Some k =>
           if String.eqb k adminKey then None
           else Some (401%nat, "unauthorized")
       | None => Some (401%nat, "unauthorized")
       end.

(** The reply [{ success: true, profile }] or an error. *)
Inductive AdminReply : Type :=
| Updated (profile : Profile.t)
| Refused (http : nat) (error : string).

Definition set_approval (r : string) (status : string) (available : bool)
    (p : Profile.t) : Profile.t :=
  Profile.mk (Profile._id p) (Profile.phone p) (Profile.full_name p)
    (Profile.email p) (Profile.email_verified p) r (Profile.wallet_balance p)
    (Profile.phone_verified p) (Profile.id_verified p)
    (Profile.background_check_status p) (Profile.skills_verified p)
    (Profile.skills p) (Profile.location p) available (Profile.max_capacity p)
    (Profile.current_jobs p) (Profile.rating p) (Profile.experience_years p)
    status.

(** The mail and the WhatsApp message that follow the save are not part of
    the store and are left out. *)
Definition approve_technician (adminKey : string) (provided : option string)
    (id : Id) (s : Store) : AdminReply * Store :=
  match requireAdmin adminKey provided with
  | Some (http, error) => (Refused http error, s)
  | None =>
      match findById Profile._id id (profiles s) with
      | None => (Refused 404 "not_found", s)
      | Some profile =>
          let r :=
            if String.eqb (Profile.role profile) ""
               || String.eqb (Profile.role profile) "worker"
            then "employee" else Profile.role profile in
          let profile' := set_approval r "approved" true profile in
          (Updated profile',
           with_profiles (save Profile._id profile' (profiles s)) s)
      end
  end.

Definition reject_technician (adminKey : string) (provided : option string)
    (id : Id) (s : Store) : AdminReply * Store :=
  match requireAdmin adminKey provided with
  | Some (http, error) => (Refused http error, s)
  | None =>
      match findById Profile._id id (profiles s) with
      | None => (Refused 404 "not_found", s)
      | Some profile =>
          let profile' :=
            set_approval (Profile.role profile) "rejected" false profile in
          (Updated profile',
           with_profiles (save Profile._id profile' (profiles s)) s)
      end
  end.

(** * Properties *)

(** ** Collections *)

Section CollectionFacts.
Context {A : Type} (id_of : A -> Id).

Lemma updateOne_Forall (P : A -> Prop) f u (l : list A) :
  Forall P l -> (forall d, In d l -> f d = true -> P (u d)) ->
  Forall P (updateOne f u l).
Proof.
  induction l as [|d r IH]; simpl; intros Hl Hu; [constructor|].
  inversion Hl; subst.
  destruct (f d) eqn:E.
  - constructor; auto.
  - constructor; [assumption | apply IH; auto].
Qed.

Lemma save_Forall (P : A -> Prop) d (l : list A) :
  Forall P l -> P d -> Forall P (save id_of d l).
Proof. intros; apply updateOne_Forall; auto. Qed.

Lemma deleteOne_Forall (P : A -> Prop) i (l : list A) :
  Forall P l -> Forall P (deleteOne id_of i l).
Proof.
  induction 1; simpl; [constructor|].
  destruct (Nat.eqb (id_of x) i); auto.
Qed.

Lemma findOne_In f (l : list A) d : findOne f l = Some d -> In d l.
Proof. intros H; apply find_some in H; exact (proj1 H). Qed.

Lemma findOne_true f (l : list A) d : findOne f l = Some d -> f d = true.
Proof. intros H; apply find_some in H; exact (proj2 H). Qed.

Lemma findById_In i (l : list A) d : findById id_of i l = Some d -> In d l.
Proof. intros H; apply find_some in H; exact (proj1 H). Qed.

Lemma findById_id i (l : list A) d : findById id_of i l = Some d -> id_of d = i.
Proof.
  intros H; apply find_some in H; destruct H as [_ H].
  now apply Nat.eqb_eq in H.
Qed.

(** Updating by [_id] and reading the same [_id] back. *)
Lemma findById_update_same i u (l : list A) :
  (forall d, id_of (u d) = id_of d) ->
  findById id_of i (findByIdAndUpdate id_of i u l)
  = option_map u (findById id_of i l).
Proof.
  intros Hu; unfold findById, findByIdAndUpdate.
  induction l as [|d r IH]; simpl; [reflexivity|].
  destruct (Nat.eqb (id_of d) i) eqn:E; simpl.
  - rewrite Hu, E; reflexivity.
  - rewrite E; exact IH.
Qed.

Lemma findById_save_same i d b (l : list A) :
  findById id_of i l = Some b -> id_of d = i ->
  findById id_of i (save id_of d l) = Some d.
Proof.
  intros Hb Hd; subst i; unfold save, findById in *.
  induction l as [|x r IH]; simpl in *; [discriminate|].
  destruct (Nat.eqb (id_of x) (id_of d)) eqn:E; simpl.
  - now rewrite Nat.eqb_refl.
  - rewrite E; auto.
Qed.

(** Updating one [_id] leaves the document of another [_id] in place. *)
Lemma findById_update_other i j u (l : list A) :
  i <> j -> (forall d, id_of d = j -> id_of (u d) = j) ->
  findById id_of i (updateOne (fun x => Nat.eqb (id_of x) j) u l)
  = findById id_of i l.
Proof.
  intros Hij Hu; unfold findById.
  induction l as [|d r IH]; simpl; [reflexivity|].
  destruct (Nat.eqb (id_of d) j) eqn:E; simpl.
  - apply Nat.eqb_eq in E.
    rewrite (Hu d E), E.
    replace (Nat.eqb j i) with false by (symmetry; apply Nat.eqb_neq; congruence).
    reflexivity.
  - destruct (Nat.eqb (id_of d) i); auto.
Qed.

Lemma findById_save_other i d (l : list A) :
  i <> id_of d -> findById id_of i (save id_of d l) = findById id_of i l.
Proof. intros H; apply findById_update_other; auto. Qed.
End CollectionFacts.

(** ** Running handlers *)

Lemma run_reject http error s :
  run (reject http error) s = (Fail http error, s).
Proof. reflexivity. Qed.

Lemma bind_Next A B (m : Handler A) (k : A -> Handler B) s a s' :
  m s = (Next a, s') -> bind m k s = k a s'.
Proof. unfold bind; intros ->; reflexivity. Qed.

Lemma bind_Sent A B (m : Handler A) (k : A -> Handler B) s r s' :
  m s = (Sent r, s') -> bind m k s = (Sent r, s').
Proof. unfold bind; intros ->; reflexivity. Qed.

Lemma when_false h s : when false h s = (Next tt, s).
Proof. reflexivity. Qed.

Lemma when_reject http error s :
  when true (reject http error) s = (Sent (Fail http error), s).
Proof. reflexivity. Qed.

Section CollectionMembership.
Context {A : Type} (id_of : A -> Id).

Lemma In_save d (l : list A) :
  (exists x, In x l /\ id_of x = id_of d) -> In d (save id_of d l).
Proof.
  unfold save; induction l as [|y r IH]; simpl; intros [x [Hx E]];
    [contradiction|].
  destruct (Nat.eqb (id_of y) (id_of d)) eqn:Ey; simpl; [now left|].
  right; apply IH. destruct Hx as [->|Hx].
  - apply Nat.eqb_neq in Ey; contradiction.
  - eauto.
Qed.
End CollectionMembership.

(** Case analysis along a handler: unfold the monad, then split on each
    test the source makes, dropping the branches that contradict the run. *)
Ltac unfold_handler :=
  unfold run, bind, when, reject, get, modify, fresh, ret, recount in *.

Ltac case_step :=
  match goal with
  | |- context [match ?x with Some _ => _ | None => _ end] => destruct x eqn:?
  | |- context [if ?c then _ else _] => destruct c eqn:?
  | |- context [match ?x with [] => _ | _ :: _ => _ end] => destruct x eqn:?
  | |- context [match ?x with credit => _ | debit => _ | refund => _ end] =>
      destruct x eqn:?
  end.

Ltac cases := repeat (case_step; cbv beta iota zeta; try discriminate).

(** ** Pricing at booking creation *)

Lemma post_bookings_total_ignored body v s :
  validate_create body = true -> 0 <= v ->
  post_bookings (CreateReq.set_total_price (Some v) body) s
  = post_bookings body s.
Proof.
  intros Hv Hp.
  assert (Hv' : validate_create (CreateReq.set_total_price (Some v) body) = true).
  { unfold validate_create in *; simpl.
    apply andb_true_iff in Hv; destruct Hv as [-> _]; simpl.
    now apply Z.leb_le. }
  unfold post_bookings. rewrite Hv, Hv'. reflexivity.
Qed.

(** C1.  Every booking returned by a successful POST /bookings is stored,
    carries the normalised component prices of the request, and its
    [total_price] is [max(0, max(0, base + addon - discount) - wallet)],
    hence not negative; the total the client submitted plays no part: any
    other admissible submitted total gives the same booking and store. *)
Theorem create_booking_total_price body s b s' :
  run (post_bookings body) s = (Json (PBooking b), s') ->
  In b (bookings s')
  /\ Booking.base_price b = number_or_0 (CreateReq.base_price body)
  /\ Booking.addon_price b = number_or_0 (CreateReq.addon_price body)
  /\ Booking.discount_amount b = number_or_0 (CreateReq.discount_amount body)
  /\ Booking.wallet_amount b = number_or_0 (CreateReq.wallet_amount body)
  /\ Booking.total_price b
     = Z.max 0 (Z.max 0 (Booking.base_price b + Booking.addon_price b
                         - Booking.discount_amount b)
                - Booking.wallet_amount b)
  /\ 0 <= Booking.total_price b
  /\ forall v, 0 <= v ->
       run (post_bookings (CreateReq.set_total_price (Some v) body)) s
       = (Json (PBooking b), s').
Proof.
  intros H.
  assert (Hv : validate_create body = true).
  { revert H; unfold post_bookings; unfold_handler.
    destruct (validate_create body); [reflexivity|discriminate]. }
  assert (Hlast : forall v, 0 <= v ->
       run (post_bookings (CreateReq.set_total_price (Some v) body)) s
       = (Json (PBooking b), s')).
  { intros v Hp; unfold run; rewrite post_bookings_total_ignored; auto. }
  revert H; unfold post_bookings; unfold_handler.
  cases; intros H; inversion H; subst; clear H; simpl;
    (split; [|repeat split; auto;
               unfold computedTotal, subtotalAfterDiscount; lia]).
  all: try (apply in_or_app; right; left; reflexivity).
  all: apply In_save; eexists;
    (split; [apply in_or_app; right; left; reflexivity|reflexivity]).
Qed.

(** ** Slot capacity *)










(** ** One-time codes *)

Section OtpFacts.
Variable hashCode : string -> string.
Variable isEmail : string -> bool.

Lemma verify_exceeded now body s otp :
  validate_verify isEmail body = true ->
  latest_otp (sanitizeInput (trim (VerifyReq.phone body))) (otps s) = Some otp ->
  now <= OTP.expires_at otp ->
  5 <= OTP.attempts otp ->
  run (verify_otp hashCode isEmail now body) s
  = (Fail 429 "otp_attempts_exceeded", s).
Proof.
  intros Hv Ho He Ha; unfold verify_otp; unfold_handler.
  rewrite Hv; simpl; rewrite Ho; simpl.
  replace (OTP.expires_at otp <? now) with false
    by (symmetry; apply Z.ltb_ge; lia).
  replace (5 <=? OTP.attempts otp) with true
    by (symmetry; apply Z.leb_le; lia).
  reflexivity.
Qed.

Lemma verify_mismatch now body s otp :
  validate_verify isEmail body = true ->
  latest_otp (sanitizeInput (trim (VerifyReq.phone body))) (otps s) = Some otp ->
  now <= OTP.expires_at otp ->
  OTP.attempts otp < 5 ->
  hashCode (trim (trim (VerifyReq.code body))) <> OTP.code_hash otp ->
  run (verify_otp hashCode isEmail now body) s
  = if otp_valid otp
    then (Fail 400 "otp_invalid",
          with_otps (save OTP._id (OTP.set_attempts (OTP.attempts otp + 1) otp)
                       (otps s)) s)
    else (Fail 500 "otp_verify_failed", s).
Proof.
  intros Hv Ho He Ha Hh; unfold verify_otp; unfold_handler.
  rewrite Hv; simpl; rewrite Ho; simpl.
  replace (OTP.expires_at otp <? now) with false
    by (symmetry; apply Z.ltb_ge; lia).
  replace (5 <=? OTP.attempts otp) with false
    by (symmetry; apply Z.leb_gt; lia).
  apply String.eqb_neq in Hh; rewrite Hh; simpl.
  change (otp_valid (OTP.set_attempts (OTP.attempts otp + 1) otp))
    with (otp_valid otp).
  destruct (otp_valid otp); reflexivity.
Qed.

Lemma latest_In l o : latest l = Some o -> In o l.
Proof.
  revert o; induction l as [|x r IH]; simpl; intros o H; [discriminate|].
  destruct (latest r) as [m|].
  - destruct (OTP.created_at x <? OTP.created_at m); inversion H; subst; auto.
  - inversion H; auto.
Qed.

Lemma latest_otp_In phone l o : latest_otp phone l = Some o -> In o l.
Proof.
  unfold latest_otp; intros H; apply latest_In in H.
  apply filter_In in H; tauto.
Qed.

(** Reading a challenge back after its attempts were counted: with unique
    [_id]s the saved document takes the place of the one that was read. *)
Lemma latest_map (g : OTP.t -> OTP.t) l :
  (forall x, OTP.created_at (g x) = OTP.created_at x) ->
  latest (map g l) = option_map g (latest l).
Proof.
  intros Hg; induction l as [|x r IH]; simpl; [reflexivity|].
  rewrite IH; destruct (latest r) as [m|]; simpl; [|reflexivity].
  rewrite !Hg; destruct (OTP.created_at x <? OTP.created_at m); reflexivity.
Qed.

Lemma save_attempts_map n otp l :
  NoDup (map OTP._id l) -> In otp l ->
  save OTP._id (OTP.set_attempts n otp) l
  = map (fun x => if Nat.eqb (OTP._id x) (OTP._id otp)
                  then OTP.set_attempts n x else x) l.
Proof.
  unfold save; simpl.
  induction l as [|x r IH]; simpl; intros Hn Hin; [reflexivity|].
  apply NoDup_cons_iff in Hn; destruct Hn as [Hx Hn].
  destruct (Nat.eqb (OTP._id x) (OTP._id otp)) eqn:E.
  - apply Nat.eqb_eq in E.
    assert (x = otp) as ->.
    { destruct Hin as [H|H]; [exact H|].
      exfalso; apply Hx; rewrite E; now apply in_map. }
    f_equal; clear IH Hin E.
    induction r as [|y r IH]; simpl; [reflexivity|].
    simpl in Hx; apply NoDup_cons_iff in Hn; destruct Hn as [_ Hn].
    destruct (Nat.eqb (OTP._id y) (OTP._id otp)) eqn:E.
    + apply Nat.eqb_eq in E; exfalso; apply Hx; left; exact E.
    + f_equal; apply IH; [tauto|exact Hn].
  - f_equal; apply IH; [exact Hn|].
    destruct Hin as [H|H]; [|exact H].
    subst x; rewrite Nat.eqb_refl in E; discriminate.
Qed.

Lemma latest_otp_counted phone n otp l :
  NoDup (map OTP._id l) ->
  latest_otp phone l = Some otp ->
  latest_otp phone (save OTP._id (OTP.set_attempts n otp) l)
  = Some (OTP.set_attempts n otp).
Proof.
  intros Hn Ho; pose proof (@latest_otp_In _ _ _ Ho) as Hin.
  rewrite save_attempts_map by assumption.
  unfold latest_otp in *.
  set (g := fun x => if Nat.eqb (OTP._id x) (OTP._id otp)
                     then OTP.set_attempts n x else x).
  assert (Hf : filter (fun o => String.eqb (OTP.phone o) phone) (map g l)
               = map g (filter (fun o => String.eqb (OTP.phone o) phone) l)).
  { clear; induction l as [|x r IH]; simpl; [reflexivity|].
    replace (OTP.phone (g x)) with (OTP.phone x)
      by (unfold g; destruct (Nat.eqb _ _); reflexivity).
    destruct (String.eqb (OTP.phone x) phone); simpl; now rewrite IH. }
  rewrite Hf, latest_map, Ho; simpl.
  - unfold g; now rewrite Nat.eqb_refl.
  - intros x; unfold g; destruct (Nat.eqb _ _); reflexivity.
Qed.

Lemma verify_capped now body s :
  attempts_capped s ->
  attempts_capped (snd (run (verify_otp hashCode isEmail now body) s)).
Proof.
  intros Hs; unfold verify_otp; unfold_handler.
  cases; simpl; auto; unfold attempts_capped; simpl.
  all: try (apply deleteOne_Forall; exact Hs).
  all: apply save_Forall; [exact Hs|]; simpl.
  all: match goal with H : (5 <=? _) = false |- _ => apply Z.leb_gt in H; lia end.
Qed.

Lemma request_capped now generated phone s :
  attempts_capped s ->
  attempts_capped (snd (run (request_otp hashCode now generated phone) s)).
Proof.
  intros Hs; unfold request_otp; unfold_handler.
  cases; simpl; auto; unfold attempts_capped; simpl.
  all: try (apply updateOne_Forall; [exact Hs|]; intros; simpl; lia).
  all: apply Forall_app; split; [exact Hs|]; repeat constructor; simpl; lia.
Qed.

(** C5.  For a verify request that passes the route's validators and
    whose latest challenge has not expired: once [attempts >= 5] the
    reply is [otp_attempts_exceeded] whatever code is submitted, the store
    is untouched, and so every later verify request for that phone made
    before expiry gets the same reply.  With [attempts < 5], a code whose
    hash differs is answered [otp_invalid] when the challenge passes the
    schema's validation (phone and code hash not empty): the challenge is
    then saved and reads back, by its [_id] and as the latest challenge of
    the phone, with exactly [attempts + 1] and everything else as it was.
    A challenge that fails the validation cannot be saved: the reply is
    500 and nothing is counted.  Over any sequence of request-otp and
    verify-otp calls no challenge gets beyond 5 attempts. *)
Theorem otp_attempt_cap now body s otp :
  validate_verify isEmail body = true ->
  latest_otp (sanitizeInput (trim (VerifyReq.phone body))) (otps s) = Some otp ->
  now <= OTP.expires_at otp ->
  (5 <= OTP.attempts otp ->
     run (verify_otp hashCode isEmail now body) s
     = (Fail 429 "otp_attempts_exceeded", s)
     /\ forall later,
          Forall (fun r => validate_verify isEmail (snd r) = true
                           /\ sanitizeInput (trim (VerifyReq.phone (snd r)))
                              = sanitizeInput (trim (VerifyReq.phone body))
                           /\ fst r <= OTP.expires_at otp) later ->
          serve (map (fun r => verify_otp hashCode isEmail (fst r) (snd r))
                   later) s
          = (map (fun _ => Fail 429 "otp_attempts_exceeded") later, s))
  /\ (OTP.attempts otp < 5 ->
      hashCode (trim (trim (VerifyReq.code body))) <> OTP.code_hash otp ->
      (otp_valid otp = true ->
       exists s' counted,
         run (verify_otp hashCode isEmail now body) s
         = (Fail 400 "otp_invalid", s')
         /\ otps s' = save OTP._id counted (otps s)
         /\ findById OTP._id (OTP._id otp) (otps s') = Some counted
         /\ (NoDup (map OTP._id (otps s)) ->
             latest_otp (sanitizeInput (trim (VerifyReq.phone body))) (otps s')
             = Some counted)
         /\ OTP.attempts counted = OTP.attempts otp + 1
         /\ OTP._id counted = OTP._id otp
         /\ OTP.phone counted = OTP.phone otp
         /\ OTP.code_hash counted = OTP.code_hash otp
         /\ OTP.expires_at counted = OTP.expires_at otp)
      /\ (otp_valid otp = false ->
          run (verify_otp hashCode isEmail now body) s
          = (Fail 500 "otp_verify_failed", s)))
  /\ forall ops,
       attempts_capped s ->
       attempts_capped
         (fold_left (fun st op => snd (run (otp_op hashCode isEmail op) st))
            ops s).
Proof.
  assert (Hcap : forall ops st, attempts_capped st ->
     attempts_capped
       (fold_left (fun st op => snd (run (otp_op hashCode isEmail op) st))
          ops st)).
  { induction ops as [|op ops IH]; simpl; intros st Hst; [exact Hst|].
    apply IH; destruct op; simpl;
      [now apply request_capped | now apply verify_capped]. }
  intros Hv Ho He; split; [|split].
  - intros Ha; split; [now apply verify_exceeded with otp|].
    intros later Hl; induction Hl as [|[t r] later [Hr [Hp Ht]] _ IH]; simpl;
      [reflexivity|].
    simpl in *. rewrite verify_exceeded with (otp := otp); auto.
    + now rewrite IH.
    + now rewrite Hp.
  - intros Ha Hh.
    pose proof (@verify_mismatch now body s otp Hv Ho He Ha Hh) as Hrun.
    split; intros Hvalid; rewrite Hvalid in Hrun; [|exact Hrun].
    exists (with_otps
              (save OTP._id (OTP.set_attempts (OTP.attempts otp + 1) otp)
                 (otps s)) s),
           (OTP.set_attempts (OTP.attempts otp + 1) otp).
    split; [exact Hrun|]; split; [reflexivity|]; split; [|split].
    + simpl.
      pose proof (@latest_otp_In _ _ _ Ho) as Hin.
      destruct (findById OTP._id (OTP._id otp) (otps s)) as [b|] eqn:Hb.
      * eapply findById_save_same; [exact Hb|reflexivity].
      * exfalso; unfold findById in Hb.
        apply (find_none _ _ Hb) in Hin.
        rewrite Nat.eqb_refl in Hin; discriminate.
    + intros Hn; simpl; now apply latest_otp_counted.
    + repeat split.
  - intros ops; apply Hcap.
Qed.
End OtpFacts.

(** ** Worker ranking and auto-assign *)

Section Ranking.
Context {A : Type} (score : A -> Number).

Lemma first_max_split l best :
  first_max score l = Some best ->
  exists l1 l2, l = (l1 ++ best :: l2)%list
    /\ (forall w, In w l1 -> score w < score best)
    /\ (forall w, In w l2 -> score w <= score best).
Proof.
  revert best; induction l as [|x r IH]; simpl; intros best H; [discriminate|].
  destruct (first_max score r) as [y|] eqn:E.
  - destruct (IH y eq_refl) as (l1 & l2 & -> & H1 & H2).
    destruct (score x <? score y) eqn:C; inversion H; subst; clear H.
    + apply Z.ltb_lt in C.
      exists (x :: l1), l2; repeat split; auto.
      intros w [<-|Hw]; auto.
    + apply Z.ltb_ge in C.
      exists [], (l1 ++ y :: l2)%list; repeat split; auto.
      * intros w [].
      * intros w Hw; apply in_app_or in Hw; destruct Hw as [Hw|[<-|Hw]].
        -- specialize (H1 w Hw); lia.
        -- lia.
        -- specialize (H2 w Hw); lia.
  - inversion H; subst; clear H.
    destruct r; [|simpl in E; destruct (first_max score r);
                   [destruct (score a <? score a0)|]; discriminate].
    exists [], []; repeat split; auto; intros w [].
Qed.

Lemma first_max_nonempty l : l <> [] -> exists best, first_max score l = Some best.
Proof.
  destruct l as [|x r]; [congruence|]; intros _; simpl.
  destruct (first_max score r) as [y|]; [destruct (score x <? score y)|]; eauto.
Qed.

(** The stable descending sort puts the first maximum in front. *)
Lemma sort_head l :
  hd_error (sort (fun a b : A * Number => snd b - snd a)
              (map (fun w => (w, score w)) l))
  = option_map (fun w => (w, score w)) (first_max score l).
Proof.
  unfold sort; induction l as [|x r IH]; simpl; [reflexivity|].
  destruct (fold_right _ _ _) as [|[y sy] rest] eqn:E; simpl in *.
  - destruct (first_max score r); [discriminate|reflexivity].
  - destruct (first_max score r) as [z|]; [|discriminate].
    simpl in IH; inversion IH; subst; clear IH.
    replace (0 <? score z - score x) with (score x <? score z)
      by (destruct (Z.ltb_spec (score x) (score z));
          destruct (Z.ltb_spec 0 (score z - score x)); lia).
    destruct (score x <? score z); reflexivity.
Qed.
End Ranking.

Lemma priority_formula loc w :
  priority loc w
  = 100 * (if match Profile.location w with
              | Some l => String.eqb l loc
              | None => false
              end then 1 else 0)
    + 10 * Profile.rating w
    + 5 * Profile.experience_years w
    + 2 * (Profile.max_capacity w - Profile.current_jobs w).
Proof.
  unfold priority; destruct (Profile.location w) as [l|];
    [destruct (String.eqb l loc)|]; lia.
Qed.

(** C7.  On a stored booking, auto-assign answers [already_assigned] when
    [employee_id] is set and [no_eligible_workers] when no profile passes
    the eligibility filter; otherwise the worker it assigns is the first one,
    in the order of the eligible list, whose score
    [100*[location = customerLocation] + 10*rating + 5*experience_years
     + 2*(max_capacity - current_jobs)] is maximal, and the stored booking
    gets that worker as [employee_id], [status = assigned] and
    [assigned_at = now]. *)
Theorem auto_assign_picks_best now id s b :
  findById Booking._id id (bookings s) = Some b ->
  let workers :=
    filter (eligible (populate_service (Booking.service_id b) s)) (profiles s) in
  let score := priority (customerLocation b) in
  (forall e, Booking.employee_id b = Some e ->
     run (auto_assign now id) s = (Fail 400 "already_assigned", s))
  /\ (Booking.employee_id b = None -> workers = [] ->
      run (auto_assign now id) s = (Fail 404 "no_eligible_workers", s))
  /\ (Booking.employee_id b = None -> workers <> [] ->
      exists best before behind,
        workers = (before ++ best :: behind)%list
        /\ (forall w, In w before -> score w < score best)
        /\ (forall w, In w behind -> score w <= score best)
        /\ score best
           = 100 * (if match Profile.location best with
                       | Some l => String.eqb l (customerLocation b)
                       | None => false
                       end then 1 else 0)
             + 10 * Profile.rating best
             + 5 * Profile.experience_years best
             + 2 * (Profile.max_capacity best - Profile.current_jobs best)
        /\ let assigned := assign_update (Profile._id best) now b in
           fst (run (auto_assign now id) s) = Json (PBooking assigned)
           /\ findById Booking._id id (bookings (snd (run (auto_assign now id) s)))
              = Some assigned
           /\ Booking.employee_id assigned = Some (Profile._id best)
           /\ Booking.status assigned = "assigned"
           /\ Booking.assigned_at assigned = Some now).
Proof.
  intros Hb workers score; repeat split.
  - intros e He; unfold auto_assign; unfold_handler.
    rewrite Hb; simpl; rewrite He; reflexivity.
  - intros He Hw; unfold auto_assign; unfold_handler.
    rewrite Hb; simpl; rewrite He; simpl.
    fold workers; rewrite Hw; reflexivity.
  - intros He Hw.
    destruct (first_max_nonempty score Hw) as [best Hbest].
    destruct (first_max_split score _ Hbest) as (l1 & l2 & Hl & H1 & H2).
    exists best, l1, l2; repeat split; auto.
    + apply priority_formula.
    + unfold auto_assign; unfold_handler.
      rewrite Hb; simpl; rewrite He; simpl.
      pose proof (sort_head score workers) as Hs.
      rewrite Hbest in Hs; simpl in Hs.
      fold workers. fold score. unfold by_priority.
      destruct workers as [|w0 wr] eqn:Ew; [congruence|].
      cbv beta iota zeta. simpl Nat.eqb. cbv iota.
      destruct (sort _ _) as [|[bw bs] rest]; [discriminate|].
      simpl in Hs; inversion Hs; subst. reflexivity.
    + unfold auto_assign; unfold_handler.
      rewrite Hb; simpl; rewrite He; simpl.
      pose proof (sort_head score workers) as Hs.
      rewrite Hbest in Hs; simpl in Hs.
      fold workers. fold score. unfold by_priority.
      destruct workers as [|w0 wr] eqn:Ew; [congruence|].
      cbv beta iota zeta. simpl Nat.eqb. cbv iota.
      destruct (sort _ _) as [|[bw bs] rest]; [discriminate|].
      simpl in Hs; inversion Hs; subst. simpl.
      rewrite findById_update_same by reflexivity.
      rewrite Hb; reflexivity.
Qed.

(** ** Payment confirmation *)

Section PaymentFacts.
Variable hmacSha256 : string -> string -> string.
Variable JSON_parse : string -> option WebhookEvent.

Lemma payments_verify_paid env fetched body s b :
  razorpay env = true ->
  findById Booking._id (PayReq.booking_id body) (bookings s) = Some b ->
  hmacSha256 (RAZORPAY_KEY_SECRET env)
    (PayReq.razorpay_order_id body ++ "|" ++ PayReq.razorpay_payment_id body)
  = PayReq.razorpay_signature body ->
  gw_status fetched = "captured" \/ gw_status fetched = "authorized" ->
  amount_mismatch (gw_amount fetched) (Booking.total_price b) = false ->
  run (payments_verify hmacSha256 env fetched body) s
  = (Json (PPaid (Booking._id b) (PayReq.razorpay_payment_id body)),
     with_bookings (save Booking._id (mark_paid b) (bookings s)) s).
Proof.
  intros Hr Hb Hs Hg Ha; unfold payments_verify; unfold_handler.
  cbv zeta; rewrite Hs, Hr, String.eqb_refl; simpl; rewrite Hb; simpl.
  replace (negb (gw_status fetched =? "captured")%string
           && negb (gw_status fetched =? "authorized")%string) with false
    by (destruct Hg as [-> | ->]; reflexivity).
  rewrite Ha; reflexivity.
Qed.

(** The write of the webhook is reached only through an array body whose
    joined text parses as an event and is signed as that text. *)
Lemma payments_webhook_paid env items payment bookingId s b :
  razorpay env = true ->
  RAZORPAY_WEBHOOK_SECRET env <> "" ->
  JSON_parse (body_text (ArrayBody items))
  = Some (mkWebhookEvent "payment.captured" (Some payment)) ->
  ev_notes_booking_id payment = Some bookingId ->
  findById Booking._id bookingId (bookings s) = Some b ->
  run (payments_webhook hmacSha256 JSON_parse env
         (Some (hmacSha256 (RAZORPAY_WEBHOOK_SECRET env)
                  (body_text (ArrayBody items))))
         (ArrayBody items)) s
  = (Json PSuccess, with_bookings (save Booking._id (mark_paid b) (bookings s)) s).
Proof.
  intros Hr Hw Hj Hn Hb; unfold payments_webhook; unfold_handler.
  rewrite Hr; simpl negb; cbv iota.
  apply String.eqb_neq in Hw; rewrite Hw; cbv iota.
  cbv zeta; rewrite String.eqb_refl; simpl negb; cbv iota.
  rewrite Hj; simpl; rewrite Hn, Hb; reflexivity.
Qed.

(** An object body reaches no write: its text is [[object Object]]
    whatever the event, which no gateway signs and [JSON.parse] refuses. *)
Lemma payments_webhook_object env signature s :
  JSON_parse "[object Object]" = None ->
  exists http error,
    run (payments_webhook hmacSha256 JSON_parse env signature ObjectBody) s
    = (Fail http error, s)
    /\ (razorpay env = true ->
        RAZORPAY_WEBHOOK_SECRET env <> "" ->
        signature
        <> Some (hmacSha256 (RAZORPAY_WEBHOOK_SECRET env) "[object Object]") ->
        http = 400%nat /\ error = "invalid_signature").
Proof.
  intros Hj; unfold payments_webhook, body_text; unfold_handler.
  destruct (razorpay env); simpl negb; cbv iota;
    [|do 2 eexists; split; [reflexivity|discriminate]].
  destruct (String.eqb_spec (RAZORPAY_WEBHOOK_SECRET env) "") as [Hw|Hw];
    cbv iota; [do 2 eexists; split; [reflexivity|intros _ H; contradiction]|].
  cbv zeta.
  destruct signature as [sg|];
    [|do 2 eexists; split; [reflexivity|intros; split; reflexivity]].
  destruct (String.eqb_spec
              (hmacSha256 (RAZORPAY_WEBHOOK_SECRET env) "[object Object]") sg)
    as [E|E]; simpl negb; cbv iota.
  - rewrite Hj; do 2 eexists; split; [reflexivity|].
    intros _ _ H; exfalso; apply H; now rewrite E.
  - do 2 eexists; split; [reflexivity|intros; split; reflexivity].
Qed.

(** C10.  With the gateway configured, a verify request with a valid
    signature, a captured or authorized payment and an amount that passes
    the code's test stores the booking with [payment_status = paid] and
    [status = confirmed], whatever its status was; [confirmed] is none of
    the seven lifecycle states.  The webhook does not: the body of an event
    arrives parsed, the handler signs and parses the text [[object Object]]
    instead of the raw body, and so every event sent as a JSON object is
    refused and leaves the booking as it was, with [invalid_signature]
    unless the header happens to sign that text. *)
Theorem payment_confirmed_by_verify_only env s id b :
  razorpay env = true ->
  findById Booking._id id (bookings s) = Some b ->
  JSON_parse "[object Object]" = None ->
  (forall fetched body,
     PayReq.booking_id body = id ->
     hmacSha256 (RAZORPAY_KEY_SECRET env)
       (PayReq.razorpay_order_id body ++ "|" ++ PayReq.razorpay_payment_id body)
     = PayReq.razorpay_signature body ->
     gw_status fetched = "captured" \/ gw_status fetched = "authorized" ->
     amount_mismatch (gw_amount fetched) (Booking.total_price b) = false ->
     let r := run (payments_verify hmacSha256 env fetched body) s in
     fst r = Json (PPaid id (PayReq.razorpay_payment_id body))
     /\ findById Booking._id id (bookings (snd r)) = Some (mark_paid b))
  /\ (forall signature,
        exists http error,
          run (payments_webhook hmacSha256 JSON_parse env signature ObjectBody) s
          = (Fail http error, s)
          /\ (RAZORPAY_WEBHOOK_SECRET env <> "" ->
              signature
              <> Some (hmacSha256 (RAZORPAY_WEBHOOK_SECRET env)
                         "[object Object]") ->
              http = 400%nat /\ error = "invalid_signature"))
  /\ Booking.payment_status (mark_paid b) = "paid"
  /\ Booking.status (mark_paid b) = "confirmed"
  /\ ~ In "confirmed" lifecycle_states.
Proof.
  intros Hr Hb Hj; split; [|split; [|repeat split]].
  - intros fetched body Hid Hs Hg Ha; cbv zeta; subst id.
    rewrite payments_verify_paid with (b := b); auto; simpl.
    split; [now rewrite (findById_id _ _ _ Hb)|].
    eapply findById_save_same; eauto. simpl. exact (findById_id _ _ _ Hb).
  - intros signature.
    destruct (@payments_webhook_object env signature s Hj)
      as (http & error & Hrun & Hsig).
    exists http, error; split; [exact Hrun|]; intros Hw Hne; now apply Hsig.
  - unfold lifecycle_states; simpl; intros H.
    repeat (destruct H as [H|H]; [discriminate|]). exact H.
Qed.
End PaymentFacts.

(** ** Terminal states *)

Lemma status_after_save id id0 l b b0 x b' :
  findById Booking._id id l = Some b ->
  findById Booking._id id0 l = Some b0 ->
  Booking._id x = Booking._id b0 ->
  (b0 = b -> Booking.status x = Booking.status b) ->
  findById Booking._id id (save Booking._id x l) = Some b' ->
  Booking.status b' = Booking.status b.
Proof.
  intros Hb Hb0 Hx Hst H.
  pose proof (findById_id _ _ _ Hb0) as Hid0.
  destruct (Nat.eq_dec id id0) as [->|Hne].
  - rewrite (@findById_save_same _ Booking._id id0 x b l Hb) in H by congruence.
    inversion H; subst. apply Hst; congruence.
  - rewrite findById_save_other in H by congruence.
    congruence.
Qed.

Lemma free_slot_bookings svc b s :
  bookings (snd (free_slot svc b s)) = bookings s
  /\ exists u, fst (free_slot svc b s) = Next u.
Proof.
  unfold free_slot; unfold_handler; cases; simpl; eauto.
Qed.

Lemma terminal_cases st :
  terminal st = true -> st = "cancelled" \/ st = "completed".
Proof.
  unfold terminal, in_statuses; simpl; intros H.
  apply orb_true_iff in H; destruct H as [H|H].
  - left; now apply String.eqb_eq.
  - apply orb_true_iff in H; destruct H as [H|H]; [|discriminate].
    right; now apply String.eqb_eq.
Qed.

Lemma employee_step_keeps st stamp now id0 :
  (forall d b, Booking._id (stamp d b) = Booking._id b) ->
  keeps_terminal (employee_step st stamp now id0).
Proof.
  intros Hstamp s id b b' Hb Ht; unfold employee_step; unfold_handler.
  destruct (findById Booking._id id0 (bookings s)) as [b0|] eqn:Hb0;
    cbv beta iota zeta; [|simpl; congruence].
  destruct (in_statuses _ (Booking.status b0)) eqn:G; simpl; [congruence|].
  apply status_after_save with (id0 := id0) (b0 := b0); auto.
  - now rewrite Hstamp.
  - intros ->; unfold terminal in Ht; congruence.
Qed.

Lemma complete_keeps now id0 : keeps_terminal (complete now id0).
Proof.
  intros s id b b' Hb Ht; unfold complete; unfold_handler.
  destruct (findById Booking._id id0 (bookings s)) as [b0|] eqn:Hb0;
    cbv beta iota zeta; [|simpl; congruence].
  destruct (in_statuses _ (Booking.status b0)) eqn:G; simpl; [congruence|].
  assert (Hst : b0 = b -> "completed" = Booking.status b).
  { intros ->. destruct (terminal_cases _ Ht) as [E|E]; [|congruence].
    rewrite E in G; discriminate. }
  destruct (cod_settles b0); simpl;
    (destruct (Booking.employee_id b0); simpl;
     apply status_after_save with (id0 := id0) (b0 := b0); auto).
Qed.

Lemma cancel_keeps now id0 reason who : keeps_terminal (cancel now id0 reason who).
Proof.
  intros s id b b' Hb Ht; unfold cancel; unfold_handler.
  destruct (findById Booking._id id0 (bookings s)) as [b0|] eqn:Hb0;
    cbv beta iota zeta; [|simpl; congruence].
  destruct (String.eqb (Booking.status b0) "completed") eqn:G1; simpl;
    [congruence|].
  destruct (String.eqb (Booking.status b0) "cancelled") eqn:G2; simpl;
    [congruence|].
  destruct (free_slot_bookings (Some (Booking.service_id b0)) b0 s) as [E [u F]].
  destruct (free_slot _ b0 s) as [o s1]; simpl in *; subst o.
  assert (Hst : b0 = b -> "cancelled" = Booking.status b).
  { intros ->. destruct (terminal_cases _ Ht) as [E'|E'];
      rewrite E' in *; discriminate. }
  destruct (Booking.employee_id b0); simpl; rewrite E;
    apply status_after_save with (id0 := id0) (b0 := b0); auto.
Qed.

Lemma reschedule_keeps id0 d t : keeps_terminal (reschedule id0 d t).
Proof.
  intros s id b b' Hb Ht; unfold reschedule; unfold_handler.
  destruct (String.eqb t ""); simpl; [congruence|].
  destruct (findById Booking._id id0 (bookings s)) as [b0|] eqn:Hb0;
    cbv beta iota zeta; [|simpl; congruence].
  destruct (String.eqb (Booking.status b0) "completed") eqn:G1; simpl;
    [congruence|].
  destruct (String.eqb (Booking.status b0) "cancelled") eqn:G2; simpl;
    [congruence|].
  destruct (negb (isServiceable _ s)); simpl; [congruence|].
  destruct (free_slot_bookings (populate_service (Booking.service_id b0) s) b0 s)
    as [E [u F]].
  destruct (free_slot _ b0 s) as [o s1]; simpl in *; subst o.
  assert (Hst : forall x, b0 = b -> x = Booking.status b).
  { intros x ->. destruct (terminal_cases _ Ht) as [E'|E'];
      rewrite E' in *; discriminate. }
  destruct (slot_full _); simpl; [congruence|].
  destruct (findOne _ (slots s1)); simpl; rewrite E;
    apply status_after_save with (id0 := id0) (b0 := b0); auto.
Qed.

Lemma status_update_id now st settle b :
  Booking._id (status_update now st settle b) = Booking._id b.
Proof. unfold status_update; cases; reflexivity. Qed.

Lemma status_update_status now st settle b :
  Booking.status (status_update now st settle b) = st.
Proof. unfold status_update; cases; reflexivity. Qed.

Lemma patch_status_sets now id st s b :
  findById Booking._id id (bookings s) = Some b ->
  exists b',
    findById Booking._id id (bookings (snd (run (patch_status now id st) s)))
    = Some b'
    /\ Booking.status b' = st.
Proof.
  intros Hb; unfold patch_status; unfold_handler.
  rewrite Hb; cbv beta iota zeta.
  exists (status_update now st (String.eqb st "completed" && cod_settles b) b).
  split; [|apply status_update_status].
  destruct (Booking.employee_id (status_update _ _ _ b)); simpl.
  all: rewrite findById_update_same;
    [rewrite Hb; reflexivity | intros d; apply status_update_id].
Qed.

(** The routes that test the status first (accept, mark-reached,
    start-work, complete, cancel, reschedule) never change the status of a
    booking that is [cancelled] or [completed]; the general
    PATCH /bookings/:id/status route tests nothing and stores the submitted
    status on any booking it finds. *)
Lemma guarded_routes_keep_terminal :
  (forall h, guarded_route h -> keeps_terminal h)
  /\ forall now id st s b,
       findById Booking._id id (bookings s) = Some b ->
       exists b',
         findById Booking._id id (bookings (snd (run (patch_status now id st) s)))
         = Some b'
         /\ Booking.status b' = st.
Proof.
  split.
  - intros h [now id|now id|now id|now id|now id r w|id d t].
    + apply employee_step_keeps; reflexivity.
    + apply employee_step_keeps; reflexivity.
    + apply employee_step_keeps; reflexivity.
    + apply complete_keeps.
    + apply cancel_keeps.
    + apply reschedule_keeps.
  - intros now id st s b Hb; now apply patch_status_sets with b.
Qed.

Section TerminalStates.
Variable hmacSha256 : string -> string -> string.

Lemma assign_sets_assigned now id e s b w :
  findById Booking._id id (bookings s) = Some b ->
  findById Profile._id e (profiles s) = Some w ->
  worker_verified w = true ->
  option_map Booking.status
    (findById Booking._id id
       (bookings (snd (run (assign now id (Some e)) s))))
  = Some "assigned".
Proof.
  intros Hb Hw Hv; unfold assign; unfold_handler.
  rewrite Hw; cbv beta iota zeta; rewrite Hv; simpl negb; cbv iota.
  rewrite Hb; simpl.
  rewrite findById_update_same by reflexivity.
  rewrite Hb; reflexivity.
Qed.

Lemma auto_assign_sets_assigned now id s b' s' :
  run (auto_assign now id) s = (Json (PBooking b'), s') ->
  option_map Booking.status (findById Booking._id id (bookings s'))
  = Some "assigned".
Proof.
  unfold auto_assign; unfold_handler.
  destruct (findById Booking._id id (bookings s)) as [b|] eqn:Hb;
    cbv beta iota zeta; [|discriminate].
  destruct (is_some (Booking.employee_id b)); cbv beta iota zeta; [discriminate|].
  destruct (Nat.eqb _ 0); cbv beta iota zeta; [discriminate|].
  destruct (sort by_priority _) as [|[w p] rest]; [discriminate|].
  intros H; inversion H; subst; clear H; simpl.
  rewrite findById_update_same by reflexivity.
  rewrite Hb; reflexivity.
Qed.

(** C9.  [cancelled] and [completed] are not absorbing.  For a stored
    booking in one of the two states, PATCH /bookings/:id/status answers
    with the booking and stores whatever status is submitted; the assign
    route stores [assigned] for any verified worker, auto-assign stores
    [assigned] whenever it succeeds, and a valid payment verification
    stores [confirmed]: none of the four tests the status.  The six routes
    that do test it (accept, mark-reached, start-work, complete, cancel,
    reschedule) leave the status as it is. *)
Theorem terminal_status_overwritten now id s b :
  findById Booking._id id (bookings s) = Some b ->
  terminal (Booking.status b) = true ->
  let stored (h : Handler Response) :=
    option_map Booking.status
      (findById Booking._id id (bookings (snd (run h s)))) in
  (forall st,
     stored (patch_status now id st) = Some st
     /\ exists b', fst (run (patch_status now id st) s) = Json (PBooking b'))
  /\ (forall e w,
        findById Profile._id e (profiles s) = Some w ->
        worker_verified w = true ->
        stored (assign now id (Some e)) = Some "assigned")
  /\ (forall b',
        fst (run (auto_assign now id) s) = Json (PBooking b') ->
        stored (auto_assign now id) = Some "assigned")
  /\ (forall env fetched body,
        razorpay env = true ->
        PayReq.booking_id body = id ->
        hmacSha256 (RAZORPAY_KEY_SECRET env)
          (PayReq.razorpay_order_id body ++ "|"
           ++ PayReq.razorpay_payment_id body)
        = PayReq.razorpay_signature body ->
        gw_status fetched = "captured" \/ gw_status fetched = "authorized" ->
        amount_mismatch (gw_amount fetched) (Booking.total_price b) = false ->
        stored (payments_verify hmacSha256 env fetched body) = Some "confirmed")
  /\ (forall h b',
        guarded_route h ->
        findById Booking._id id (bookings (snd (run h s))) = Some b' ->
        Booking.status b' = Booking.status b).
Proof.
  intros Hb Ht stored; unfold stored; clear stored.
  split; [|split; [|split; [|split]]].
  - intros st; split.
    + destruct (@patch_status_sets now id st s b Hb) as (b' & Hf & Hst).
      rewrite Hf; simpl; now rewrite Hst.
    + unfold patch_status; unfold_handler.
      rewrite Hb; cbv beta iota zeta.
      match goal with
      | |- context [Booking.employee_id ?u] => destruct (Booking.employee_id u)
      end; simpl; eexists; reflexivity.
  - intros e w Hw Hv; exact (@assign_sets_assigned now id e s b w Hb Hw Hv).
  - intros b' Hrun.
    destruct (run (auto_assign now id) s) as [r s'] eqn:E; simpl in *; subst r.
    exact (@auto_assign_sets_assigned now id s b' s' E).
  - intros env fetched body Hr Hid Hs Hg Ha; subst id.
    rewrite payments_verify_paid with (b := b); auto; simpl.
    erewrite findById_save_same; [reflexivity|exact Hb|].
    simpl; exact (findById_id _ _ _ Hb).
  - intros h b' Hg Hf.
    exact (proj1 guarded_routes_keep_terminal h Hg s id b b' Hb Ht Hf).
Qed.
End TerminalStates.

(** ** Wallet ledger *)

Lemma wallet_credit body s u a d p :
  WalletReq.user_id body = Some u -> WalletReq.amount body = Some a ->
  WalletReq.description body = Some d -> sanitizeInput d <> "" -> 0 < a ->
  findById Profile._id u (profiles s) = Some p ->
  WalletReq.transaction_type body = Some "credit" ->
  exists t,
    run (wallet_transaction body) s
    = (Json (PTransaction t),
       with_profiles
         (findByIdAndUpdate Profile._id u
            (Profile.set_wallet_balance (Profile.wallet_balance p + a))
            (profiles s))
         (with_transactions (transactions s ++ [t])
            (with_next_id (S (next_id s)) s))).
Proof.
  intros Hu Ha Hd Hs Hpos Hp Ht; unfold wallet_transaction; unfold_handler.
  assert (Hne : d <> "") by (intros ->; apply Hs; reflexivity).
  rewrite Hu, Ha, Ht, Hd.
  replace (a =? 0) with false by (symmetry; apply Z.eqb_neq; lia).
  apply String.eqb_neq in Hne; rewrite Hne; simpl.
  replace (a <=? 0) with false by (symmetry; apply Z.leb_gt; lia).
  rewrite Hp; cbv beta iota zeta.
  unfold required; apply String.eqb_neq in Hs; rewrite Hs; simpl.
  eexists; reflexivity.
Qed.

Lemma wallet_withdraw body s u a d p ty :
  WalletReq.user_id body = Some u -> WalletReq.amount body = Some a ->
  WalletReq.description body = Some d -> sanitizeInput d <> "" -> 0 < a ->
  findById Profile._id u (profiles s) = Some p ->
  WalletReq.transaction_type body = Some ty ->
  ty = "debit" \/ ty = "refund" ->
  (Profile.wallet_balance p - a < 0 ->
     run (wallet_transaction body) s = (Fail 400 "insufficient_balance", s))
  /\ (0 <= Profile.wallet_balance p - a ->
      exists t,
        run (wallet_transaction body) s
        = (Json (PTransaction t),
           with_profiles
             (findByIdAndUpdate Profile._id u
                (Profile.set_wallet_balance (Profile.wallet_balance p - a))
                (profiles s))
             (with_transactions (transactions s ++ [t])
                (with_next_id (S (next_id s)) s)))).
Proof.
  intros Hu Ha Hd Hs Hpos Hp Ht Hty; unfold wallet_transaction; unfold_handler.
  assert (Hne : d <> "") by (intros ->; apply Hs; reflexivity).
  apply String.eqb_neq in Hs.
  rewrite Hu, Ha, Ht, Hd.
  replace (a =? 0) with false by (symmetry; apply Z.eqb_neq; lia).
  apply String.eqb_neq in Hne; rewrite Hne.
  assert (Hparse : parse_transaction_type ty = Some debit
                   \/ parse_transaction_type ty = Some refund)
    by (destruct Hty as [-> | ->]; [left|right]; reflexivity).
  replace (ty =? "")%string with false
    by (destruct Hty as [-> | ->]; reflexivity).
  simpl.
  replace (a <=? 0) with false by (symmetry; apply Z.leb_gt; lia).
  split; intros Hbal.
  - destruct Hparse as [-> | ->]; simpl; rewrite Hp; simpl;
      (replace (Profile.wallet_balance p - a <? 0) with true
         by (symmetry; apply Z.ltb_lt; lia)); reflexivity.
  - destruct Hparse as [-> | ->]; simpl; rewrite Hp; cbv beta iota zeta;
      (replace (Profile.wallet_balance p - a <? 0) with false
         by (symmetry; apply Z.ltb_ge; lia)); cbv beta iota zeta;
      unfold required; rewrite Hs; simpl; eexists; reflexivity.
Qed.

(** A description that is empty once sanitised passes the test on the
    request, but [WalletTransaction.create] refuses it: the balance is not
    written either. *)
Lemma wallet_empty_description body s u a d p ty k :
  WalletReq.user_id body = Some u -> WalletReq.amount body = Some a ->
  WalletReq.description body = Some d -> d <> "" -> sanitizeInput d = "" ->
  0 < a ->
  findById Profile._id u (profiles s) = Some p ->
  WalletReq.transaction_type body = Some ty ->
  parse_transaction_type ty = Some k ->
  (k = credit \/ 0 <= Profile.wallet_balance p - a) ->
  run (wallet_transaction body) s = (Fail 500 "server_error", s).
Proof.
  intros Hu Ha Hd Hne Hs Hpos Hp Ht Hk Hbal.
  unfold wallet_transaction; unfold_handler.
  rewrite Hu, Ha, Ht, Hd.
  replace (a =? 0) with false by (symmetry; apply Z.eqb_neq; lia).
  apply String.eqb_neq in Hne; rewrite Hne.
  replace (ty =? "")%string with false
    by (destruct ty; [discriminate Hk|reflexivity]).
  simpl; rewrite Hk; cbv beta iota zeta.
  replace (a <=? 0) with false by (symmetry; apply Z.leb_gt; lia).
  cbv beta iota zeta; rewrite Hp; cbv beta iota zeta.
  destruct k; cbv beta iota zeta;
    try (replace (Profile.wallet_balance p - a <? 0) with false
           by (symmetry; apply Z.ltb_ge;
               destruct Hbal as [H|H]; [discriminate H|lia]));
    cbv beta iota zeta; unfold required; rewrite Hs; reflexivity.
Qed.

Lemma wallet_transaction_balances body s :
  balances_ok s -> balances_ok (snd (run (wallet_transaction body) s)).
Proof.
  intros Hs; unfold wallet_transaction; unfold_handler.
  cases; simpl; auto; unfold balances_ok; simpl.
  all: apply updateOne_Forall; [exact Hs|]; intros p Hp _; simpl.
  all: repeat match goal with
         | H : (_ <? _) = false |- _ => apply Z.ltb_ge in H
         | H : (_ <=? _) = false |- _ => apply Z.leb_gt in H
         | H : findById _ _ _ = Some ?q |- _ =>
             apply findById_In in H;
             unfold balances_ok in Hs; rewrite Forall_forall in Hs;
             apply Hs in H
         end; try lia.
Qed.

Lemma post_bookings_balances body s :
  balances_ok s -> balances_ok (snd (run (post_bookings body) s)).
Proof.
  intros Hs; unfold post_bookings; unfold_handler.
  cases; simpl; auto; unfold balances_ok; simpl.
  all: apply updateOne_Forall; [exact Hs|]; intros p Hp _; simpl.
  all: simpl in *.
  all: repeat match goal with
    | H : findById _ _ _ = Some ?q, H' : findById _ _ _ = Some ?q' |- _ =>
        rewrite H in H'; inversion H'; subst; clear H'
    | H : (_ <? _) = false |- _ => apply Z.ltb_ge in H
    end; lia.
Qed.

Lemma balance_after_update u v p s s' :
  findById Profile._id u (profiles s) = Some p ->
  profiles s' = findByIdAndUpdate Profile._id u (Profile.set_wallet_balance v)
                  (profiles s) ->
  balance_of u s' = Some v.
Proof.
  intros Hp E; unfold balance_of; rewrite E.
  rewrite findById_update_same by reflexivity.
  rewrite Hp; reflexivity.
Qed.

Lemma post_bookings_insufficient body s p :
  validate_create body = true ->
  findById Profile._id (CreateReq.customer_id body) (profiles s) = Some p ->
  Profile.phone_verified p = true ->
  slot_full (findOne (slot_query (Some (CreateReq.service_id body))
                        (CreateReq.booking_date body)
                        (actualTimeSlot (CreateReq.booking_time body)))
               (slots s)) = false ->
  Profile.wallet_balance p < number_or_0 (CreateReq.wallet_amount body) ->
  0 < number_or_0 (CreateReq.wallet_amount body) ->
  run (post_bookings body) s = (Fail 400 "insufficient_wallet_balance", s).
Proof.
  intros Hv Hp Hpv Hfull Hbal Hpos; unfold post_bookings; unfold_handler.
  apply Z.ltb_lt in Hbal; apply Z.ltb_lt in Hpos.
  rewrite Hv; simpl; rewrite Hp; simpl; rewrite Hpv; simpl.
  rewrite Hfull; simpl; rewrite Hpos; simpl; rewrite Hbal; reflexivity.
Qed.

(** C8, amended.  On POST /wallet/transactions, for a request whose
    description is not empty once sanitised, a [credit] adds the amount to
    the balance, while a [refund], like a [debit], subtracts it and is
    answered [insufficient_balance], with nothing written, when the balance
    would become negative; a booking that asks for more wallet money than
    the balance holds is rejected with nothing written; and over any
    sequence of wallet transactions and booking creations balances that
    start non-negative stay non-negative. *)
Theorem wallet_refund_debits body s u a d p :
  WalletReq.user_id body = Some u -> WalletReq.amount body = Some a ->
  WalletReq.description body = Some d -> sanitizeInput d <> "" -> 0 < a ->
  findById Profile._id u (profiles s) = Some p ->
  let r := run (wallet_transaction body) s in
  (WalletReq.transaction_type body = Some "credit" ->
     (exists t, fst r = Json (PTransaction t))
     /\ balance_of u (snd r) = Some (Profile.wallet_balance p + a))
  /\ (WalletReq.transaction_type body = Some "refund"
      \/ WalletReq.transaction_type body = Some "debit" ->
      (0 <= Profile.wallet_balance p - a ->
         (exists t, fst r = Json (PTransaction t))
         /\ balance_of u (snd r) = Some (Profile.wallet_balance p - a))
      /\ (Profile.wallet_balance p - a < 0 ->
          r = (Fail 400 "insufficient_balance", s)))
  /\ (forall booking payer,
        validate_create booking = true ->
        findById Profile._id (CreateReq.customer_id booking) (profiles s)
          = Some payer ->
        Profile.phone_verified payer = true ->
        slot_full (findOne (slot_query (Some (CreateReq.service_id booking))
                              (CreateReq.booking_date booking)
                              (actualTimeSlot (CreateReq.booking_time booking)))
                     (slots s)) = false ->
        Profile.wallet_balance payer
          < number_or_0 (CreateReq.wallet_amount booking) ->
        0 < number_or_0 (CreateReq.wallet_amount booking) ->
        run (post_bookings booking) s
        = (Fail 400 "insufficient_wallet_balance", s))
  /\ forall ops,
       balances_ok s ->
       balances_ok (fold_left (fun st op => snd (run (wallet_op op) st)) ops s).
Proof.
  intros Hu Ha Hd Hne Hpos Hp r; split; [|split; [|split]].
  - intros Hc.
    destruct (@wallet_credit body s u a d p Hu Ha Hd Hne Hpos Hp Hc) as [t E].
    unfold r; rewrite E; simpl; split; [now exists t|].
    eapply balance_after_update; [exact Hp|reflexivity].
  - intros Hw.
    assert (Hty : exists ty, WalletReq.transaction_type body = Some ty
                             /\ (ty = "debit" \/ ty = "refund"))
      by (destruct Hw; eauto).
    destruct Hty as (ty & Hty & Hk).
    destruct (@wallet_withdraw body s u a d p ty Hu Ha Hd Hne Hpos Hp Hty Hk)
      as [Hno Hok].
    split; [intros Hbal | exact Hno].
    destruct (Hok Hbal) as [t E].
    unfold r; rewrite E; simpl; split; [now exists t|].
    eapply balance_after_update; [exact Hp|reflexivity].
  - intros booking payer Hv Hf Hpv Hfull Hbal Hw.
    now apply post_bookings_insufficient with payer.
  - intros ops; clear; revert s.
    induction ops as [|op ops IH]; simpl; intros s Hs; [exact Hs|].
    apply IH; destruct op; simpl;
      [now apply wallet_transaction_balances | now apply post_bookings_balances].
Qed.

(** ** Promo usage *)

Lemma NoDup_map_inj {A B : Type} (f : A -> B) (l : list A) x y :
  NoDup (map f l) -> In x l -> In y l -> f x = f y -> x = y.
Proof.
  induction l as [|a r IH]; simpl; intros Hn Hx Hy E; [contradiction|].
  inversion Hn as [|? ? Hnot Hr]; subst.
  destruct Hx as [->|Hx], Hy as [->|Hy]; auto.
  - exfalso; apply Hnot; rewrite E; now apply in_map.
  - exfalso; apply Hnot; rewrite <- E; now apply in_map.
Qed.

(** With unique [_id]s, the document just saved is the one a query finds
    where it found the old version, provided the query accepts both. *)
Lemma findOne_save_unique (f : PromoCode.t -> bool) l d d' :
  NoDup (map PromoCode._id l) ->
  findOne f l = Some d -> PromoCode._id d' = PromoCode._id d ->
  f d' = true ->
  findOne f (save PromoCode._id d' l) = Some d'.
Proof.
  unfold findOne, save; intros Hn; induction l as [|x r IH]; simpl;
    intros Hf Hid Hd'; [discriminate|].
  inversion Hn as [|? ? Hnot Hr]; subst.
  destruct (f x) eqn:Fx.
  - inversion Hf; subst. rewrite Hid, Nat.eqb_refl; simpl. now rewrite Hd'.
  - destruct (Nat.eqb (PromoCode._id x) (PromoCode._id d')) eqn:E; simpl.
    + exfalso; apply Hnot. apply Nat.eqb_eq in E. rewrite E, Hid.
      apply in_map. apply find_some in Hf; tauto.
    + rewrite Fx; auto.
Qed.

Lemma post_bookings_counts_promo body s b s' c promo :
  run (post_bookings body) s = (Json (PBooking b), s') ->
  CreateReq.promo_code body = Some c -> c <> "" ->
  findOne (fun p => String.eqb (PromoCode.code p) (promo_key c)) (promos s)
    = Some promo ->
  promos s' = save PromoCode._id
                (PromoCode.set_usage_count (PromoCode.usage_count promo + 1) promo)
                (promos s).
Proof.
  intros H Hc Hne Hf; revert H; unfold post_bookings; unfold_handler.
  rewrite Hc. unfold truthy. apply String.eqb_neq in Hne; rewrite Hne.
  cases; intros H; inversion H; subst; clear H; simpl in *.
  all: congruence.
Qed.

Lemma promo_validate_ok now c subtotal s p :
  fst (run (promo_validate now (Some c) subtotal) s) = Json (PPromo p) ->
  findOne (fun q => String.eqb (PromoCode.code q) (promo_key c)
                    && PromoCode.is_active q) (promos s) = Some p
  /\ forall m, PromoCode.max_usage p = Some m -> m <> 0 ->
               PromoCode.usage_count p < m.
Proof.
  unfold promo_validate; unfold_handler.
  cases; simpl; intros H; inversion H; subst; clear H.
  all: split; [reflexivity|]; intros m Hm Hne; try congruence.
  all: match goal with
       | H : PromoCode.max_usage _ = Some _,
         H' : PromoCode.max_usage _ = Some _ |- _ =>
           rewrite H in H'; inversion H'; subst
       end.
  all: match goal with
       | H : negb (_ =? 0) && (_ <=? _) = false |- _ =>
           apply andb_false_iff in H; destruct H as [H|H];
             [apply negb_false_iff, Z.eqb_eq in H; contradiction
             |apply Z.leb_gt in H; exact H]
       end.
Qed.

(** C4, amended.  A successful POST /bookings whose [promo_code] names a
    stored promo saves that promo with [usage_count + 1] and touches no
    other promo count; creation itself never looks at [max_usage].  The cap
    is tested by GET /promo/validate only: when that route accepted the
    code on the same store, the count after the creation is still within a
    set, non-zero [max_usage]. *)
Theorem promo_usage_counted body s b s' c promo :
  run (post_bookings body) s = (Json (PBooking b), s') ->
  CreateReq.promo_code body = Some c -> c <> "" ->
  findOne (fun p => String.eqb (PromoCode.code p) (promo_key c)) (promos s)
    = Some promo ->
  let counted :=
    PromoCode.set_usage_count (PromoCode.usage_count promo + 1) promo in
  promos s' = save PromoCode._id counted (promos s)
  /\ PromoCode.usage_count counted = PromoCode.usage_count promo + 1
  /\ (promos_keyed s ->
      findOne (fun p => String.eqb (PromoCode.code p) (promo_key c)) (promos s')
      = Some counted)
  /\ forall now subtotal p m,
       promos_keyed s ->
       fst (run (promo_validate now (Some c) subtotal) s) = Json (PPromo p) ->
       PromoCode.max_usage p = Some m -> m <> 0 ->
       p = promo /\ PromoCode.usage_count counted <= m.
Proof.
  intros H Hc Hne Hf counted.
  pose proof (@post_bookings_counts_promo body s b s' c promo H Hc Hne Hf) as E.
  split; [exact E|]; split; [reflexivity|]; split.
  - intros [Hid _]; rewrite E.
    apply findOne_save_unique with (d := promo); auto.
    simpl. exact (@findOne_true _ _ _ _ Hf).
  - intros now subtotal p m [_ Hcode] Hv Hm Hm0.
    destruct (@promo_validate_ok now c subtotal s p Hv) as [Hp Hlt].
    assert (p = promo).
    { apply NoDup_map_inj with (f := PromoCode.code) (l := promos s); auto.
      - exact (@findOne_In _ _ _ _ Hp).
      - exact (@findOne_In _ _ _ _ Hf).
      - apply findOne_true in Hp; apply findOne_true in Hf.
        apply andb_true_iff in Hp; destruct Hp as [Hp _].
        apply String.eqb_eq in Hp, Hf; congruence. }
    split; [assumption|]. subst p; simpl.
    specialize (Hlt m Hm Hm0); lia.
Qed.


(** ** Worker load *)

(** The completion route recounts over all four active states, after the
    booking has been saved. *)
Lemma complete_recounts now id s b s' w p :
  run (complete now id) s = (Json (PBooking b), s') ->
  Booking.employee_id b = Some w ->
  findById Profile._id w (profiles s') = Some p ->
  Profile.current_jobs p = count_jobs active_four w (bookings s').
Proof.
  unfold complete; unfold_handler.
  cases; intros H; inversion H; subst; clear H; simpl; intros Hw Hp.
  all: simpl in *; try congruence.
  all: match goal with
       | H1 : Booking.employee_id ?b = Some _,
         H2 : Booking.employee_id ?b = Some _ |- _ =>
           rewrite H1 in H2; inversion H2; subst
       end.
  all: rewrite findById_update_same in Hp by reflexivity.
  all: destruct (findById Profile._id w (profiles s)); simpl in Hp;
    inversion Hp; subst; reflexivity.
Qed.

(** C3.  On the example store, auto-assigning booking 11 leaves worker 2
    with [current_jobs = 2] although three of that worker's bookings are in
    an active state (one is [accepted]); cancelling booking 14 leaves
    worker 3 with [current_jobs = 1] although none of that worker's
    bookings is active any more. *)
Theorem assign_and_cancel_miscount :
  (let s1 := snd (run (auto_assign 77 11) demo_store) in
   option_map Profile.current_jobs (findById Profile._id 2 (profiles s1))
   = Some 2
   /\ count_jobs active_four 2 (bookings s1) = 3)
  /\ (let s2 := snd (run (cancel 77 14 None None) demo_store) in
      option_map Profile.current_jobs (findById Profile._id 3 (profiles s2))
      = Some 1
      /\ count_jobs active_four 3 (bookings s2) = 0).
Proof. vm_compute; repeat split; reflexivity. Qed.

(** ** Rejected reschedule *)

Ltac rejected :=
  unfold_handler; cases; simpl;
  intros H; inversion H; subst; clear H; intros; try reflexivity;
  try congruence.

(** X25.  Every 4xx answer of these routes comes before their first write:
    a refused request leaves the store as it was. *)
Lemma rejected_requests_write_nothing h s http error s' :
  core_route h ->
  run h s = (Fail http error, s') -> http <> 500%nat -> s' = s.
Proof.
  intros [body|now id st|now id|now id|now id|now id|now id|now id e
         |now id r w|now c sub|body].
  - unfold post_bookings; rejected.
  - unfold patch_status; rejected.
  - unfold accept, employee_step; rejected.
  - unfold mark_reached, employee_step; rejected.
  - unfold start_work, employee_step; rejected.
  - unfold complete; rejected.
  - unfold auto_assign; unfold_handler; cases; simpl;
      try match goal with p : (Profile.t * Number)%type |- _ => destruct p end;
      simpl; intros H; inversion H; subst; clear H; intros;
      try reflexivity; try congruence.
  - unfold assign; rejected.
  - unfold cancel, free_slot; rejected.
  - unfold promo_validate; rejected.
  - unfold wallet_transaction; rejected.
Qed.

(** Reschedule writes nothing before its answers other than
    [slot_unavailable]. *)
Lemma reschedule_other_rejections id d t s http error s' :
  run (reschedule id d t) s = (Fail http error, s') ->
  error <> "slot_unavailable" -> s' = s.
Proof.
  unfold reschedule, free_slot; rejected.
Qed.


(** C2.  On the example store, rescheduling booking 11 into the full slot
    of the next day is answered [slot_unavailable], the bookings are as
    before, yet the slot the booking still occupies has gone from
    [booked_count = 1] to [booked_count = 0]. *)
Theorem reschedule_rejection_releases_old_slot :
  let r := run (reschedule 11 (demo_day 1 + 3600000) "afternoon") demo_store in
  fst r = Fail 400 "slot_unavailable"
  /\ bookings (snd r) = bookings demo_store
  /\ map Slot.booked_count (slots demo_store) = [1; 1]
  /\ map Slot.booked_count (slots (snd r)) = [0; 1].
Proof. vm_compute; repeat split; reflexivity. Qed.

(** ** Counterexamples to the claims as stated *)

(** C4 as stated fails: the example promo is at its cap ([usage_count = 1],
    [max_usage = 1]); a booking naming it is created all the same and the
    count becomes 2. *)
Lemma promo_cap_exceeded_by_creation :
  let r := run (post_bookings demo_create) demo_store in
  within_max_usage demo_store
  /\ (exists b, fst r = Json (PBooking b))
  /\ map PromoCode.usage_count (promos (snd r)) = [2]
  /\ ~ within_max_usage (snd r).
Proof.
  repeat split.
  - repeat constructor; simpl; lia.
  - eexists; vm_compute; reflexivity.
  - intros H; vm_compute in H. inversion H as [|? ? Hc _]; subst.
    apply Hc; reflexivity.
Qed.

(** C8 as stated fails: a refund of 30 on a balance of 100 is accepted and
    leaves 70, not 130. *)
Lemma refund_lowers_balance :
  let r := run (wallet_transaction demo_refund) demo_store in
  balance_of 1 demo_store = Some 100
  /\ (exists t, fst r = Json (PTransaction t))
  /\ balance_of 1 (snd r) = Some 70
  /\ balance_of 1 (snd r) <> Some (100 + 30).
Proof.
  repeat split; try (vm_compute; reflexivity).
  - eexists; vm_compute; reflexivity.
  - vm_compute; discriminate.
Qed.

(** C5 on a phone that is empty once sanitised: request-otp stores a
    challenge for the phone [<>] by an upsert, a wrong code then makes
    [otp.save()] fail on the required phone, and the reply is 500 with
    [attempts] still 0. *)
Lemma otp_empty_phone_not_counted :
  let s1 := snd (run (request_otp (fun c => c) 50000 "654321" "<>")
                   demo_store) in
  let wrong := VerifyReq.mk "<>" "0000" None None None in
  let r := run (verify_otp (fun c => c) (fun _ => true) 60000 wrong) s1 in
  option_map OTP.attempts (latest_otp "" (otps s1)) = Some 0
  /\ r = (Fail 500 "otp_verify_failed", s1)
  /\ option_map OTP.attempts (latest_otp "" (otps (snd r))) = Some 0.
Proof. vm_compute; repeat split; reflexivity. Qed.

(** ** The theorems at work on the example store *)

Lemma create_booking_total_price_witness :
  exists b s',
    run (post_bookings demo_create) demo_store = (Json (PBooking b), s')
    /\ In b (bookings s')
    /\ Booking.total_price b = 450
    /\ 0 <= Booking.total_price b.
Proof.
  eexists; eexists; split; [vm_compute; reflexivity|].
  edestruct (@create_booking_total_price demo_create demo_store)
    as (Hin & _ & _ & _ & _ & Htot & Hpos & _); [vm_compute; reflexivity|].
  split; [exact Hin|split; [reflexivity|exact Hpos]].
Defined.


Lemma otp_attempt_cap_witness :
  run (verify_otp (fun c => c) (fun _ => true) 500 demo_verify) demo_store
  = (Fail 429 "otp_attempts_exceeded", demo_store).
Proof.
  refine (proj1 (proj1
    (@otp_attempt_cap (fun c => c) (fun _ => true) 500 demo_verify demo_store
       (OTP.mk 40 "9999999999" "123456" "login" 1000 5 (Some 0) 0)
       eq_refl eq_refl _) _)); simpl; lia.
Defined.

Lemma auto_assign_picks_best_witness :
  exists best,
    Profile._id best = 2%nat
    /\ fst (run (auto_assign 77 11) demo_store)
       = Json (PBooking
                 (assign_update (Profile._id best) 77
                    (demo_booking 11 None "pending" (demo_day 0 + 36000000)
                       "morning"))).
Proof.
  destruct (@auto_assign_picks_best 77 11%nat demo_store
              (demo_booking 11 None "pending" (demo_day 0 + 36000000) "morning")
              eq_refl) as (_ & _ & H).
  destruct (H eq_refl ltac:(vm_compute; discriminate))
    as (best & before & behind & _ & _ & _ & _ & Hr & _).
  exists best; split; [|exact Hr].
  pose proof Hr as Hc; vm_compute in Hc; injection Hc as Hc.
  symmetry; exact Hc.
Defined.

Lemma payment_confirmed_by_verify_only_witness :
  let b := demo_booking 11 None "pending" (demo_day 0 + 36000000) "morning" in
  let r := run (payments_verify (fun _ _ => "sig") demo_env
                  (mkGatewayPayment "captured" 50000) demo_pay) demo_store in
  findById Booking._id 11 (bookings (snd r)) = Some (mark_paid b)
  /\ Booking.status (mark_paid b) = "confirmed"
  /\ exists http error,
       run (payments_webhook (fun _ _ => "sig") (fun _ => None) demo_env
              (Some "signed") ObjectBody) demo_store
       = (Fail http error, demo_store).
Proof.
  intros b r.
  destruct (@payment_confirmed_by_verify_only (fun _ _ => "sig")
              (fun _ => None) demo_env demo_store 11%nat b
              eq_refl eq_refl eq_refl) as (Hv & Hw & _ & Hst & _).
  split; [|split; [exact Hst|]].
  - apply (Hv (mkGatewayPayment "captured" 50000) demo_pay);
      [reflexivity | reflexivity | left; reflexivity | vm_compute; reflexivity].
  - destruct (Hw (Some "signed")) as (http & error & Hrun & _).
    exists http, error; exact Hrun.
Defined.

Lemma promo_usage_counted_witness :
  let promo := PromoCode.mk 30 "SAVE10" 0 None None true 1 (Some 5) in
  exists b s',
    run (post_bookings demo_create) demo_store_open_promo
    = (Json (PBooking b), s')
    /\ promos s'
       = save PromoCode._id (PromoCode.set_usage_count 2 promo)
           (promos demo_store_open_promo)
    /\ PromoCode.usage_count (PromoCode.set_usage_count 2 promo) <= 5.
Proof.
  intros promo.
  eexists; eexists; split; [vm_compute; reflexivity|].
  edestruct (@promo_usage_counted demo_create demo_store_open_promo)
    as (Hsave & _ & _ & Hcap);
    [vm_compute; reflexivity | reflexivity | discriminate
    | vm_compute; reflexivity |].
  split; [exact Hsave|].
  refine (proj2 (Hcap 0 (QNumber 450) promo 5 _ _ eq_refl _)).
  - split; repeat constructor; simpl; intuition discriminate.
  - vm_compute; reflexivity.
  - discriminate.
Defined.

Lemma wallet_refund_debits_witness :
  balance_of 1 (snd (run (wallet_transaction demo_refund) demo_store))
  = Some (100 - 30).
Proof.
  destruct (@wallet_refund_debits demo_refund demo_store 1%nat 30 "goodwill"
              demo_customer eq_refl eq_refl eq_refl
              ltac:(vm_compute; discriminate) ltac:(lia) eq_refl)
    as (_ & Hw & _).
  destruct (Hw (or_introl eq_refl)) as [Hok _].
  exact (proj2 (Hok ltac:(simpl; lia))).
Defined.

Lemma terminal_status_overwritten_witness :
  option_map Booking.status (findById Booking._id 13 (bookings demo_store))
  = Some "cancelled"
  /\ option_map Booking.status
       (findById Booking._id 13
          (bookings (snd (run (patch_status 77 13 "pending") demo_store))))
     = Some "pending"
  /\ option_map Booking.status
       (findById Booking._id 13
          (bookings (snd (run (assign 77 13 (Some 2%nat)) demo_store))))
     = Some "assigned".
Proof.
  destruct (@terminal_status_overwritten (fun _ _ => "sig") 77 13%nat
              demo_store
              (demo_booking 13 None "cancelled" (demo_day 3) "evening")
              eq_refl eq_refl) as (Hp & Ha & _).
  split; [reflexivity|]; split.
  - exact (proj1 (Hp "pending")).
  - exact (Ha 2%nat demo_worker_a eq_refl eq_refl).
Defined.


(** * Further properties *)

(** ** Codes and phone numbers *)

(** X2.  For a random draw in [0, 1) the generated one-time code lies
    between 100000 and 999999: it always has six digits. *)
Theorem generateOtp_six_digits r :
  (0 <= r)%Q -> (r < 1)%Q -> 100000 <= generateOtp r <= 999999.
Proof.
  intros H0 H1; unfold generateOtp; split.
  - rewrite <- (Qfloor_Z 100000). apply Qfloor_resp_le.
    rewrite <- (Qplus_0_r (inject_Z 100000)) at 1.
    apply Qplus_le_r. apply Qmult_le_0_compat; [exact H0|discriminate].
  - assert (Hlt : (inject_Z (Qfloor (inject_Z 100000 + r * inject_Z 900000))
                   < inject_Z 1000000)%Q).
    { eapply Qle_lt_trans; [apply Qfloor_le|].
      replace (inject_Z 1000000) with (inject_Z 100000 + 1 * inject_Z 900000)%Q
        by reflexivity.
      apply Qplus_lt_r. apply Qmult_lt_r; [reflexivity|exact H1]. }
    rewrite <- Zlt_Qlt in Hlt. lia.
Qed.

Lemma get_remove_angle s i c :
  String.get i (remove_angle s) = Some c -> c <> "<"%char /\ c <> ">"%char.
Proof.
  revert i; induction s as [|a r IH]; simpl; intros i H; [discriminate|].
  destruct (Ascii.eqb a "<") eqn:E1; simpl in H; [eauto|].
  destruct (Ascii.eqb a ">") eqn:E2; simpl in H; [eauto|].
  destruct i as [|i]; simpl in H; [|eauto].
  inversion H; subst.
  apply Ascii.eqb_neq in E1, E2; auto.
Qed.

Lemma get_substring0 n s i c :
  String.get i (substring 0 n s) = Some c -> String.get i s = Some c.
Proof.
  revert s i; induction n as [|n IH]; intros s i H.
  - destruct s; simpl in H; destruct i; discriminate.
  - destruct s as [|a r]; simpl in H; [destruct i; discriminate|].
    destruct i as [|i]; simpl in *; auto.
Qed.

Lemma length_substring0 n s : (String.length (substring 0 n s) <= n)%nat.
Proof.
  revert s; induction n as [|n IH]; intros s.
  - destruct s; simpl; lia.
  - destruct s as [|a r]; simpl; [lia|]. specialize (IH r); lia.
Qed.

(** X3.  Whatever the input, the sanitised string has at most 1000
    characters and contains neither [<] nor [>]. *)
Theorem sanitizeInput_safe str :
  (String.length (sanitizeInput str) <= 1000)%nat
  /\ forall i c, String.get i (sanitizeInput str) = Some c ->
                 c <> "<"%char /\ c <> ">"%char.
Proof.
  unfold sanitizeInput; split; [apply length_substring0|].
  intros i c H; apply get_substring0 in H.
  now apply get_remove_angle with (s := trim str) (i := i).
Qed.

Lemma strip_clean s i c :
  String.get i (strip_space_plus s) = Some c ->
  is_space c = false /\ c <> "+"%char.
Proof.
  revert i; induction s as [|a r IH]; simpl; intros i H; [discriminate|].
  destruct (is_space a) eqn:E1; simpl in H; [eauto|].
  destruct (Ascii.eqb a "+") eqn:E2; simpl in H; [eauto|].
  destruct i as [|i]; simpl in H; [|eauto].
  inversion H; subst. apply Ascii.eqb_neq in E2; auto.
Qed.

Lemma strip_fixed s :
  (forall i c, String.get i s = Some c -> is_space c = false /\ c <> "+"%char) ->
  strip_space_plus s = s.
Proof.
  induction s as [|a r IH]; simpl; intros H; [reflexivity|].
  destruct (H 0%nat a eq_refl) as [E1 E2].
  rewrite E1; apply Ascii.eqb_neq in E2; rewrite E2; simpl.
  f_equal; apply IH; intros i c Hc; exact (H (S i) c Hc).
Qed.

Lemma strip_idempotent s :
  strip_space_plus (strip_space_plus s) = strip_space_plus s.
Proof. apply strip_fixed; intros i c; apply strip_clean. Qed.

(** X4.  Formatting a phone number for the senders is idempotent, and the
    formatted number contains no white space and no [+]. *)
Theorem formattedPhone_idempotent phone :
  formattedPhone (formattedPhone phone) = formattedPhone phone
  /\ forall i c, String.get i (formattedPhone phone) = Some c ->
                 is_space c = false /\ c <> "+"%char.
Proof.
  assert (Hclean : forall i c, String.get i (formattedPhone phone) = Some c ->
                               is_space c = false /\ c <> "+"%char).
  { intros i c; unfold formattedPhone.
    destruct (negb _ && _); [|apply strip_clean].
    destruct i as [|[|i]]; simpl; intros H.
    - inversion H; subst; split; [reflexivity|discriminate].
    - inversion H; subst; split; [reflexivity|discriminate].
    - now apply strip_clean with (s := phone) (i := i). }
  split; [|exact Hclean].
  unfold formattedPhone at 1.
  rewrite (strip_fixed _ Hclean).
  unfold formattedPhone.
  destruct (negb (String.prefix "91" (strip_space_plus phone))
            && Nat.eqb (String.length (strip_space_plus phone)) 10) eqn:E.
  - simpl. destruct (strip_space_plus phone); reflexivity.
  - rewrite E; reflexivity.
Qed.

(** ** Promo validation *)

(** X5.  GET /promo/validate never writes, and it accepts a code exactly
    when the promo found for the upper-cased, trimmed code is active, its
    validity window contains the current time, [usage_count] is below a
    set, non-zero [max_usage], and the order value reaches
    [min_order_value]; a missing subtotal counts as 0, and a subtotal that
    is not a number passes the last test whatever the minimum is. *)
Theorem promo_validate_accepts now c subtotal s p :
  snd (run (promo_validate now (Some c) subtotal) s) = s
  /\ (fst (run (promo_validate now (Some c) subtotal) s) = Json (PPromo p)
      <-> (c <> "" /\ trim c <> ""
           /\ findOne (fun q => String.eqb (PromoCode.code q) (promo_key c)
                                && PromoCode.is_active q) (promos s) = Some p
           /\ (forall u, PromoCode.valid_until p = Some u -> now <= u)
           /\ (forall f, PromoCode.valid_from p = Some f -> f <= now)
           /\ match subtotal with
              | QMissing => PromoCode.min_order_value p <= 0
              | QNumber n => PromoCode.min_order_value p <= n
              | QNaN => True
              end
           /\ (forall m, PromoCode.max_usage p = Some m -> m <> 0 ->
                         PromoCode.usage_count p < m))).
Proof.
  split.
  - unfold promo_validate; unfold_handler; cases; reflexivity.
  - unfold promo_validate; unfold_handler; unfold truthy.
    destruct (String.eqb c "") eqn:Ec; simpl.
    { apply String.eqb_eq in Ec; split; [discriminate|tauto]. }
    destruct (String.eqb (trim c) "") eqn:Et; simpl.
    { apply String.eqb_eq in Et; split; [discriminate|tauto]. }
    apply String.eqb_neq in Ec, Et.
    destruct (findOne _ (promos s)) as [q|] eqn:Hq; simpl;
      [|split; [discriminate|intros (_ & _ & H & _); discriminate]].
    destruct (PromoCode.valid_until q) as [u|] eqn:Hu;
      [destruct (Z.ltb_spec u now); simpl|];
      (destruct (PromoCode.valid_from q) as [f|] eqn:Hf;
       [destruct (Z.ltb_spec now f); simpl|]);
      (destruct subtotal as [|n|]; unfold below_minimum;
       [destruct (Z.ltb_spec 0 (PromoCode.min_order_value q))
       |destruct (Z.ltb_spec n (PromoCode.min_order_value q))
       |]; simpl);
      (destruct (PromoCode.max_usage q) as [m|] eqn:Hm;
       [destruct (Z.eqb_spec m 0); simpl;
        [|destruct (Z.leb_spec m (PromoCode.usage_count q)); simpl]|]).
    all: split;
      [ intros Hrun; inversion Hrun; subst;
        repeat split; auto; intros; try congruence; try lia;
        repeat match goal with
        | A : ?x = Some _, B : ?x = Some _ |- _ =>
            rewrite A in B; inversion B; subst; clear B
        end; try lia; try congruence
      | intros (_ & _ & Hfind & Hu' & Hf' & Hmin & Hmax);
        inversion Hfind; subst;
        try (specialize (Hu' _ Hu)); try (specialize (Hf' _ Hf));
        try (specialize (Hmax _ Hm)); try lia; try reflexivity;
        try (exfalso; lia) ].
    all: try (exfalso; apply Hmax in n; lia).
    all: try (exfalso; apply Hmax in n0; lia).
Qed.

(** ** The worker listing and the choice of auto-assign *)

Section SortFacts.
Context {A : Type} (cmp : A -> A -> Number).

Lemma insert_sorted_perm x l : Permutation (x :: l) (insert_sorted cmp x l).
Proof.
  induction l as [|y r IH]; simpl; [apply Permutation_refl|].
  destruct (0 <? cmp x y); [|apply Permutation_refl].
  eapply Permutation_trans; [apply perm_swap|].
  now apply perm_skip.
Qed.

Lemma sort_perm l : Permutation l (sort cmp l).
Proof.
  unfold sort; induction l as [|x r IH]; simpl; [apply Permutation_refl|].
  eapply Permutation_trans; [apply perm_skip; exact IH|].
  apply insert_sorted_perm.
Qed.
End SortFacts.

Lemma insert_by_priority_sorted (x : Profile.t * Number) l :
  StronglySorted priority_desc l ->
  StronglySorted priority_desc (insert_sorted by_priority x l).
Proof.
  induction 1 as [|y r Hr IH Hy]; simpl.
  - repeat constructor.
  - destruct (0 <? by_priority x y) eqn:E; unfold by_priority in E;
      [apply Z.ltb_lt in E | apply Z.ltb_ge in E].
    + constructor; [exact IH|].
      apply Forall_forall; intros z Hz.
      apply Permutation_in with (l' := x :: r) in Hz;
        [|apply Permutation_sym, insert_sorted_perm].
      destruct Hz as [<-|Hz]; [unfold priority_desc, Number in *; lia|].
      rewrite Forall_forall in Hy; auto.
    + constructor; [constructor; assumption|].
      constructor; [unfold priority_desc, Number in *; lia|].
      apply Forall_forall; intros z Hz.
      rewrite Forall_forall in Hy; specialize (Hy z Hz);
        unfold priority_desc, Number in *; lia.
Qed.

Lemma sort_by_priority_sorted (l : list (Profile.t * Number)) :
  StronglySorted priority_desc (sort by_priority l).
Proof.
  unfold sort; induction l as [|x r IH]; simpl; [constructor|].
  now apply insert_by_priority_sorted.
Qed.

(** X6.  The listing of eligible workers contains exactly the profiles that
    pass the eligibility filter, each with its priority for the location
    the route derives, in an order of non-increasing priority. *)
Theorem eligible_workers_sorted address_location id s b listing :
  findById Booking._id id (bookings s) = Some b ->
  eligible_workers address_location id s = Some listing ->
  let loc := or_default (js_or (Booking.customer_address_pincode b)
                               address_location) "" in
  Permutation (map fst listing)
    (filter (eligible (populate_service (Booking.service_id b) s)) (profiles s))
  /\ (forall w p, In (w, p) listing -> p = priority loc w)
  /\ StronglySorted priority_desc listing.
Proof.
  intros Hb; unfold eligible_workers; rewrite Hb.
  intros H; inversion H; subst; clear H; cbv zeta.
  set (loc := or_default _ "").
  set (workers := filter _ (profiles s)).
  set (scored := map (fun w => (w, priority loc w)) workers).
  assert (Hp : Permutation scored (sort by_priority scored)) by apply sort_perm.
  repeat split.
  - apply Permutation_sym.
    eapply Permutation_trans; [|apply Permutation_map; exact Hp].
    unfold scored; rewrite map_map; simpl; rewrite map_id.
    apply Permutation_refl.
  - intros w p Hin.
    apply Permutation_in with (l' := scored) in Hin;
      [|apply Permutation_sym; exact Hp].
    unfold scored in Hin; apply in_map_iff in Hin.
    destruct Hin as (w' & E & _); inversion E; reflexivity.
  - apply sort_by_priority_sorted.
Qed.

Lemma eligible_workers_sorted_witness :
  exists listing,
    eligible_workers None 11 demo_store = Some listing
    /\ map (fun x => Profile._id (fst x)) listing = [2%nat; 3%nat]
    /\ StronglySorted priority_desc listing.
Proof.
  eexists; split; [vm_compute; reflexivity|]; split; [reflexivity|].
  exact (proj2 (proj2 (@eligible_workers_sorted None 11%nat demo_store
           (demo_booking 11 None "pending" (demo_day 0 + 36000000) "morning")
           _ eq_refl eq_refl))).
Defined.

(** X7.  A worker that auto-assign puts on a booking is a stored profile
    that passed every test of the filter: role, availability, identity,
    skills and background verification, approval, and a load below its
    capacity. *)
Theorem auto_assign_only_eligible now id s b' s' :
  run (auto_assign now id) s = (Json (PBooking b'), s') ->
  exists w,
    In w (profiles s)
    /\ Booking.employee_id b' = Some (Profile._id w)
    /\ in_statuses ["employee"; "manager"; "lead"] (Profile.role w) = true
    /\ Profile.is_available w = true
    /\ Profile.id_verified w = true
    /\ Profile.skills_verified w = true
    /\ Profile.background_check_status w = "approved"
    /\ Profile.approval_status w = "approved"
    /\ Profile.current_jobs w < Profile.max_capacity w.
Proof.
  unfold auto_assign; unfold_handler.
  destruct (findById Booking._id id (bookings s)) as [b|] eqn:Hb;
    cbv beta iota zeta; [|discriminate].
  destruct (is_some (Booking.employee_id b)); cbv beta iota zeta; [discriminate|].
  destruct (Nat.eqb _ 0); cbv beta iota zeta; [discriminate|].
  destruct (sort by_priority _) as [|[w p] rest] eqn:Hs; [discriminate|].
  intros H; inversion H; subst; clear H.
  assert (Hin : In (w, p) (sort by_priority
            (map (fun w0 => (w0, priority (customerLocation b) w0))
               (filter (eligible (populate_service (Booking.service_id b) s))
                  (profiles s)))))
    by (rewrite Hs; left; reflexivity).
  apply Permutation_in with (l' := map (fun w0 => (w0, priority (customerLocation b) w0))
               (filter (eligible (populate_service (Booking.service_id b) s))
                  (profiles s))) in Hin; [|apply Permutation_sym, sort_perm].
  apply in_map_iff in Hin; destruct Hin as (w' & E & Hw); inversion E; subst w'.
  apply filter_In in Hw; destruct Hw as [Hw He].
  exists w; split; [exact Hw|]; split; [reflexivity|].
  unfold eligible in He.
  repeat (apply andb_true_iff in He; destruct He as [He ?]).
  repeat split; auto; try (now apply String.eqb_eq).
  now apply Z.ltb_lt.
Qed.

Lemma auto_assign_only_eligible_witness :
  exists b' s' w,
    run (auto_assign 77 11) demo_store = (Json (PBooking b'), s')
    /\ Booking.employee_id b' = Some (Profile._id w)
    /\ Profile.current_jobs w < Profile.max_capacity w.
Proof.
  destruct (run (auto_assign 77 11) demo_store) as [r s'] eqn:E.
  assert (Hr : exists b', r = Json (PBooking b'))
    by (vm_compute in E; inversion E; eexists; reflexivity).
  destruct Hr as [b' ->].
  destruct (@auto_assign_only_eligible 77 11%nat demo_store b' s' E)
    as (w & _ & He & _ & _ & _ & _ & _ & _ & Hc).
  exists b', s', w; split; [reflexivity|]; split; assumption.
Defined.

(** ** Payments: what is needed before a booking is marked paid *)

Section PaymentSafety.
Variable hmacSha256 : string -> string -> string.
Variable JSON_parse : string -> option WebhookEvent.

(** X8.  POST /payments/verify changes the store only by marking the named
    booking paid, and only for a request whose signature is the HMAC of
    [order_id|payment_id], whose gateway payment is captured or authorized
    and whose amount matches; every other request leaves the store as it
    was. *)
Theorem payments_verify_sound env fetched body s r s' :
  run (payments_verify hmacSha256 env fetched body) s = (r, s') ->
  s' = s
  \/ exists b,
       findById Booking._id (PayReq.booking_id body) (bookings s) = Some b
       /\ razorpay env = true
       /\ hmacSha256 (RAZORPAY_KEY_SECRET env)
            (PayReq.razorpay_order_id body ++ "|"
             ++ PayReq.razorpay_payment_id body)
          = PayReq.razorpay_signature body
       /\ (gw_status fetched = "captured" \/ gw_status fetched = "authorized")
       /\ amount_mismatch (gw_amount fetched) (Booking.total_price b) = false
       /\ s' = with_bookings (save Booking._id (mark_paid b) (bookings s)) s.
Proof.
  unfold payments_verify; unfold_handler.
  cases; simpl; intros H; inversion H; subst; clear H;
    try (left; reflexivity).
  right.
  repeat match goal with
  | H : negb _ = false |- _ => apply negb_false_iff in H
  | H : _ && _ = false |- _ => apply andb_false_iff in H
  end.
  eexists; repeat split; eauto.
  - now apply String.eqb_eq.
  - match goal with
    | H : _ \/ _ |- _ =>
        destruct H as [H|H]; apply negb_false_iff, String.eqb_eq in H; auto
    end.
Qed.

(** X9.  POST /payments/webhook never writes for a request whose signature
    header is missing or is not the HMAC, under the webhook secret, of the
    text the handler hashes, [req.body.toString()], nor when the gateway or
    the secret is not configured. *)
Theorem payments_webhook_unsigned env signature body s :
  razorpay env = false
  \/ RAZORPAY_WEBHOOK_SECRET env = ""
  \/ signature
     <> Some (hmacSha256 (RAZORPAY_WEBHOOK_SECRET env) (body_text body)) ->
  exists http error,
    run (payments_webhook hmacSha256 JSON_parse env signature body) s
    = (Fail http error, s).
Proof.
  intros H; unfold payments_webhook; unfold_handler.
  destruct (razorpay env) eqn:Hr; simpl negb; cbv iota;
    [|do 2 eexists; reflexivity].
  destruct (String.eqb (RAZORPAY_WEBHOOK_SECRET env) "") eqn:Hw; cbv iota;
    [do 2 eexists; reflexivity|].
  destruct H as [H|[H|H]]; [congruence| |].
  - rewrite H in Hw; simpl in Hw; discriminate.
  - cbv zeta; destruct signature as [sg|]; [|do 2 eexists; reflexivity].
    destruct (String.eqb _ sg) eqn:E; [|do 2 eexists; reflexivity].
    apply String.eqb_eq in E; subst sg; contradiction.
Qed.
End PaymentSafety.

Lemma payments_verify_sound_witness :
  exists r s',
    run (payments_verify (fun _ _ => "sig") demo_env
           (mkGatewayPayment "captured" 50000) demo_pay) demo_store = (r, s')
    /\ (s' = demo_store
        \/ exists b,
             findById Booking._id 11 (bookings demo_store) = Some b
             /\ s' = with_bookings
                       (save Booking._id (mark_paid b) (bookings demo_store))
                       demo_store).
Proof.
  destruct (run (payments_verify (fun _ _ => "sig") demo_env
                   (mkGatewayPayment "captured" 50000) demo_pay) demo_store)
    as [r s'] eqn:E.
  exists r, s'; split; [reflexivity|].
  destruct (@payments_verify_sound (fun _ _ => "sig") demo_env
              (mkGatewayPayment "captured" 50000) demo_pay demo_store r s' E)
    as [H|(b & Hb & _ & _ & _ & _ & Hs)]; [left; exact H|right].
  exists b; split; assumption.
Defined.

Lemma payments_webhook_unsigned_witness :
  exists http error,
    run (payments_webhook (fun _ text => text)
           (fun _ => Some (mkWebhookEvent "payment.captured"
                             (Some (mkEventPayment "pay_1" (Some 11%nat)))))
           demo_env (Some "forged")
           (ArrayBody [JString "{}"; JNull; JNumber 7])) demo_store
    = (Fail http error, demo_store).
Proof.
  apply (@payments_webhook_unsigned (fun _ text => text)
           (fun _ => Some (mkWebhookEvent "payment.captured"
                             (Some (mkEventPayment "pay_1" (Some 11%nat)))))
           demo_env (Some "forged")
           (ArrayBody [JString "{}"; JNull; JNumber 7])).
  right; right; vm_compute; discriminate.
Defined.

(** ** Manual assignment and the recount of the status routes *)

(** X10.  PATCH /bookings/:id/assign succeeds exactly when the worker and
    the booking are stored and the worker has all four verifications; the
    worker's availability and load, the booking's status and an earlier
    assignment play no part, and the stored booking then carries the given
    worker. *)
Theorem assign_needs_verification_only now id e s :
  (forall b' s',
     run (assign now id (Some e)) s = (Json (PBooking b'), s') ->
     exists w b,
       findById Profile._id e (profiles s) = Some w
       /\ worker_verified w = true
       /\ findById Booking._id id (bookings s) = Some b
       /\ b' = assign_update e now b)
  /\ (forall w b,
        findById Profile._id e (profiles s) = Some w ->
        worker_verified w = true ->
        findById Booking._id id (bookings s) = Some b ->
        fst (run (assign now id (Some e)) s)
        = Json (PBooking (assign_update e now b))
        /\ findById Booking._id id
             (bookings (snd (run (assign now id (Some e)) s)))
           = Some (assign_update e now b)).
Proof.
  split.
  - intros b' s'; unfold assign; unfold_handler.
    cases; simpl; intros H; inversion H; subst; clear H.
    match goal with
    | H : negb _ = false |- _ => apply negb_false_iff in H
    end.
    eauto 6.
  - intros w b Hw Hv Hb; unfold assign; unfold_handler.
    rewrite Hw; cbv beta iota zeta; rewrite Hv; simpl negb; cbv iota.
    rewrite Hb; simpl; split; [reflexivity|].
    rewrite findById_update_same by reflexivity.
    rewrite Hb; reflexivity.
Qed.

(** X11.  After PATCH /bookings/:id/status and after
    POST /bookings/:id/complete the stored profile of the booking's worker
    has [current_jobs] equal to the number of that worker's bookings in
    the states assigned, accepted, reached and in_progress. *)
Theorem status_routes_recount now id s b s' w p :
  (exists st, run (patch_status now id st) s = (Json (PBooking b), s'))
  \/ run (complete now id) s = (Json (PBooking b), s') ->
  Booking.employee_id b = Some w ->
  findById Profile._id w (profiles s') = Some p ->
  Profile.current_jobs p = count_jobs active_four w (bookings s').
Proof.
  intros [[st H]|H] Hw Hp.
  - revert H Hw Hp; unfold patch_status; unfold_handler.
    destruct (findById Booking._id id (bookings s)) as [b0|] eqn:Hb;
      cbv beta iota zeta; [|discriminate].
    set (u := status_update now st _).
    destruct (Booking.employee_id (u b0)) as [w0|] eqn:He; simpl;
      intros H; inversion H; subst; clear H; intros Hw Hp; [|congruence].
    rewrite He in Hw; inversion Hw; subst w0.
    simpl in Hp; rewrite findById_update_same in Hp by reflexivity.
    destruct (findById Profile._id w (profiles s)); simpl in Hp;
      inversion Hp; subst; reflexivity.
  - exact (@complete_recounts now id s b s' w p H Hw Hp).
Qed.

Lemma status_routes_recount_witness :
  exists p,
    findById Profile._id 2
      (profiles (snd (run (patch_status 77 10 "reached") demo_store))) = Some p
    /\ Profile.current_jobs p
       = count_jobs active_four 2
           (bookings (snd (run (patch_status 77 10 "reached") demo_store))).
Proof.
  destruct (run (patch_status 77 10 "reached") demo_store) as [r s'] eqn:E.
  assert (Hr : exists b, r = Json (PBooking b) /\ Booking.employee_id b = Some 2%nat)
    by (vm_compute in E; inversion E; eexists; split; reflexivity).
  destruct Hr as (b & -> & He).
  destruct (findById Profile._id 2 (profiles s')) as [p|] eqn:Hp.
  - simpl; exists p; split; [exact Hp|].
    exact (@status_routes_recount 77 10%nat demo_store b s' 2%nat p
             (or_introl (ex_intro _ "reached" E)) He Hp).
  - exfalso. vm_compute in E. inversion E; subst. vm_compute in Hp. discriminate.
Defined.

(** ** Cancelling and rescheduling *)

(** X12.  A successful cancel stores the booking as [cancelled] with
    [cancelled_at = now], the given reason or 'No reason provided', and the
    given actor or the customer; any later cancel of the same booking is
    answered [already_cancelled] and writes nothing. *)
Theorem cancel_once now id reason who s b s' :
  run (cancel now id reason who) s = (Json (PBooking b), s') ->
  findById Booking._id id (bookings s') = Some b
  /\ Booking.status b = "cancelled"
  /\ Booking.cancelled_at b = Some now
  /\ Booking.cancellation_reason b
     = Some (or_default reason "No reason provided")
  /\ Booking.cancelled_by b
     = Some (match who with Some a => a | None => customer end)
  /\ forall now' reason' who',
       run (cancel now' id reason' who') s'
       = (Fail 400 "already_cancelled", s').
Proof.
  intros H.
  assert (Hb : findById Booking._id id (bookings s') = Some b
               /\ Booking.status b = "cancelled"
               /\ Booking.cancelled_at b = Some now
               /\ Booking.cancellation_reason b
                  = Some (or_default reason "No reason provided")
               /\ Booking.cancelled_by b
                  = Some (match who with Some a => a | None => customer end)).
  { revert H; unfold cancel; unfold_handler.
    destruct (findById Booking._id id (bookings s)) as [b0|] eqn:Hb0;
      cbv beta iota zeta; [|discriminate].
    destruct (String.eqb (Booking.status b0) "completed");
      cbv beta iota zeta; [discriminate|].
    destruct (String.eqb (Booking.status b0) "cancelled");
      cbv beta iota zeta; [discriminate|].
    destruct (free_slot_bookings (Some (Booking.service_id b0)) b0 s)
      as [E [u F]].
    destruct (free_slot _ b0 s) as [o s1]; simpl in *; subst o.
    destruct (Booking.employee_id b0); simpl;
      intros H; inversion H; subst; clear H; simpl; rewrite E;
      (split; [|repeat split]);
      (eapply findById_save_same; [exact Hb0|]); simpl;
      exact (findById_id _ _ _ Hb0). }
  destruct Hb as (Hf & Hst & Hrest).
  split; [exact Hf|]; split; [exact Hst|].
  destruct Hrest as (H1 & H2 & H3); repeat split; auto.
  intros now' reason' who'; unfold cancel; unfold_handler.
  rewrite Hf; cbv beta iota zeta; rewrite Hst; reflexivity.
Qed.

Lemma cancel_once_witness :
  exists b s',
    run (cancel 77 14 None None) demo_store = (Json (PBooking b), s')
    /\ Booking.status b = "cancelled"
    /\ run (cancel 78 14 (Some "again") (Some admin)) s'
       = (Fail 400 "already_cancelled", s').
Proof.
  destruct (run (cancel 77 14 None None) demo_store) as [r s'] eqn:E.
  assert (Hr : exists b, r = Json (PBooking b))
    by (vm_compute in E; inversion E; eexists; reflexivity).
  destruct Hr as [b ->].
  destruct (@cancel_once 77 14%nat None None demo_store b s' E)
    as (_ & Hst & _ & _ & _ & Hagain).
  exists b, s'; split; [reflexivity|]; split; [exact Hst|apply Hagain].
Defined.

(** X13.  Rescheduling an assigned booking stores it as [pending] but
    keeps its [employee_id] and leaves every profile untouched; auto-assign
    on the rescheduled booking is therefore answered [already_assigned]. *)
Theorem reschedule_keeps_worker id d t s b b' s' e :
  findById Booking._id id (bookings s) = Some b ->
  Booking.status b = "assigned" ->
  Booking.employee_id b = Some e ->
  run (reschedule id d t) s = (Json (PBooking b'), s') ->
  findById Booking._id id (bookings s') = Some b'
  /\ Booking.status b' = "pending"
  /\ Booking.employee_id b' = Some e
  /\ profiles s' = profiles s
  /\ forall now,
       run (auto_assign now id) s' = (Fail 400 "already_assigned", s').
Proof.
  intros Hb Hst He H.
  assert (Hres : findById Booking._id id (bookings s') = Some b'
                 /\ Booking.status b' = "pending"
                 /\ Booking.employee_id b' = Some e
                 /\ profiles s' = profiles s).
  { revert H; unfold reschedule; unfold_handler.
    destruct (String.eqb t ""); cbv beta iota zeta; [discriminate|].
    rewrite Hb; cbv beta iota zeta; rewrite Hst.
    change (String.eqb "assigned" "completed") with false.
    change (String.eqb "assigned" "cancelled") with false.
    change (String.eqb "assigned" "assigned") with true.
    cbv beta iota zeta.
    destruct (negb (isServiceable _ s)); cbv beta iota zeta; [discriminate|].
    assert (Hfree : bookings (snd (free_slot
                       (populate_service (Booking.service_id b) s) b s))
                    = bookings s
                    /\ profiles (snd (free_slot
                       (populate_service (Booking.service_id b) s) b s))
                       = profiles s
                    /\ exists u, fst (free_slot
                       (populate_service (Booking.service_id b) s) b s)
                                 = Next u)
      by (unfold free_slot; unfold_handler; cases; simpl; eauto).
    destruct Hfree as (Eb & Ep & u & F).
    destruct (free_slot _ b s) as [o s1]; cbn [fst snd] in *; subst o.
    cbv beta iota zeta.
    destruct (slot_full _); cbv beta iota zeta; [discriminate|].
    destruct (findOne _ (slots s1)); simpl;
      intros H; inversion H; subst; clear H; simpl; rewrite Eb;
      (split; [eapply findById_save_same; [exact Hb|]; simpl;
               exact (findById_id _ _ _ Hb)
              |repeat split; auto]). }
  destruct Hres as (Hf & Hs & Hemp & Hp).
  repeat split; auto.
  intros now; unfold auto_assign; unfold_handler.
  rewrite Hf; cbv beta iota zeta; rewrite Hemp; reflexivity.
Qed.

Lemma reschedule_keeps_worker_witness :
  exists b' s',
    run (reschedule 12 (demo_day 6) "morning") demo_store
    = (Json (PBooking b'), s')
    /\ Booking.status b' = "pending"
    /\ Booking.employee_id b' = Some 2%nat
    /\ run (auto_assign 77 12) s' = (Fail 400 "already_assigned", s').
Proof.
  destruct (run (reschedule 12 (demo_day 6) "morning") demo_store)
    as [r s'] eqn:E.
  assert (Hr : exists b', r = Json (PBooking b'))
    by (vm_compute in E; inversion E; eexists; reflexivity).
  destruct Hr as [b' ->].
  destruct (@reschedule_keeps_worker 12%nat (demo_day 6) "morning" demo_store
              (demo_booking 12 (Some 2%nat) "assigned" (demo_day 2) "evening")
              b' s' 2%nat eq_refl eq_refl eq_refl E)
    as (_ & Hs & He & _ & Ha).
  exists b', s'; repeat split; auto.
Defined.

(** X14.  Reschedule answers [service_not_available], with nothing
    written, for every stored booking that is neither completed nor
    cancelled and whose pincode is not serviceable; a booking that carries
    no pincode at all is never serviceable, whatever the areas are. *)
Theorem reschedule_needs_serviceable id d t s b :
  findById Booking._id id (bookings s) = Some b ->
  t <> "" ->
  Booking.status b <> "completed" -> Booking.status b <> "cancelled" ->
  let pincode := js_or (Booking.customer_pincode b)
                       (Booking.customer_address_pincode b) in
  (isServiceable pincode s = false ->
   run (reschedule id d t) s = (Fail 400 "service_not_available", s))
  /\ (truthy pincode = false -> isServiceable pincode s = false).
Proof.
  intros Hb Ht Hc Hx pincode; split.
  - intros Hs; unfold reschedule; unfold_handler.
    apply String.eqb_neq in Ht, Hc, Hx.
    rewrite Ht; cbv beta iota zeta; rewrite Hb; cbv beta iota zeta.
    rewrite Hc, Hx; cbv iota. fold pincode; rewrite Hs; reflexivity.
  - unfold isServiceable; intros Hn; destruct pincode; [rewrite Hn|]; reflexivity.
Qed.

Lemma reschedule_needs_serviceable_witness :
  run (reschedule 15 (demo_day 6) "morning") demo_store_no_pincode
  = (Fail 400 "service_not_available", demo_store_no_pincode).
Proof.
  refine (proj1 (@reschedule_needs_serviceable 15%nat (demo_day 6) "morning"
                   demo_store_no_pincode demo_booking_no_pincode
                   eq_refl _ _ _) eq_refl); discriminate.
Defined.

(** ** What a created booking guarantees *)

(** X15.  A booking is only ever created for a stored customer whose phone
    is verified and for a slot that is absent or not full at that moment;
    it starts as [pending] with a zero platform fee, whatever the request
    carried. *)
Theorem create_booking_gate body s b s' :
  run (post_bookings body) s = (Json (PBooking b), s') ->
  (exists p,
     findById Profile._id (CreateReq.customer_id body) (profiles s) = Some p
     /\ Profile.phone_verified p = true)
  /\ (forall sl,
        findOne (slot_query (Some (CreateReq.service_id body))
                   (CreateReq.booking_date body)
                   (actualTimeSlot (CreateReq.booking_time body))) (slots s)
        = Some sl ->
        Slot.booked_count sl < Slot.total_capacity sl)
  /\ Booking.status b = "pending"
  /\ Booking.platform_fee b = 0
  /\ Booking.customer_id b = CreateReq.customer_id body.
Proof.
  unfold post_bookings; unfold_handler.
  cases; intros H; inversion H; subst; clear H; simpl.
  all: repeat match goal with
       | H : negb _ = false |- _ => apply negb_false_iff in H
       end.
  all: split; [eauto|]; split; [|repeat split].
  all: intros sl Hsl; try discriminate; inversion Hsl; subst.
  all: match goal with
       | H : slot_full (Some _) = false |- _ =>
           unfold slot_full in H; apply Z.leb_gt in H; exact H
       end.
Qed.

Lemma create_booking_gate_witness :
  exists b s' p,
    run (post_bookings demo_create) demo_store = (Json (PBooking b), s')
    /\ findById Profile._id 1 (profiles demo_store) = Some p
    /\ Profile.phone_verified p = true
    /\ Booking.status b = "pending".
Proof.
  destruct (run (post_bookings demo_create) demo_store) as [r s'] eqn:E.
  assert (Hr : exists b, r = Json (PBooking b))
    by (vm_compute in E; inversion E; eexists; reflexivity).
  destruct Hr as [b ->].
  destruct (@create_booking_gate demo_create demo_store b s' E)
    as ((p & Hp & Hv) & _ & Hst & _).
  exists b, s', p; repeat split; auto.
Defined.

(** X16.  When a created booking uses the wallet, the amount is at most
    the customer's balance and at most the subtotal after discount, the
    stored balance drops by exactly that amount, one debit transaction for
    the booking is appended, and a total of 0 marks the booking paid by
    wallet; a request without a positive wallet amount leaves profiles and
    transactions as they were. *)
Theorem create_booking_wallet body s b s' p :
  run (post_bookings body) s = (Json (PBooking b), s') ->
  findById Profile._id (CreateReq.customer_id body) (profiles s) = Some p ->
  let w := number_or_0 (CreateReq.wallet_amount body) in
  (0 < w ->
     w <= Profile.wallet_balance p
     /\ w <= subtotalAfterDiscount body
     /\ Booking.total_price b = subtotalAfterDiscount body - w
     /\ balance_of (CreateReq.customer_id body) s'
        = Some (Profile.wallet_balance p - w)
     /\ (exists i,
           transactions s'
           = (transactions s
              ++ [WalletTransaction.mk i (CreateReq.customer_id body) w debit
                    "Payment for booking" (Some (Booking._id b))])%list)
     /\ (Booking.total_price b = 0 ->
         Booking.payment_status b = "paid"
         /\ Booking.payment_method b = wallet))
  /\ (w <= 0 -> profiles s' = profiles s /\ transactions s' = transactions s).
Proof.
  intros H Hp w; subst w; revert H.
  unfold post_bookings; unfold_handler.
  cases; intros H; inversion H; subst; clear H; simpl;
    (split; [intros Hpos|intros Hneg]).
  all: repeat match goal with
       | H : (_ <? _) = true |- _ => apply Z.ltb_lt in H
       | H : (_ <? _) = false |- _ => apply Z.ltb_ge in H
       | H : (_ =? _) = true |- _ => apply Z.eqb_eq in H
       | H : (_ =? _) = false |- _ => apply Z.eqb_neq in H
       end.
  all: try (exfalso; lia).
  all: try (split; reflexivity).
  all: simpl in *;
    repeat match goal with
    | A : findById _ _ _ = Some _, B : findById _ _ _ = Some _ |- _ =>
        rewrite A in B; inversion B; subst; clear B
    end.
  all: try (exfalso; lia).
  all: repeat match goal with
       | H : Some _ = Some _ |- _ => inversion H; subst; clear H
       end.
  all: split; [lia|]; split; [lia|]; split;
    [unfold computedTotal in *; lia|]; split;
    [eapply balance_after_update; [eassumption|reflexivity]|]; split;
    [eexists; reflexivity|].
  all: intros Hz; try (split; reflexivity).
  all: exfalso; simpl in Hz; congruence.
Qed.

Lemma create_booking_wallet_witness :
  exists b s',
    run (post_bookings demo_create) demo_store = (Json (PBooking b), s')
    /\ balance_of 1 s' = Some (100 - 100)
    /\ Booking.total_price b = 550 - 100.
Proof.
  destruct (run (post_bookings demo_create) demo_store) as [r s'] eqn:E.
  assert (Hr : exists b, r = Json (PBooking b))
    by (vm_compute in E; inversion E; eexists; reflexivity).
  destruct Hr as [b ->].
  destruct (@create_booking_wallet demo_create demo_store b s' demo_customer
              E eq_refl) as [Hw _].
  destruct (Hw ltac:(reflexivity)) as (_ & _ & Ht & Hb & _).
  exists b, s'; repeat split; auto.
Defined.

(** ** One-time codes: request, verify, reuse *)

Section KeyedCollection.
Context {A K : Type} (id_of : A -> Id) (key : A -> K).

Lemma map_updateOne_key f u (l : list A) :
  (forall d, In d l -> f d = true -> key (u d) = key d) ->
  map key (updateOne f u l) = map key l.
Proof.
  induction l as [|d r IH]; simpl; intros Hu; [reflexivity|].
  destruct (f d) eqn:E; simpl.
  - rewrite Hu; auto.
  - rewrite IH; auto.
Qed.

Lemma deleteOne_incl i (l : list A) d :
  In d (deleteOne id_of i l) -> In d l.
Proof.
  induction l as [|x r IH]; simpl; [tauto|].
  destruct (Nat.eqb (id_of x) i); simpl; [tauto|].
  intros [H|H]; auto.
Qed.

Lemma deleteOne_NoDup i (l : list A) :
  NoDup (map key l) -> NoDup (map key (deleteOne id_of i l)).
Proof.
  induction l as [|x r IH]; simpl; intros H; [constructor|].
  inversion H; subst.
  destruct (Nat.eqb (id_of x) i); simpl; [assumption|].
  constructor; auto.
  intros Hin; apply in_map_iff in Hin; destruct Hin as [y [Ey Hy]].
  apply deleteOne_incl in Hy.
  apply H2; rewrite <- Ey; now apply in_map.
Qed.

Lemma findOne_None_filter f (l : list A) :
  findOne f l = None -> filter f l = [].
Proof.
  unfold findOne; induction l as [|x r IH]; simpl; [reflexivity|].
  destruct (f x); [discriminate|exact IH].
Qed.
End KeyedCollection.

Section PhoneFacts.
Variable phone : string.

Lemma filter_phone_nil (l : list OTP.t) :
  ~ In phone (map OTP.phone l) ->
  filter (fun o => String.eqb (OTP.phone o) phone) l = [].
Proof.
  induction l as [|x r IH]; simpl; intros H; [reflexivity|].
  destruct (String.eqb_spec (OTP.phone x) phone) as [E|E]; [tauto|].
  apply IH; tauto.
Qed.

Lemma filter_phone_updateOne u (l : list OTP.t) e :
  NoDup (map OTP.phone l) ->
  findOne (fun o => String.eqb (OTP.phone o) phone) l = Some e ->
  OTP.phone (u e) = phone ->
  filter (fun o => String.eqb (OTP.phone o) phone)
    (updateOne (fun o => String.eqb (OTP.phone o) phone) u l)
  = [u e].
Proof.
  unfold findOne; intros Hn Hf Hu; revert Hn Hf.
  induction l as [|x r IH]; simpl; intros Hn Hf; [discriminate|].
  apply NoDup_cons_iff in Hn; destruct Hn as [Hx Hn].
  destruct (String.eqb_spec (OTP.phone x) phone) as [E|E].
  - injection Hf as Hf; rewrite Hf in *; simpl.
    rewrite Hu, String.eqb_refl.
    rewrite filter_phone_nil; [reflexivity|congruence].
  - simpl; destruct (String.eqb_spec (OTP.phone x) phone); [contradiction|].
    auto.
Qed.

Lemma filter_phone_deleteOne (l : list OTP.t) o :
  NoDup (map OTP._id l) ->
  filter (fun o => String.eqb (OTP.phone o) phone) l = [o] ->
  filter (fun o => String.eqb (OTP.phone o) phone)
    (deleteOne OTP._id (OTP._id o) l)
  = [].
Proof.
  induction l as [|x r IH]; simpl; intros Hn Hf; [discriminate|].
  apply NoDup_cons_iff in Hn; destruct Hn as [Hx Hn].
  destruct (Nat.eqb (OTP._id x) (OTP._id o)) eqn:E.
  - apply Nat.eqb_eq in E.
    destruct (String.eqb (OTP.phone x) phone) eqn:Ex.
    + now inversion Hf.
    + exfalso; apply Hx; rewrite E; apply in_map.
      assert (Hin : In o (filter (fun o => String.eqb (OTP.phone o) phone) r))
        by (rewrite Hf; now left).
      apply filter_In in Hin; tauto.
  - simpl; destruct (String.eqb (OTP.phone x) phone) eqn:Ex.
    + inversion Hf as [[Hxo Hr]]; rewrite Hxo, Nat.eqb_refl in E; discriminate.
    + auto.
Qed.
End PhoneFacts.

Lemma keyed_update q u l n :
  (forall d, q d = true -> OTP.phone (u d) = OTP.phone d) ->
  (forall d, OTP._id (u d) = OTP._id d) ->
  keyed l n -> keyed (updateOne q u l) n.
Proof.
  intros Hph Hid (Hp & Hi & Hb); unfold keyed.
  rewrite !map_updateOne_key by auto.
  repeat split; try assumption.
  apply updateOne_Forall; [assumption|]; intros d Hd _.
  rewrite Hid; rewrite Forall_forall in Hb; auto.
Qed.

Lemma keyed_save d o l n :
  In o l -> OTP.phone d = OTP.phone o -> OTP._id d = OTP._id o ->
  keyed l n -> keyed (save OTP._id d l) n.
Proof.
  intros Ho Hph Hid (Hp & Hi & Hb); unfold keyed, save.
  assert (Hsame : forall x, In x l ->
            Nat.eqb (OTP._id x) (OTP._id d) = true -> x = o).
  { intros x Hx E; apply Nat.eqb_eq in E.
    apply (NoDup_map_inj OTP._id l x o Hi Hx Ho); congruence. }
  rewrite !map_updateOne_key.
  - repeat split; try assumption.
    apply updateOne_Forall; [assumption|]; intros x Hx E.
    rewrite Forall_forall in Hb; rewrite Hid; auto.
  - intros x Hx E; rewrite (Hsame x Hx E); exact Hid.
  - intros x Hx E; rewrite (Hsame x Hx E); exact Hph.
Qed.

Lemma keyed_append o l n :
  findOne (fun x => String.eqb (OTP.phone x) (OTP.phone o)) l = None ->
  OTP._id o = n ->
  keyed l n -> keyed (l ++ [o]) (S n).
Proof.
  intros Hf Ho (Hp & Hi & Hb); unfold keyed; rewrite !map_app; simpl.
  rewrite Forall_forall in Hb.
  repeat split.
  - apply NoDup_app; [assumption|repeat constructor; simpl; tauto|].
    intros k Hk [<-|[]].
    apply in_map_iff in Hk; destruct Hk as [x [Ex Hx]].
    apply (find_none _ _ Hf) in Hx.
    rewrite Ex, String.eqb_refl in Hx; discriminate.
  - apply NoDup_app; [assumption|repeat constructor; simpl; tauto|].
    intros k Hk [<-|[]].
    apply in_map_iff in Hk; destruct Hk as [x [Ex Hx]].
    apply Hb in Hx; lia.
  - apply Forall_app; split.
    + apply Forall_forall; intros x Hx; apply Hb in Hx; lia.
    + constructor; [lia|constructor].
Qed.

Lemma keyed_delete i l n : keyed l n -> keyed (deleteOne OTP._id i l) n.
Proof.
  intros (Hp & Hi & Hb); repeat split.
  - now apply deleteOne_NoDup.
  - now apply deleteOne_NoDup.
  - now apply deleteOne_Forall.
Qed.

Lemma keyed_next l n : keyed l n -> keyed l (S n).
Proof.
  intros (Hp & Hi & Hb); repeat split; try assumption.
  apply Forall_forall; rewrite Forall_forall in Hb.
  intros x Hx; apply Hb in Hx; lia.
Qed.

Lemma latest_singleton o : latest [o] = Some o.
Proof. reflexivity. Qed.

Section OtpRoundTrip.
Variable hashCode : string -> string.
Variable isEmail : string -> bool.

Lemma request_keyed now generated phone s :
  otps_keyed s ->
  otps_keyed (snd (run (request_otp hashCode now generated phone) s)).
Proof.
  intros H; unfold request_otp; unfold_handler.
  cases; simpl; auto; unfold otps_keyed; simpl.
  all: try (apply keyed_append; [assumption | reflexivity | exact H]).
  all: apply keyed_update; [| reflexivity | exact H].
  all: intros x Hx; apply String.eqb_eq in Hx; symmetry; exact Hx.
Qed.

Lemma verify_keyed now body s :
  otps_keyed s ->
  otps_keyed (snd (run (verify_otp hashCode isEmail now body) s)).
Proof.
  intros H; unfold verify_otp; unfold_handler.
  cases; simpl; auto; unfold otps_keyed; simpl.
  all: try (eapply keyed_save; [| | | exact H];
            [eapply latest_otp_In; eassumption | reflexivity | reflexivity]).
  all: try apply keyed_next; apply keyed_delete; exact H.
Qed.

Lemma filter_phone_length phone (l : list OTP.t) :
  NoDup (map OTP.phone l) ->
  (List.length (filter (fun o => String.eqb (OTP.phone o) phone) l) <= 1)%nat.
Proof.
  induction l as [|x r IH]; simpl; intros Hn; [lia|].
  apply NoDup_cons_iff in Hn; destruct Hn as [Hx Hn].
  destruct (String.eqb_spec (OTP.phone x) phone) as [E|E]; auto.
  rewrite filter_phone_nil; [simpl; lia|congruence].
Qed.

(** X17.  Starting from a store whose challenges have distinct phones and
    distinct [_id]s below the id counter, any sequence of request-otp and
    verify-otp calls keeps it so: a phone never has more than one stored
    challenge. *)
Theorem otp_one_challenge_per_phone ops s phone :
  otps_keyed s ->
  let s' :=
    fold_left (fun st op => snd (run (otp_op hashCode isEmail op) st)) ops s in
  otps_keyed s'
  /\ (List.length (filter (fun o => String.eqb (OTP.phone o) phone) (otps s'))
      <= 1)%nat.
Proof.
  intros H; cbv zeta.
  assert (Hk : otps_keyed
     (fold_left (fun st op => snd (run (otp_op hashCode isEmail op) st))
        ops s)).
  { revert s H; induction ops as [|op ops IH]; simpl; intros s H; [exact H|].
    apply IH; destruct op; simpl;
      [now apply request_keyed | now apply verify_keyed]. }
  split; [exact Hk|].
  apply filter_phone_length; exact (proj1 Hk).
Qed.

(** What a successful request leaves behind: exactly one challenge for the
    phone, freshly hashed, unused, valid for five minutes. *)
Lemma request_stores now generated phone s s1 :
  otps_keyed s ->
  run (request_otp hashCode now generated phone) s = (Json PSuccess, s1) ->
  profiles s1 = profiles s
  /\ exists o,
       filter (fun x => String.eqb (OTP.phone x) (sanitizeInput phone)) (otps s1)
       = [o]
       /\ OTP.code_hash o = hashCode generated
       /\ OTP.expires_at o = now + 300000
       /\ OTP.attempts o = 0
       /\ OTP.last_sent_at o = Some now.
Proof.
  intros (Hp & _); unfold request_otp; unfold_handler.
  cases; intros H; inversion H; subst; clear H; simpl;
    (split; [reflexivity|]); eexists.
  all: try (split; [eapply filter_phone_updateOne;
                      [exact Hp|eassumption|reflexivity]|];
            repeat split; reflexivity).
  all: rewrite filter_app, findOne_None_filter by assumption; simpl.
  all: rewrite String.eqb_refl; repeat split; reflexivity.
Qed.

Lemma verify_not_found now body s :
  validate_verify isEmail body = true ->
  filter (fun x => String.eqb (OTP.phone x)
                     (sanitizeInput (trim (VerifyReq.phone body)))) (otps s)
  = [] ->
  run (verify_otp hashCode isEmail now body) s = (Fail 400 "otp_not_found", s).
Proof.
  intros Hv Hf; unfold verify_otp; unfold_handler.
  rewrite Hv; simpl; unfold latest_otp; rewrite Hf; reflexivity.
Qed.

Lemma or_default_required a d : d <> "" -> required (or_default a d) = true.
Proof.
  intros Hd; unfold required, or_default, js_or, truthy.
  destruct a as [x|]; [|now apply negb_true_iff, String.eqb_neq].
  destruct (String.eqb x "") eqn:E; simpl.
  - now apply negb_true_iff, String.eqb_neq.
  - now rewrite E.
Qed.

Lemma set_verified_valid name mail v p :
  profile_valid p = true -> required name = true ->
  profile_valid (Profile.set_verified name mail v p) = true.
Proof.
  destruct p; unfold profile_valid; simpl; intros H Hn.
  repeat (apply andb_true_iff in H; destruct H as [H ?]).
  repeat (apply andb_true_iff; split); assumption.
Qed.

(** X18.  A code can be used once.  In a store whose profiles pass the
    schema's validation, after a successful request-otp for a phone that is
    not empty once sanitised, a verify-otp that passes the route's
    validators, names the same phone and submits the generated code within
    five minutes signs the user in with a stored, phone-verified profile of
    that phone and removes the challenge, so that every later verify-otp
    for the phone is answered [otp_not_found] until a new code is
    requested. *)
Theorem otp_single_use now generated phone s s1 now' body :
  otps_keyed s ->
  Forall (fun p => profile_valid p = true) (profiles s) ->
  sanitizeInput phone <> "" ->
  run (request_otp hashCode now generated phone) s = (Json PSuccess, s1) ->
  validate_verify isEmail body = true ->
  sanitizeInput (trim (VerifyReq.phone body)) = sanitizeInput phone ->
  trim (trim (VerifyReq.code body)) = generated ->
  now' <= now + 300000 ->
  exists profile flag s2,
    run (verify_otp hashCode isEmail now' body) s1
    = (Json (PProfile profile flag), s2)
    /\ Profile.phone profile = sanitizeInput phone
    /\ Profile.phone_verified profile = true
    /\ In profile (profiles s2)
    /\ forall now'' body',
         validate_verify isEmail body' = true ->
         sanitizeInput (trim (VerifyReq.phone body')) = sanitizeInput phone ->
         run (verify_otp hashCode isEmail now'' body') s2
         = (Fail 400 "otp_not_found", s2).
Proof.
  intros Hk Hvalid Hphone Hreq Hv Hph Hcode Hnow.
  assert (Hk1 : otps_keyed s1).
  { pose proof (@request_keyed now generated phone s Hk) as K.
    rewrite Hreq in K; exact K. }
  destruct (@request_stores now generated phone s s1 Hk Hreq)
    as (Hprof & o & Hf & Hhash & Hexp & Hatt & _).
  assert (Hdel : filter (fun x => String.eqb (OTP.phone x) (sanitizeInput phone))
                   (deleteOne OTP._id (OTP._id o) (otps s1)) = []).
  { apply filter_phone_deleteOne; [exact (proj1 (proj2 Hk1))|exact Hf]. }
  assert (Hlater : forall s2, otps s2 = deleteOne OTP._id (OTP._id o) (otps s1) ->
     forall now'' body',
       validate_verify isEmail body' = true ->
       sanitizeInput (trim (VerifyReq.phone body')) = sanitizeInput phone ->
       run (verify_otp hashCode isEmail now'' body') s2
       = (Fail 400 "otp_not_found", s2)).
  { intros s2 E now'' body' Hv' Hph'; apply verify_not_found; [exact Hv'|].
    rewrite Hph', E; exact Hdel. }
  unfold verify_otp at 1; unfold_handler.
  rewrite Hv; simpl; unfold latest_otp; rewrite Hph, Hf; simpl.
  rewrite Hexp, Hatt, Hhash, Hcode.
  replace (now + 300000 <? now') with false by (symmetry; apply Z.ltb_ge; lia).
  rewrite String.eqb_refl; simpl.
  destruct (findOne _ (profiles s1)) as [p|] eqn:Ep.
  - pose proof (findOne_In _ _ Ep) as Hin.
    pose proof (findOne_true _ _ Ep) as Hpp; apply String.eqb_eq in Hpp.
    rewrite Hprof in Hin; rewrite Forall_forall in Hvalid.
    pose proof (Hvalid p Hin) as Hvp.
    match goal with
    | |- context [profile_valid ?q] =>
        assert (Hq : profile_valid q = true)
    end.
    { apply set_verified_valid; [exact Hvp|].
      assert (H2 : required (Profile.full_name p) = true).
      { unfold profile_valid in Hvp.
        repeat (apply andb_true_iff in Hvp; destruct Hvp as [Hvp ?]).
        assumption. }
      destruct (sanitize_opt (option_map trim (VerifyReq.full_name body)))
        as [n|] eqn:En; [|exact H2].
      destruct (truthy (Some n) && negb (String.eqb n "Customer")) eqn:Et;
        [|exact H2].
      apply andb_true_iff in Et; exact (proj1 Et). }
    rewrite Hq; simpl.
    do 3 eexists; split; [reflexivity|]; simpl.
    split; [exact Hpp|]. split; [reflexivity|].
    split; [apply In_save; exists p; split;
              [eapply findOne_In; exact Ep|reflexivity]|].
    apply Hlater; reflexivity.
  - match goal with
    | |- context [profile_valid ?q] =>
        assert (Hq : profile_valid q = true)
    end.
    { unfold profile_valid; simpl.
      rewrite or_default_required by discriminate.
      unfold required; apply String.eqb_neq in Hphone; rewrite Hphone.
      reflexivity. }
    rewrite Hq; simpl.
    do 3 eexists; split; [reflexivity|]; simpl.
    split; [reflexivity|]. split; [reflexivity|].
    split; [apply in_or_app; right; now left|].
    apply Hlater; reflexivity.
Qed.

(** X19.  Rate limit.  After a successful request-otp, another request
    for the same phone less than 45 seconds later is answered
    [otp_rate_limited] and changes nothing: the stored code stays valid. *)
Theorem request_otp_rate_limited now generated phone s s1 now' generated' phone' :
  otps_keyed s ->
  run (request_otp hashCode now generated phone) s = (Json PSuccess, s1) ->
  trim phone' <> "" ->
  sanitizeInput phone' = sanitizeInput phone ->
  now' - now < 45000 ->
  run (request_otp hashCode now' generated' phone') s1
  = (Fail 429 "otp_rate_limited", s1).
Proof.
  intros Hk Hreq Hne Hph Hnow.
  destruct (request_stores _ _ _ Hk Hreq) as (_ & o & Hf & _ & _ & _ & Hsent).
  unfold request_otp; unfold_handler.
  apply String.eqb_neq in Hne; rewrite Hne; simpl.
  unfold latest_otp; rewrite Hph, Hf; simpl; rewrite Hsent.
  replace (now' - now <? 45000) with true by (symmetry; apply Z.ltb_lt; lia).
  reflexivity.
Qed.
End OtpRoundTrip.

Lemma otp_one_challenge_per_phone_witness :
  let s' := fold_left
              (fun st op =>
                 snd (run (otp_op (fun c => c) (fun _ => true) op) st))
              [RequestOtp 50000 "654321" "9999999999";
               VerifyOtp 60000 demo_verify;
               RequestOtp 70000 "111111" "8888888888"] demo_store in
  otps_keyed s'
  /\ (List.length (filter (fun o => String.eqb (OTP.phone o) "9999999999")
                     (otps s')) <= 1)%nat.
Proof.
  apply (@otp_one_challenge_per_phone (fun c => c) (fun _ => true)
           [RequestOtp 50000 "654321" "9999999999";
            VerifyOtp 60000 demo_verify;
            RequestOtp 70000 "111111" "8888888888"] demo_store "9999999999").
  repeat split; simpl; repeat constructor; simpl; try tauto; lia.
Defined.

Lemma otp_single_use_witness :
  exists profile flag s2,
    run (verify_otp (fun c => c) (fun _ => true) 60000
           (VerifyReq.mk " 9999999999" " 654321 " (Some "Asha K") None None))
        (snd (run (request_otp (fun c => c) 50000 "654321" "9999999999")
                demo_store))
    = (Json (PProfile profile flag), s2)
    /\ Profile.phone_verified profile = true.
Proof.
  destruct (@otp_single_use (fun c => c) (fun _ => true) 50000 "654321"
              "9999999999" demo_store
              (snd (run (request_otp (fun c => c) 50000 "654321" "9999999999")
                      demo_store))
              60000
              (VerifyReq.mk " 9999999999" " 654321 " (Some "Asha K") None None))
    as (profile & flag & s2 & Hrun & _ & Hv & _).
  - repeat split; simpl; repeat constructor; simpl; try tauto; lia.
  - repeat constructor.
  - vm_compute; discriminate.
  - reflexivity.
  - reflexivity.
  - reflexivity.
  - reflexivity.
  - lia.
  - exists profile, flag, s2; split; assumption.
Defined.

Lemma request_otp_rate_limited_witness :
  let s1 := snd (run (request_otp (fun c => c) 50000 "654321" "9999999999")
                   demo_store) in
  run (request_otp (fun c => c) 60000 "222222" "9999999999") s1
  = (Fail 429 "otp_rate_limited", s1).
Proof.
  apply (@request_otp_rate_limited (fun c => c) 50000 "654321" "9999999999"
           demo_store _ 60000 "222222" "9999999999").
  - repeat split; simpl; repeat constructor; simpl; try tauto; lia.
  - reflexivity.
  - discriminate.
  - reflexivity.
  - lia.
Defined.

(** ** Approving and rejecting technicians *)

Lemma requireAdmin_next adminKey provided :
  requireAdmin adminKey provided = None ->
  adminKey <> "" /\ provided = Some adminKey.
Proof.
  unfold requireAdmin.
  destruct (String.eqb_spec adminKey "") as [E|E]; [discriminate|].
  destruct provided as [k|]; [|discriminate].
  destruct (String.eqb_spec k adminKey) as [Ek|Ek]; [|discriminate].
  intros _; split; congruence.
Qed.

Lemma save_ids {A : Type} (id_of : A -> Id) d (l : list A) :
  map id_of (save id_of d l) = map id_of l.
Proof.
  unfold save; induction l as [|x r IH]; simpl; [reflexivity|].
  destruct (Nat.eqb (id_of x) (id_of d)) eqn:E; simpl.
  - apply Nat.eqb_eq in E; now rewrite E.
  - now rewrite IH.
Qed.

(** The worker that auto-assign puts on a booking passed the filter. *)
Lemma auto_assign_worker now id s b' s' :
  run (auto_assign now id) s = (Json (PBooking b'), s') ->
  exists w b,
    In w (profiles s)
    /\ Booking.employee_id b' = Some (Profile._id w)
    /\ eligible (populate_service (Booking.service_id b) s) w = true.
Proof.
  unfold auto_assign; unfold_handler.
  destruct (findById Booking._id id (bookings s)) as [b|] eqn:Hb;
    cbv beta iota zeta; [|discriminate].
  destruct (is_some (Booking.employee_id b)); cbv beta iota zeta; [discriminate|].
  destruct (Nat.eqb _ 0); cbv beta iota zeta; [discriminate|].
  destruct (sort by_priority _) as [|[w p] rest] eqn:Hs; [discriminate|].
  intros H; inversion H; subst; clear H.
  assert (Hin : In (w, p) (sort by_priority
            (map (fun w0 => (w0, priority (customerLocation b) w0))
               (filter (eligible (populate_service (Booking.service_id b) s))
                  (profiles s)))))
    by (rewrite Hs; left; reflexivity).
  apply Permutation_in with (l' := map (fun w0 => (w0, priority (customerLocation b) w0))
               (filter (eligible (populate_service (Booking.service_id b) s))
                  (profiles s))) in Hin; [|apply Permutation_sym, sort_perm].
  apply in_map_iff in Hin; destruct Hin as (w' & E & Hw); inversion E; subst w'.
  apply filter_In in Hw; destruct Hw as [Hw He].
  exists w, b; repeat split; auto.
Qed.

(** X21.  A rejected technician gets no work.  With unique profile ids,
    once the reject route has answered with the profile, that profile is
    stored as [rejected] and unavailable, the manual assign route refuses
    the technician for every booking with [worker_not_verified] and writes
    nothing, and auto-assign never picks the technician. *)
Theorem rejected_technician_not_assigned adminKey provided id s p s' :
  NoDup (map Profile._id (profiles s)) ->
  reject_technician adminKey provided id s = (Updated p, s') ->
  findById Profile._id id (profiles s') = Some p
  /\ Profile.approval_status p = "rejected"
  /\ Profile.is_available p = false
  /\ (forall now b,
        run (assign now b (Some id)) s' = (Fail 400 "worker_not_verified", s'))
  /\ (forall now b booking s'',
        run (auto_assign now b) s' = (Json (PBooking booking), s'') ->
        Booking.employee_id booking <> Some id).
Proof.
  intros Hn; unfold reject_technician.
  destruct (requireAdmin adminKey provided) as [[http error]|]; [discriminate|].
  destruct (findById Profile._id id (profiles s)) as [q|] eqn:Hq; [|discriminate].
  cbv zeta; intros H; inversion H; subst; clear H; simpl.
  assert (Hid : Profile._id q = id) by (eapply findById_id; exact Hq).
  assert (Hf : findById Profile._id id
                 (save Profile._id
                    (set_approval (Profile.role q) "rejected" false q)
                    (profiles s))
               = Some (set_approval (Profile.role q) "rejected" false q))
    by (eapply findById_save_same; [exact Hq|exact Hid]).
  split; [exact Hf|]; split; [reflexivity|]; split; [reflexivity|]; split.
  - intros now b; unfold assign; unfold_handler; simpl.
    rewrite Hf; unfold worker_verified; simpl.
    rewrite !andb_false_r; reflexivity.
  - intros now b booking s'' Hrun [=E].
    apply auto_assign_worker in Hrun.
    destruct Hrun as (w & b0 & Hw & He & Hel); simpl in Hw.
    rewrite He in E; injection E as E.
    assert (Hwq : w = set_approval (Profile.role q) "rejected" false q).
    { apply (NoDup_map_inj Profile._id
               (save Profile._id
                  (set_approval (Profile.role q) "rejected" false q)
                  (profiles s))); auto.
      - now rewrite save_ids.
      - eapply findById_In; exact Hf.
      - simpl; congruence. }
    subst w; unfold eligible in Hel; simpl in Hel.
    rewrite andb_false_r in Hel; discriminate.
Qed.

Lemma rejected_technician_not_assigned_witness :
  exists p s',
    reject_technician "k" (Some "k") 2 demo_store = (Updated p, s')
    /\ Profile.approval_status p = "rejected"
    /\ run (assign 77 11 (Some 2%nat)) s' = (Fail 400 "worker_not_verified", s').
Proof.
  destruct (reject_technician "k" (Some "k") 2 demo_store) as [r s'] eqn:E.
  assert (Hr : exists p, r = Updated p)
    by (vm_compute in E; inversion E; eexists; reflexivity).
  destruct Hr as [p ->].
  assert (Hn : NoDup (map Profile._id (profiles demo_store)))
    by (simpl; repeat constructor; simpl; intuition discriminate).
  destruct (@rejected_technician_not_assigned "k" (Some "k") 2%nat demo_store
              p s' Hn E) as (_ & Hs & _ & Ha & _).
  exists p, s'; repeat split; auto.
Defined.

(** X22.  Approval is not verification.  Once the approve route has
    answered with the profile, that profile is stored as [approved] and
    available, and its role is neither empty nor [worker] (both become
    [employee]); the manual assign route then accepts the technician for a
    stored booking exactly when identity, skills and background check are
    verified, and otherwise still answers [worker_not_verified]. *)
Theorem approved_technician_assignable adminKey provided id s p s' :
  approve_technician adminKey provided id s = (Updated p, s') ->
  findById Profile._id id (profiles s') = Some p
  /\ Profile.approval_status p = "approved"
  /\ Profile.is_available p = true
  /\ Profile.role p <> ""
  /\ Profile.role p <> "worker"
  /\ forall now b bk,
       findById Booking._id b (bookings s') = Some bk ->
       fst (run (assign now b (Some id)) s')
       = if Profile.id_verified p && Profile.skills_verified p
            && String.eqb (Profile.background_check_status p) "approved"
         then Json (PBooking (assign_update id now bk))
         else Fail 400 "worker_not_verified".
Proof.
  unfold approve_technician.
  destruct (requireAdmin adminKey provided) as [[http error]|]; [discriminate|].
  destruct (findById Profile._id id (profiles s)) as [q|] eqn:Hq; [|discriminate].
  cbv zeta; intros H; inversion H; subst; clear H; simpl.
  assert (Hid : Profile._id q = id) by (eapply findById_id; exact Hq).
  match goal with
  | |- findById _ _ (save _ ?d _) = _ /\ _ =>
      assert (Hf : findById Profile._id id (save Profile._id d (profiles s))
                   = Some d)
        by (eapply findById_save_same; [exact Hq|exact Hid])
  end.
  split; [exact Hf|]; split; [reflexivity|]; split; [reflexivity|].
  split; [|split].
  - destruct (String.eqb_spec (Profile.role q) ""); simpl; [discriminate|].
    destruct (String.eqb (Profile.role q) "worker"); [discriminate|assumption].
  - destruct (String.eqb (Profile.role q) ""); simpl; [discriminate|].
    destruct (String.eqb_spec (Profile.role q) "worker");
      [discriminate|assumption].
  - intros now b bk Hb; unfold assign; unfold_handler; simpl.
    rewrite Hf; cbv beta iota zeta; unfold worker_verified; simpl.
    rewrite andb_true_r.
    destruct (Profile.id_verified q && Profile.skills_verified q
              && String.eqb (Profile.background_check_status q) "approved");
      simpl; [|reflexivity].
    simpl in Hb; rewrite Hb; reflexivity.
Qed.

Lemma approved_technician_assignable_witness :
  exists p s',
    approve_technician "k" (Some "k") 1 demo_store = (Updated p, s')
    /\ Profile.approval_status p = "approved"
    /\ Profile.is_available p = true.
Proof.
  destruct (approve_technician "k" (Some "k") 1 demo_store) as [r s'] eqn:E.
  assert (Hr : exists p, r = Updated p)
    by (vm_compute in E; inversion E; eexists; reflexivity).
  destruct Hr as [p ->].
  destruct (@approved_technician_assignable "k" (Some "k") 1%nat demo_store
              p s' E) as (_ & Hs & Ha & _).
  exists p, s'; repeat split; auto.
Defined.

(** X23.  The technician routes write only for the administrator.  Either
    route answers with a profile only if [ADMIN_KEY] is configured, the
    request carries exactly that key and the profile exists; with no key
    configured the answer is 500 whatever the request carries; and every
    refusal leaves the store as it was. *)
Theorem technician_routes_guarded adminKey provided id s :
  let a := approve_technician adminKey provided id s in
  let r := reject_technician adminKey provided id s in
  ((exists p, fst a = Updated p) \/ (exists p, fst r = Updated p) ->
     adminKey <> "" /\ provided = Some adminKey
     /\ findById Profile._id id (profiles s) <> None)
  /\ (adminKey = "" ->
      a = (Refused 500 "admin_key_not_configured", s)
      /\ r = (Refused 500 "admin_key_not_configured", s))
  /\ (forall http error, fst a = Refused http error -> snd a = s)
  /\ (forall http error, fst r = Refused http error -> snd r = s).
Proof.
  cbv zeta; unfold approve_technician, reject_technician.
  split; [|split; [|split]].
  - destruct (requireAdmin adminKey provided) as [[http error]|] eqn:G.
    + intros [[p H]|[p H]]; discriminate.
    + apply requireAdmin_next in G; destruct G as [G1 G2].
      destruct (findById Profile._id id (profiles s)).
      * intros _; repeat split; auto; discriminate.
      * intros [[p H]|[p H]]; discriminate.
  - intros ->; split; reflexivity.
  - intros http error.
    destruct (requireAdmin adminKey provided) as [[h e]|]; [reflexivity|].
    destruct (findById Profile._id id (profiles s)); [discriminate|reflexivity].
  - intros http error.
    destruct (requireAdmin adminKey provided) as [[h e]|]; [reflexivity|].
    destruct (findById Profile._id id (profiles s)); [discriminate|reflexivity].
Qed.

(** ** Creating a booking and cancelling it *)

Section SaveFacts.
Context {A : Type} (id_of : A -> Id).

Lemma save_save d d' (l : list A) :
  id_of d' = id_of d ->
  save id_of d' (save id_of d l) = save id_of d' l.
Proof.
  intros E; unfold save; rewrite E.
  induction l as [|x r IH]; simpl; [reflexivity|].
  destruct (Nat.eqb (id_of x) (id_of d)) eqn:Ex; simpl.
  - now rewrite Nat.eqb_refl.
  - now rewrite Ex, IH.
Qed.

Lemma findOne_save_first f d d' (l : list A) :
  NoDup (map id_of l) ->
  findOne f l = Some d -> id_of d' = id_of d -> f d' = true ->
  findOne f (save id_of d' l) = Some d'.
Proof.
  unfold findOne, save; intros Hn Hf Hid Hd'; revert Hn Hf.
  induction l as [|x r IH]; simpl; intros Hn Hf; [discriminate|].
  apply NoDup_cons_iff in Hn; destruct Hn as [Hx Hn].
  destruct (f x) eqn:Efx.
  - injection Hf as Hf; rewrite Hf, Hid, Nat.eqb_refl; simpl.
    now rewrite Hd'.
  - destruct (Nat.eqb (id_of x) (id_of d')) eqn:Ex; simpl.
    + exfalso; apply Hx; apply Nat.eqb_eq in Ex; rewrite Ex, Hid.
      apply in_map; apply find_some in Hf; tauto.
    + rewrite Efx; auto.
Qed.

Lemma map_save_same {B : Type} (g : A -> B) d d' (l : list A) :
  NoDup (map id_of l) -> In d l ->
  id_of d' = id_of d -> g d' = g d ->
  map g (save id_of d' l) = map g l.
Proof.
  intros Hn Hd Hid Hg; unfold save.
  apply map_updateOne_key; intros x Hx E.
  apply Nat.eqb_eq in E.
  rewrite (NoDup_map_inj id_of l x d Hn Hx Hd); congruence.
Qed.

Lemma findById_app_fresh i d (l : list A) :
  findById id_of i l = None -> id_of d = i ->
  findById id_of i (l ++ [d]) = Some d.
Proof.
  unfold findById; intros Hn Hd.
  induction l as [|x r IH]; simpl in *.
  - now rewrite Hd, Nat.eqb_refl.
  - destruct (Nat.eqb (id_of x) i); [discriminate|auto].
Qed.
End SaveFacts.

(** What a successful creation leaves in the store. *)
Lemma create_effect body s b s1 :
  run (post_bookings body) s = (Json (PBooking b), s1) ->
  validate_create body = true
  /\ Booking._id b = next_id s
  /\ Booking.status b = "pending"
  /\ Booking.service_id b = CreateReq.service_id body
  /\ Booking.booking_date b = Some (CreateReq.booking_date body)
  /\ Booking.booking_time b = Some (CreateReq.booking_time body)
  /\ Booking.employee_id b = CreateReq.employee_id body
  /\ (findById Booking._id (next_id s) (bookings s) = None ->
      findById Booking._id (next_id s) (bookings s1) = Some b)
  /\ slots s1
     = match findOne (slot_query (Some (CreateReq.service_id body))
                        (CreateReq.booking_date body)
                        (actualTimeSlot (CreateReq.booking_time body)))
               (slots s) with
       | Some sl => save Slot._id (reserve sl) (slots s)
       | None => slots s
       end.
Proof.
  unfold post_bookings; unfold_handler.
  destruct (validate_create body) eqn:Hv; simpl; [|discriminate].
  cases; intros H; inversion H; subst; clear H; simpl.
  all: repeat split; try reflexivity.
  all: intros Hfresh.
  all: try (apply findById_app_fresh; [exact Hfresh|reflexivity]).
  all: eapply findById_save_same;
    [apply findById_app_fresh; [exact Hfresh|reflexivity]|reflexivity].
Qed.

Lemma balance_recount u w n (l : list Profile.t) :
  option_map Profile.wallet_balance
    (findById Profile._id u
       (findByIdAndUpdate Profile._id w (Profile.set_current_jobs n) l))
  = option_map Profile.wallet_balance (findById Profile._id u l).
Proof.
  destruct (Nat.eq_dec u w) as [->|Hne].
  - rewrite findById_update_same by reflexivity.
    destruct (findById Profile._id w l); reflexivity.
  - unfold findByIdAndUpdate; rewrite findById_update_other; auto.
Qed.

Lemma validate_create_time body :
  validate_create body = true -> CreateReq.booking_time body <> "".
Proof.
  unfold validate_create; intros H; apply andb_true_iff in H.
  destruct H as [H _]; apply negb_true_iff in H.
  now apply String.eqb_neq.
Qed.

(** X24.  Cancelling a new booking gives the slot back and nothing else.
    In a store with unique slot ids, counts within capacity and an unused
    next booking id, a booking that was just created can be cancelled; the
    [booked_count] of every slot is then what it was before the creation,
    while the wallet debit, the wallet transactions and the promo usage of
    the creation stay: cancel writes no transaction, no promo and no
    balance. *)
Theorem create_then_cancel body s b s1 now reason who :
  run (post_bookings body) s = (Json (PBooking b), s1) ->
  findById Booking._id (next_id s) (bookings s) = None ->
  NoDup (map Slot._id (slots s)) ->
  slots_ok s ->
  exists b' s2,
    run (cancel now (Booking._id b) reason who) s1 = (Json (PBooking b'), s2)
    /\ Booking.status b' = "cancelled"
    /\ map Slot.booked_count (slots s2) = map Slot.booked_count (slots s)
    /\ transactions s2 = transactions s1
    /\ promos s2 = promos s1
    /\ forall u, balance_of u s2 = balance_of u s1.
Proof.
  intros Hrun Hfresh Hn Hok.
  destruct (@create_effect body s b s1 Hrun)
    as (Hv & Hid & Hst & Hsvc & Hdate & Htime & Hemp & Hfind & Hslots).
  specialize (Hfind Hfresh).
  pose proof (@validate_create_time body Hv) as Hne.
  apply String.eqb_neq in Hne.
  unfold cancel; unfold_handler.
  rewrite Hid, Hfind; cbv beta iota zeta.
  rewrite Hst.
  change ("pending" =? "completed")%string with false.
  change ("pending" =? "cancelled")%string with false.
  cbv beta iota zeta.
  unfold free_slot; unfold_handler.
  rewrite Hdate, Htime, Hsvc; unfold truthy, or_default, js_or, truthy.
  rewrite Hne; change (negb false) with true; cbv beta iota zeta.
  destruct (findOne _ (slots s)) as [sl|] eqn:Hsl; rewrite Hslots.
  - assert (Hin : In sl (slots s)) by (eapply findOne_In; exact Hsl).
    assert (Hq : slot_query (Some (CreateReq.service_id body))
                   (CreateReq.booking_date body)
                   (actualTimeSlot (CreateReq.booking_time body)) (reserve sl)
                 = true)
      by (rewrite <- (findOne_true _ _ Hsl); reflexivity).
    rewrite (@findOne_save_first _ Slot._id _ sl (reserve sl) (slots s)
               Hn Hsl eq_refl Hq).
    assert (Hpos : 0 <= Slot.booked_count sl).
    { unfold slots_ok in Hok; rewrite Forall_forall in Hok.
      apply Hok in Hin; unfold slot_ok in Hin; lia. }
    replace (0 <? Slot.booked_count (reserve sl)) with true
      by (symmetry; apply Z.ltb_lt; simpl; lia).
    destruct (Booking.employee_id b); do 2 eexists;
      (split; [reflexivity|]); simpl; rewrite Hslots;
      rewrite save_save by reflexivity;
      (split; [reflexivity|]);
      (split; [apply map_save_same with (d := sl); auto; simpl; lia|]);
      repeat split; try reflexivity;
      intros u; unfold balance_of; simpl; try reflexivity;
      apply balance_recount.
  - rewrite Hsl.
    destruct (Booking.employee_id b); do 2 eexists;
      (split; [reflexivity|]); simpl; rewrite Hslots;
      repeat split; try reflexivity;
      intros u; unfold balance_of; simpl; try reflexivity;
      apply balance_recount.
Qed.


Lemma create_then_cancel_witness :
  exists b s1 b' s2,
    run (post_bookings demo_create) demo_store = (Json (PBooking b), s1)
    /\ run (cancel 77 (Booking._id b) None None) s1 = (Json (PBooking b'), s2)
    /\ map Slot.booked_count (slots s2)
       = map Slot.booked_count (slots demo_store)
    /\ balance_of 1 s2 = balance_of 1 s1.
Proof.
  destruct (run (post_bookings demo_create) demo_store) as [r s1] eqn:E.
  assert (Hr : exists b, r = Json (PBooking b))
    by (vm_compute in E; inversion E; eexists; reflexivity).
  destruct Hr as [b ->].
  assert (Hn : NoDup (map Slot._id (slots demo_store)))
    by (simpl; repeat constructor; simpl; intuition discriminate).
  assert (Hok : slots_ok demo_store)
    by (repeat constructor; simpl; lia).
  destruct (@create_then_cancel demo_create demo_store b s1 77 None None
              E eq_refl Hn Hok) as (b' & s2 & Hc & _ & Hm & _ & _ & Hb).
  exists b, s1, b', s2; repeat split; auto.
Defined.

(** ** Payment on completion *)

(** The routes that move a booking along its life cycle. *)
Lemma step_payment_status st stamp now id s b b' s' :
  (forall d x, Booking.payment_status (stamp d x) = Booking.payment_status x) ->
  (forall d x, Booking.payment_method (stamp d x) = Booking.payment_method x) ->
  (forall d x, Booking.status (stamp d x) = Booking.status x) ->
  (forall d x, Booking._id (stamp d x) = Booking._id x) ->
  findById Booking._id id (bookings s) = Some b ->
  run (employee_step st stamp now id) s = (Json (PBooking b'), s') ->
  findById Booking._id id (bookings s') = Some b'
  /\ Booking.status b' = st
  /\ Booking.payment_status b' = Booking.payment_status b
  /\ Booking.payment_method b' = Booking.payment_method b.
Proof.
  intros H1 H2 H3 H4 Hb; unfold employee_step; unfold_handler.
  rewrite Hb; cbv beta iota zeta.
  destruct (in_statuses _ _); cbv beta iota zeta; [discriminate|].
  intros H; inversion H; subst; clear H; simpl.
  rewrite H1, H2, H3; repeat split; auto.
  eapply findById_save_same; [exact Hb|].
  rewrite H4; simpl; eapply findById_id; exact Hb.
Qed.

(** X26.  Cash on delivery is settled by completion and by nothing else.
    When /complete or PATCH /status with [completed] succeeds on a stored
    booking, the stored booking is [completed] and its [payment_status] is
    [paid] if it was a [cod] booking with payment [pending], and otherwise
    what it was: an unpaid online booking is completed unpaid.  PATCH
    /status with another status, accept, mark-reached and start-work leave
    [payment_status] alone; none of the routes changes the payment method. *)
Theorem cod_paid_on_completion now id s b :
  findById Booking._id id (bookings s) = Some b ->
  let settled :=
    if cod_settles b then "paid" else Booking.payment_status b in
  (forall b' s',
     run (complete now id) s = (Json (PBooking b'), s') ->
     findById Booking._id id (bookings s') = Some b'
     /\ Booking.status b' = "completed"
     /\ Booking.payment_status b' = settled
     /\ Booking.payment_method b' = Booking.payment_method b)
  /\ (forall st b' s',
        run (patch_status now id st) s = (Json (PBooking b'), s') ->
        findById Booking._id id (bookings s') = Some b'
        /\ Booking.status b' = st
        /\ Booking.payment_status b'
           = (if String.eqb st "completed" then settled
              else Booking.payment_status b)
        /\ Booking.payment_method b' = Booking.payment_method b)
  /\ (forall h st b' s',
        (h, st) = (accept, "accepted") \/ (h, st) = (mark_reached, "reached")
        \/ (h, st) = (start_work, "in_progress") ->
        run (h now id) s = (Json (PBooking b'), s') ->
        findById Booking._id id (bookings s') = Some b'
        /\ Booking.status b' = st
        /\ Booking.payment_status b' = Booking.payment_status b
        /\ Booking.payment_method b' = Booking.payment_method b).
Proof.
  intros Hb; cbv zeta.
  pose proof (findById_id _ _ _ Hb) as Hid.
  split; [|split].
  - intros b' s'; unfold complete; unfold_handler.
    rewrite Hb; cbv beta iota zeta.
    destruct (in_statuses _ _); cbv beta iota zeta; [discriminate|].
    destruct (cod_settles b); simpl;
      destruct (Booking.employee_id b); simpl;
      intros H; inversion H; subst; clear H; simpl;
      (split; [eapply findById_save_same; [exact Hb|reflexivity]|]);
      repeat split.
  - intros st b' s'; unfold patch_status; unfold_handler.
    rewrite Hb; cbv beta iota zeta.
    match goal with
    | |- context [Booking.employee_id ?u] => destruct (Booking.employee_id u)
    end; simpl; intros H; inversion H; subst; clear H; simpl.
    all: rewrite findById_update_same
      by (intros; unfold status_update; cases; reflexivity).
    all: rewrite Hb; simpl; split; [reflexivity|].
    all: unfold status_update; destruct (String.eqb st "completed") eqn:E;
      simpl; destruct (cod_settles b); simpl; cases; simpl; repeat split.
  - intros h st b' s' [E|[E|E]]; inversion E; subst; clear E;
      apply step_payment_status; auto.
Qed.

Lemma cod_paid_on_completion_witness :
  exists b' s',
    run (complete 77 10) demo_store = (Json (PBooking b'), s')
    /\ Booking.status b' = "completed"
    /\ Booking.payment_status b' = "unpaid".
Proof.
  destruct (run (complete 77 10) demo_store) as [r s'] eqn:E.
  assert (Hr : exists b', r = Json (PBooking b'))
    by (vm_compute in E; inversion E; eexists; reflexivity).
  destruct Hr as [b' ->].
  destruct (proj1 (@cod_paid_on_completion 77 10%nat demo_store
                     (demo_booking 10%nat (Some 2%nat) "accepted"
                        (demo_day 0 + 36000000) "morning") eq_refl)
              b' s' E) as (_ & Hst & Hpay & _).
  exists b', s'; repeat split; auto.
Defined.

(** ** Refusals and the six-digit code *)

Lemma rejected_requests_write_nothing_witness :
  run (cancel 77 13 None None) demo_store
  = (Fail 400 "already_cancelled", demo_store).
Proof.
  destruct (run (cancel 77 13 None None) demo_store) as [r s'] eqn:E.
  assert (Hr : r = Fail 400 "already_cancelled")
    by (vm_compute in E; inversion E; reflexivity).
  subst r.
  rewrite (@rejected_requests_write_nothing (cancel 77 13 None None)
             demo_store 400%nat "already_cancelled" s'
             (route_cancel 77 13%nat None None) E);
    [reflexivity|discriminate].
Defined.

Lemma generateOtp_six_digits_witness :
  100000 <= generateOtp (1 # 2) <= 999999.
Proof.
  apply (@generateOtp_six_digits (1 # 2)); reflexivity || discriminate.
Defined.
